(** * A shallow embedding of the planning assistant's core services

    - [Json]: the Python values exchanged with the language model (None,
      bool, int, float, str, list, dict) with the dict operations the code
      uses ([.get], [in], item assignment, [del]).
    - [Normalize]: [_normalize_actions] of [app/services/chatbot_service.py].
    - [Chat]: the two revisions of [handle_java_chatbot_request] in
      [chatbot_service.py] and the one in [chatbot_gemini_handler.py].
    - [Slots]: time parsing and formatting, [find_non_overlapping_time] and
      [search_multiple_place_blocks] of [app/services/search_service.py];
      [find_non_overlapping_time_at] adds the range checks of [datetime]
      and [timedelta].
    - [AutoSchedule]: [create_auto_schedule] of
      [app/services/auto_schedule.py].
    - [Places]: [call_google_places], [get_location_from_plan],
      [search_and_create_place_block] and [calculate_end_time] of
      [search_service.py], over the HTTP request and the geocoder, with
      the [Settings] of [app/config.py].

    The modules after the proofs of the specification ([SlotFacts],
    [SlotRange], [PlacesFacts], [MultipleFacts], [ScheduleFacts], [NormalizeFacts],
    [ChatFacts]) prove further properties of the same code, each with
    concrete instances in the matching [...Examples] module. *)

From Stdlib Require Import String Ascii ZArith List Bool Lia.
From Stdlib Require Import Sorting.Sorted Sorting.Permutation.
Import ListNotations.
Local Open Scope string_scope.
Local Set Warnings "-register-all".

Module Json.

(** Python values as produced by [json.loads]; a dict keeps its insertion
    order, so it is an association list. *)
Inductive value : Type :=
| JNull
| JBool (b : bool)
| JInt (z : Z)
| JFloat (mantissa exponent : Z)
| JStr (s : string)
| JList (l : list value)
| JObj (fields : list (string * value)).

Definition dict := list (string * value).

Fixpoint lookup (k : string) (d : dict) : option value :=
  match d with
  | [] => None
  | (k', v) :: r => if String.eqb k k' then Some v else lookup k r
  end.

(** [d.get(k)]: [None] when the key is missing. *)
Definition get (k : string) (d : dict) : value :=
  match lookup k d with Some v => v | None => JNull end.

(** [k in d] *)
Definition mem (k : string) (d : dict) : bool :=
  match lookup k d with Some _ => true | None => false end.

(** [d[k] = v]: an existing key keeps its position, a new key goes last. *)
Fixpoint setitem (k : string) (v : value) (d : dict) : dict :=
  match d with
  | [] => [(k, v)]
  | (k', v') :: r =>
      if String.eqb k k' then (k, v) :: r else (k', v') :: setitem k v r
  end.

(** [del d[k]] *)
Definition delitem (k : string) (d : dict) : dict :=
  filter (fun kv => negb (String.eqb k (fst kv))) d.

Definition is_null (v : value) : bool :=
  match v with JNull => true | _ => false end.

End Json.

Import Json.

Module Normalize.

(** [key.startswith('target') and key not in ('target', 'targetName')] *)
Definition is_target_prefixed (k : string) : bool :=
  String.prefix "target" k && negb (String.eqb k "target")
  && negb (String.eqb k "targetName").

Section NormalizeActions.

(** [robust_json_parse] is called by [_normalize_actions] but is not part of
    the sources; the normalizer is studied for every such function, and a
    concrete version following the spec is given in [Repair] below. *)
Variable robust_json_parse : string -> value.

(** Lines 284-300: rebuild [target] from the flattened [target*] fields.
    Returns the updated dict and the new [target_value]. *)
Definition recover_flattened (action_dict : dict) : dict * value :=
  let target_payload :=
    filter (fun kv => is_target_prefixed (fst kv)) action_dict in
  let keys_to_remove := map fst target_payload in
  match target_payload with
  | [] => (setitem "target" (JObj []) action_dict, JObj [])
  | _ :: _ =>
      let d := fold_left (fun acc key => delitem key acc) keys_to_remove
                 action_dict in
      (setitem "target" (JObj target_payload) d, JObj target_payload)
  end.

(** [parsed if isinstance(parsed, dict) else {'raw_string_data': parsed}] *)
Definition wrap_parsed (parsed : value) : value :=
  match parsed with
  | JObj _ => parsed
  | _ => JObj [("raw_string_data", parsed)]
  end.

(** Lines 302-321: the type-directed repair of [target_value]. *)
Definition fix_target (action_dict : dict) (target_value : value) : dict :=
  match target_value with
  | JList l =>
      match l with
      | first :: _ =>
          match first with
          | JObj _ => setitem "target" first action_dict
          | JStr s => setitem "target" (wrap_parsed (robust_json_parse s))
                        action_dict
          | _ => setitem "target" (JObj [("list_data", target_value)])
                   action_dict
          end
      | [] => setitem "target" (JObj []) action_dict
      end
  | JStr s => setitem "target" (wrap_parsed (robust_json_parse s)) action_dict
  | JBool _ | JInt _ | JFloat _ _ =>
      (* [isinstance(True, (int, float))] holds in Python *)
      setitem "target" (JObj [("value", target_value)]) action_dict
  | JNull => setitem "target" (JObj []) action_dict
  | JObj _ => action_dict
  end.

(** Lines 281-323, for one entry that is a dict. *)
Definition normalize_entry (action_dict : dict) : dict :=
  let target_value := get "target" action_dict in
  let '(d, tv) :=
    if is_null target_value && mem "targetName" action_dict
    then recover_flattened action_dict
    else (action_dict, target_value) in
  fix_target d tv.

(** Lines 272-323: the loop over the entries. *)
Fixpoint normalize_list (actions_list : list value) : list dict :=
  match actions_list with
  | [] => []
  | entry :: rest =>
      match entry with
      | JNull => normalize_list rest
      | _ =>
          let entry' :=
            match entry with
            | JList l => match l with x :: _ => x | [] => JNull end
            | _ => entry
            end in
          match entry' with
          | JObj action_dict => normalize_entry action_dict :: normalize_list rest
          | _ => normalize_list rest
          end
      end
  end.

(** [_normalize_actions(raw_actions)] *)
Definition _normalize_actions (raw_actions : value) : list dict :=
  match raw_actions with
  | JNull => []
  | JList l => normalize_list l
  | _ => normalize_list [raw_actions]
  end.

End NormalizeActions.

End Normalize.

Module Repair.

(** Modelled from the spec: [robust_json_parse], the JSON-repair helper that
    [_normalize_actions] calls and that is missing from the sources
    (spec, section 4.1, "JSON-repair parsing"). [loads] is a model of
    [json.loads] for null, booleans, integers, decimal fractions without
    exponent, strings with the simple escapes, arrays and objects (a
    repeated key keeps its first position and its last value, as a Python
    dict does). *)

Definition dq : ascii := "034"%char.
Definition bs : ascii := "092"%char.

Definition is_ws (c : ascii) : bool :=
  Ascii.eqb c " "%char || Ascii.eqb c "009"%char || Ascii.eqb c "010"%char
  || Ascii.eqb c "013"%char.

Fixpoint skip_ws (s : list ascii) : list ascii :=
  match s with
  | c :: r => if is_ws c then skip_ws r else s
  | [] => []
  end.

Fixpoint strip_prefix (p s : list ascii) : option (list ascii) :=
  match p, s with
  | [], _ => Some s
  | c :: p', c' :: s' => if Ascii.eqb c c' then strip_prefix p' s' else None
  | _ :: _, [] => None
  end.

Definition is_digit (c : ascii) : bool :=
  let n := nat_of_ascii c in (48 <=? n)%nat && (n <=? 57)%nat.

Definition digit_value (c : ascii) : Z := Z.of_nat (nat_of_ascii c) - 48.

(** Reads a run of digits: the accumulated number, how many digits, rest. *)
Fixpoint digits (s : list ascii) (acc : Z) (n : nat) : Z * nat * list ascii :=
  match s with
  | c :: r => if is_digit c then digits r (acc * 10 + digit_value c) (S n)
              else (acc, n, s)
  | [] => (acc, n, [])
  end.

Definition parse_number (s : list ascii) : option (value * list ascii) :=
  let '(sign, s1) :=
    match s with
    | c :: r => if Ascii.eqb c "-"%char then ((-1)%Z, r) else (1%Z, s)
    | [] => (1%Z, s)
    end in
  let '(m, n, s2) := digits s1 0 0 in
  if (n =? 0)%nat then None else
  match s2 with
  | c :: r =>
      if Ascii.eqb c "."%char then
        let '(m2, n2, s3) := digits r m 0 in
        if (n2 =? 0)%nat then None
        else Some (JFloat (sign * m2) (- Z.of_nat n2), s3)
      else Some (JInt (sign * m), s2)
  | [] => Some (JInt (sign * m), [])
  end.

Definition escape (e : ascii) : option ascii :=
  if Ascii.eqb e dq then Some dq
  else if Ascii.eqb e bs then Some bs
  else if Ascii.eqb e "/"%char then Some "/"%char
  else if Ascii.eqb e "n"%char then Some "010"%char
  else if Ascii.eqb e "t"%char then Some "009"%char
  else if Ascii.eqb e "r"%char then Some "013"%char
  else if Ascii.eqb e "b"%char then Some "008"%char
  else if Ascii.eqb e "f"%char then Some "012"%char
  else None.

(** The body of a string literal after its opening quote. *)
Fixpoint parse_string_body (s : list ascii) (acc : list ascii)
  : option (string * list ascii) :=
  match s with
  | [] => None
  | c :: r =>
      if Ascii.eqb c dq then Some (string_of_list_ascii (rev acc), r)
      else if Ascii.eqb c bs then
        match r with
        | e :: r' =>
            match escape e with
            | Some c' => parse_string_body r' (c' :: acc)
            | None => None
            end
        | [] => None
        end
      else parse_string_body r (c :: acc)
  end.

Definition dict_of_pairs (kvs : list (string * value)) : dict :=
  fold_left (fun d '(k, v) => setitem k v d) kvs [].

Fixpoint parse_value (fuel : nat) (s : list ascii) {struct fuel}
  : option (value * list ascii) :=
  match fuel with
  | O => None
  | S f =>
      match skip_ws s with
      | [] => None
      | c :: r =>
          if Ascii.eqb c "{"%char then
            match skip_ws r with
            | c' :: r' =>
                if Ascii.eqb c' "}"%char then Some (JObj [], r')
                else parse_members f r []
            | [] => None
            end
          else if Ascii.eqb c "["%char then
            match skip_ws r with
            | c' :: r' =>
                if Ascii.eqb c' "]"%char then Some (JList [], r')
                else parse_elements f r []
            | [] => None
            end
          else if Ascii.eqb c dq then
            match parse_string_body r [] with
            | Some (str, r') => Some (JStr str, r')
            | None => None
            end
          else
            match strip_prefix (list_ascii_of_string "null") (c :: r) with
            | Some r' => Some (JNull, r')
            | None =>
                match strip_prefix (list_ascii_of_string "true") (c :: r) with
                | Some r' => Some (JBool true, r')
                | None =>
                    match strip_prefix (list_ascii_of_string "false") (c :: r) with
                    | Some r' => Some (JBool false, r')
                    | None => parse_number (c :: r)
                    end
                end
            end
      end
  end
with parse_elements (fuel : nat) (s : list ascii) (acc : list value)
  {struct fuel} : option (value * list ascii) :=
  match fuel with
  | O => None
  | S f =>
      match parse_value f s with
      | None => None
      | Some (v, r) =>
          match skip_ws r with
          | c :: r' =>
              if Ascii.eqb c ","%char then parse_elements f r' (v :: acc)
              else if Ascii.eqb c "]"%char then Some (JList (rev (v :: acc)), r')
              else None
          | [] => None
          end
      end
  end
with parse_members (fuel : nat) (s : list ascii) (acc : list (string * value))
  {struct fuel} : option (value * list ascii) :=
  match fuel with
  | O => None
  | S f =>
      match skip_ws s with
      | c :: r =>
          if negb (Ascii.eqb c dq) then None else
          match parse_string_body r [] with
          | None => None
          | Some (k, r1) =>
              match skip_ws r1 with
              | c1 :: r2 =>
                  if negb (Ascii.eqb c1 ":"%char) then None else
                  match parse_value f r2 with
                  | None => None
                  | Some (v, r3) =>
                      match skip_ws r3 with
                      | c3 :: r4 =>
                          if Ascii.eqb c3 ","%char then
                            parse_members f r4 ((k, v) :: acc)
                          else if Ascii.eqb c3 "}"%char then
                            Some (JObj (dict_of_pairs (rev ((k, v) :: acc))), r4)
                          else None
                      | [] => None
                      end
                  end
              | [] => None
              end
          end
      | [] => None
      end
  end.

(** [json.loads(s)]: one value, surrounded by nothing but whitespace. *)
Definition loads (s : string) : option value :=
  let l := list_ascii_of_string s in
  match parse_value (4 * length l + 4) l with
  | Some (v, r) => match skip_ws r with [] => Some v | _ => None end
  | None => None
  end.

Definition strip_ws (l : list ascii) : list ascii :=
  rev (skip_ws (rev (skip_ws l))).

Definition is_quote (c : ascii) : bool := Ascii.eqb c dq || Ascii.eqb c "'"%char.

(** One layer of enclosing quotes. *)
Definition strip_quotes (l : list ascii) : list ascii :=
  match l with
  | c :: (_ :: _) as r =>
      match rev r with
      | c' :: mid => if is_quote c && Ascii.eqb c c' then rev mid else l
      | [] => l
      end
  | _ => l
  end.

Definition looks_like_object (l : list ascii) : bool :=
  match l, rev l with
  | c :: _, c' :: _ => Ascii.eqb c "{"%char && Ascii.eqb c' "}"%char
  | _, _ => false
  end.

Definition robust_json_parse (s : string) : value :=
  match loads s with
  | Some v => v
  | None =>
      let t := strip_quotes (strip_ws (list_ascii_of_string s)) in
      let t := if looks_like_object t then t
               else ("{"%char :: t ++ ["}"%char])%list in
      match loads (string_of_list_ascii t) with
      | Some v => v
      | None => JStr s
      end
  end.

End Repair.

Module Chat.

(** A Python call either returns or raises (the exception's class name). *)
Inductive result (A : Type) : Type :=
| Ok (a : A)
| Raise (exn : string).
Arguments Ok {A} a.
Arguments Raise {A} exn.

(** [app/models.py] *)
Record ActionData := {
  action : string;
  targetName : string;
  target : dict
}.

Record ChatBotActionResponse := {
  userMessage : string;
  hasAction : bool;
  actions : list ActionData
}.

(** [simple_message] (revision 10e020d of [chatbot_service.py]). *)
Definition simple_message (message : string) : ChatBotActionResponse :=
  {| userMessage := message; hasAction := false; actions := [] |}.

(** Pydantic's (lax) validation of the fields of [ActionData] and
    [AIResponse]/[ChatBotActionResponse]. *)
Definition validate_str (v : value) : option string :=
  match v with JStr s => Some s | _ => None end.

Definition bool_true_words : list string := ["1"; "on"; "t"; "true"; "y"; "yes"].
Definition bool_false_words : list string := ["0"; "off"; "f"; "false"; "n"; "no"].

Definition validate_bool (v : value) : option bool :=
  match v with
  | JBool b => Some b
  | JInt 0 => Some false
  | JInt 1 => Some true
  | JStr s =>
      if existsb (String.eqb s) bool_true_words then Some true
      else if existsb (String.eqb s) bool_false_words then Some false
      else None
  | _ => None
  end.

Definition validate_action (v : value) : option ActionData :=
  match v with
  | JObj d =>
      match lookup "action" d, lookup "targetName" d, lookup "target" d with
      | Some (JStr a), Some (JStr tn), Some (JObj t) =>
          Some {| action := a; targetName := tn; target := t |}
      | _, _, _ => None
      end
  | _ => None
  end.

Fixpoint validate_action_list (l : list value) : option (list ActionData) :=
  match l with
  | [] => Some []
  | v :: r =>
      match validate_action v, validate_action_list r with
      | Some a, Some rest => Some (a :: rest)
      | _, _ => None
      end
  end.

Definition validate_actions (v : value) : option (list ActionData) :=
  match v with JList l => validate_action_list l | _ => None end.

(** Python truthiness of a JSON value. *)
Definition py_truthy (v : value) : bool :=
  match v with
  | JNull => false
  | JBool b => b
  | JInt z => negb (Z.eqb z 0)
  | JFloat m _ => negb (Z.eqb m 0)
  | JStr s => negb (String.eqb s "")
  | JList l => match l with [] => false | _ => true end
  | JObj d => match d with [] => false | _ => true end
  end.

(** The model's reply: its candidates (a candidate without content or
    parts is [None]) and its [.text] ([None] when reading it raises). *)
Record function_call := { fc_name : string; fc_args : dict }.
Record part := { function_call_of : option function_call }.
Record candidate := { content_parts : option (list part) }.
Record model_response := {
  candidates : list candidate;
  text : option string
}.

Definition msg_not_found : string :=
  "죄송합니다. 요청하신 장소를 찾을 수 없어요. Google Places API 오류가 발생했거나 검색 결과가 없습니다.".

Definition not_found_response : ChatBotActionResponse :=
  {| userMessage := msg_not_found; hasAction := false; actions := [] |}.

Definition msg_generic_error : string :=
  "죄송합니다. 요청을 처리하는 중 오류가 발생했습니다.".

(** [int(x)] of a float [mantissa * 10^exponent]: truncation toward 0. *)
Definition py_int_of_float (m e : Z) : Z :=
  if (0 <=? e)%Z then (m * 10 ^ e)%Z else Z.quot m (10 ^ (- e)).

(** Lines 89-96. *)
Definition prepare_args (raw_args : dict) (planContext : value) : dict :=
  let args := setitem "planContext" planContext raw_args in
  match lookup "timeTableId" args with
  | Some (JFloat m e) => setitem "timeTableId" (JInt (py_int_of_float m e)) args
  | _ => args
  end.

Definition mk_create (block : dict) : ActionData :=
  {| action := "create"; targetName := "timeTablePlaceBlock"; target := block |}.

(** Either the loop runs to its end with the collected actions, or it
    leaves the function through a [return]. *)
Inductive loop_outcome :=
| Continue (acc : list ActionData)
| Return (r : ChatBotActionResponse).

Section ToolCalls.

(** The two tools, [search_and_create_place_block] and
    [search_multiple_place_blocks], called with the prepared arguments as
    keyword arguments; they return a dict, resp. a list of dicts, or raise. *)
Variable run_single : dict -> result dict.
Variable run_multi : dict -> result (list dict).
Variable planContext : value.

(** Lines 79-143, over the parts of one candidate. *)
Fixpoint process_parts (parts : list part) (acc : list ActionData)
  : result loop_outcome :=
  match parts with
  | [] => Ok (Continue acc)
  | p :: rest =>
      match function_call_of p with
      | None => process_parts rest acc
      | Some fc =>
          if String.eqb (fc_name fc) "" then process_parts rest acc else
          let args := prepare_args (fc_args fc) planContext in
          if String.eqb (fc_name fc) "search_and_create_place_block" then
            match run_single args with
            | Raise e => Raise e
            | Ok block =>
                if mem "error" block then Ok (Return not_found_response)
                else process_parts rest (acc ++ [mk_create block])
            end
          else if String.eqb (fc_name fc) "search_multiple_place_blocks" then
            match run_multi args with
            | Raise e => Raise e
            | Ok blocks =>
                match blocks with
                | [] => Ok (Return not_found_response)
                | _ :: _ => process_parts rest (acc ++ map mk_create blocks)
                end
            end
          else process_parts rest acc
      end
  end.

(** Lines 67-143: the loop over the candidates. *)
Fixpoint tool_loop (cands : list candidate) (acc : list ActionData)
  : result loop_outcome :=
  match cands with
  | [] => Ok (Continue acc)
  | c :: rest =>
      match content_parts c with
      | None => tool_loop rest acc
      | Some ps =>
          match process_parts ps acc with
          | Ok (Continue acc') => tool_loop rest acc'
          | o => o
          end
      end
  end.

End ToolCalls.

(** [action.target.get("placeName", "장소")] *)
Definition place_name (a : ActionData) : value :=
  match lookup "placeName" (target a) with Some v => v | None => JStr "장소" end.

(** [', '.join(names)]: a name that is not a string raises [TypeError]. *)
Fixpoint join_names (names : list value) : result string :=
  match names with
  | [] => Ok ""
  | [JStr s] => Ok s
  | JStr s :: rest =>
      match join_names rest with
      | Ok t => Ok (s ++ ", " ++ t)
      | Raise e => Raise e
      end
  | _ :: _ => Raise "TypeError"
  end.

(** Lines 150-154 ([len(place_names) > 0] holds whenever there are
    actions, since every [ActionData] has a [target]). *)
Definition success_message (acts : list ActionData) : result string :=
  let place_names := map place_name acts in
  match join_names (firstn 3 place_names) with
  | Ok s =>
      Ok (s ++ (if (3 <? length place_names)%nat then "..." else "")
            ++ " 일정을 추가했어요!")
  | Raise e => Raise e
  end.

(** [raw.startswith(p)], [raw.endswith(p)] and the slices of lines
    169-174. *)
Definition ends_with (suf s : string) : bool :=
  (String.length suf <=? String.length s)%nat
  && String.eqb (substring (String.length s - String.length suf)
                   (String.length suf) s) suf.

Definition strip_fences (raw : string) : string :=
  let raw := if String.prefix "```json" raw
             then substring 7 (String.length raw - 7) raw else raw in
  let raw := if String.prefix "```" raw
             then substring 3 (String.length raw - 3) raw else raw in
  if ends_with "```" raw then substring 0 (String.length raw - 3) raw else raw.

(** [s.strip()] *)
Definition py_strip (s : string) : string :=
  string_of_list_ascii (Repair.strip_ws (list_ascii_of_string s)).

(** Lines 165-178 and 234-238 (revision HEAD): the body of the [try]. *)
Definition head_parse_reply (response : model_response)
  : result ChatBotActionResponse :=
  match text response with
  | None => Raise "ValueError"
  | Some raw =>
      match Repair.loads (py_strip (strip_fences raw)) with
      | None => Raise "JSONDecodeError"
      | Some (JObj data) =>
          let um := match lookup "userMessage" data with
                    | Some v => v | None => JStr "" end in
          let ha := match lookup "hasAction" data with
                    | Some v => v | None => JBool false end in
          let acts := match lookup "actions" data with
                      | Some v => v | None => JList [] end in
          match validate_str um, validate_bool ha, validate_actions acts with
          | Some u, Some h, Some a =>
              Ok {| userMessage := u; hasAction := h; actions := a |}
          | _, _, _ => Raise "ValidationError"
          end
      | Some _ => Raise "AttributeError"
      end
  end.

(** Lines 165-258 (revision HEAD): the free-text JSON path with its
    [except] branch. *)
Definition head_free_text (response : model_response) : ChatBotActionResponse :=
  match head_parse_reply response with
  | Ok r => r
  | Raise _ =>
      match text response with
      | Some t =>
          let t' := py_strip t in
          if String.eqb t' "" then simple_message msg_generic_error
          else simple_message t'
      | None => simple_message msg_generic_error
      end
  end.

(** [handle_java_chatbot_request] of [chatbot_service.py], revision HEAD
    (lines 16-258). [gemini_model] is the module-level model, [None] when
    it is not configured; [full_prompt] is the prompt assembled by lines
    19-43, which only feeds the model call. *)
Definition handle_java_chatbot_request_head
    (run_single : dict -> result dict) (run_multi : dict -> result (list dict))
    (gemini_model : option (string -> model_response))
    (full_prompt : string) (planContext : value)
  : result ChatBotActionResponse :=
  match gemini_model with
  | None => Raise "AttributeError"   (* [None.generate_content(...)] *)
  | Some generate_content =>
      let response := generate_content full_prompt in
      match tool_loop run_single run_multi planContext (candidates response) [] with
      | Raise e => Raise e
      | Ok (Return r) => Ok r
      | Ok (Continue acts) =>
          match acts with
          | [] => Ok (head_free_text response)
          | _ :: _ =>
              match success_message acts with
              | Ok m => Ok {| userMessage := m; hasAction := true; actions := acts |}
              | Raise e => Raise e
              end
          end
      end
  end.

(** Revision 10e020d of [chatbot_service.py], lines 180-231: what happens to
    the parsed reply [ai_data_parsed] (the lines computing it were lost in
    the merge). Pydantic's error text, embedded in the diagnostic message,
    is not modelled. *)
Section RevisionB.
Variable robust_json_parse : string -> value.

Definition validate_ai_response (d : dict) : option (string * bool * list ActionData) :=
  match lookup "userMessage" d, lookup "hasAction" d with
  | Some um, Some ha =>
      let acts := match lookup "actions" d with Some v => v | None => JList [] end in
      match validate_str um, validate_bool ha, validate_actions acts with
      | Some u, Some h, Some a => Some (u, h, a)
      | _, _, _ => None
      end
  | _, _ => None
  end.

Definition msg_format_error : string := "AI 응답 형식에 문제가 있습니다.".
Definition msg_json_error : string := "AI 응답 전체 JSON 형식 오류.".

Definition revb_from_parsed (ai_data_parsed : value) : ChatBotActionResponse :=
  match ai_data_parsed with
  | JObj ai_data_dict =>
      let raw_actions :=
        match get "actions" ai_data_dict with
        | JNull => if mem "action" ai_data_dict then get "action" ai_data_dict
                   else JNull
        | v => v
        end in
      let normalized_actions :=
        Normalize._normalize_actions robust_json_parse raw_actions in
      let d1 := setitem "actions" (JList (map JObj normalized_actions))
                  ai_data_dict in
      let d2 := delitem "action" d1 in
      let d3 :=
        if py_truthy (get "hasAction" d2)
           && match normalized_actions with [] => true | _ => false end
        then setitem "hasAction" (JBool false) d2 else d2 in
      match validate_ai_response d3 with
      | None => simple_message msg_format_error
      | Some (um, ha, acts) =>
          if ha && match acts with [] => false | _ => true end
          then {| userMessage := um; hasAction := true; actions := acts |}
          else {| userMessage := um; hasAction := false; actions := [] |}
      end
  | _ => simple_message msg_json_error
  end.

End RevisionB.

(** [handle_java_chatbot_request] of [chatbot_gemini_handler.py]. The
    model call may raise; [.text] is read with [getattr(..., None)], which
    does not catch the [ValueError] of a reply without text: it reaches
    the outer [except]. [AIResponse] has no field [action], so reading it
    raises [AttributeError], also caught by the outer [except]. *)
Definition msg_no_model : string :=
  "Gemini 모델이 설정되지 않았습니다. AI 서비스를 사용할 수 없습니다.".
Definition msg_no_reply : string := "AI 응답을 받지 못했습니다.".
Definition msg_unknown_structure : string := "AI가 응답했지만 구조를 알 수 없습니다: ".
Definition msg_call_error : string := "AI 챗봇 서비스 호출 중 오류 발생: ".

Definition handle_java_chatbot_request_gemini
    (gemini_model : option (string -> result model_response))
    (full_message : string) : ChatBotActionResponse :=
  match gemini_model with
  | None => simple_message msg_no_model
  | Some generate_content =>
      match generate_content full_message with
      | Raise _ => simple_message msg_call_error
      | Ok response =>
          match text response with
          | None => simple_message msg_call_error
          | Some t =>
              if String.eqb t "" then simple_message msg_no_reply else
              match Repair.loads t with
              | Some (JObj d) =>
                  match validate_ai_response d with
                  | Some (um, ha, _) =>
                      if ha then simple_message msg_call_error
                      else {| userMessage := um; hasAction := false; actions := [] |}
                  | None => simple_message (msg_unknown_structure ++ t)
                  end
              | _ => simple_message (msg_unknown_structure ++ t)
              end
          end
      end
  end.

End Chat.

Module Slots.

Import Chat.

(** A wall-clock time or a [datetime] of today, as seconds since today's
    midnight; [.time()] keeps the remainder modulo one day. *)
Definition day_seconds : Z := 86400.
Definition DAY_START : Z := 9 * 3600.
Definition DAY_END : Z := 20 * 3600.

Definition time_of (dt : Z) : Z := Z.modulo dt day_seconds.

Definition digit_char (n : Z) : ascii := ascii_of_nat (Z.to_nat (48 + n)).

Definition two_digits (n : Z) : string :=
  String (digit_char (n / 10)) (String (digit_char (n mod 10)) EmptyString).

(** [_format_time(t)] = [t.strftime("%H:%M:%S")], for [0 <= t < 86400]. *)
Definition _format_time (t : Z) : string :=
  two_digits (t / 3600) ++ ":" ++ two_digits ((t mod 3600) / 60) ++ ":"
  ++ two_digits (t mod 60).

Fixpoint split_colon (s : list ascii) (cur : list ascii) : list (list ascii) :=
  match s with
  | [] => [rev cur]
  | c :: r => if Ascii.eqb c ":"%char then rev cur :: split_colon r []
              else split_colon r (c :: cur)
  end.

(** One [%H], [%M] or [%S] field of [strptime]: one or two digits. *)
Definition parse_field (l : list ascii) (hi : Z) : option Z :=
  let v := match l with
           | [c] => if Repair.is_digit c then Some (Repair.digit_value c) else None
           | [c1; c2] =>
               if Repair.is_digit c1 && Repair.is_digit c2
               then Some (10 * Repair.digit_value c1 + Repair.digit_value c2)%Z
               else None
           | _ => None
           end in
  match v with
  | Some n => if (n <=? hi)%Z then Some n else None
  | None => None
  end.

(** [datetime.strptime(s, "%H:%M:%S").time()] *)
Definition strptime_hms (s : string) : option Z :=
  match split_colon (list_ascii_of_string s) [] with
  | [h; m; sec] =>
      match parse_field h 23, parse_field m 59, parse_field sec 59 with
      | Some h', Some m', Some s' => Some (3600 * h' + 60 * m' + s')%Z
      | _, _, _ => None
      end
  | _ => None
  end.

(** [datetime.strptime(s, "%H:%M").time()] *)
Definition strptime_hm (s : string) : option Z :=
  match split_colon (list_ascii_of_string s) [] with
  | [h; m] =>
      match parse_field h 23, parse_field m 59 with
      | Some h', Some m' => Some (3600 * h' + 60 * m')%Z
      | _, _ => None
      end
  | _ => None
  end.

(** An argument of [time(hour=..., minute=..., second=...)]. *)
Definition py_int (v : value) : option Z :=
  match v with
  | JInt z => Some z
  | JBool b => Some (if b then 1 else 0)%Z
  | _ => None
  end.

Definition mk_time (h m s : value) : result Z :=
  match py_int h, py_int m, py_int s with
  | Some h', Some m', Some s' =>
      if (0 <=? h')%Z && (h' <=? 23)%Z && (0 <=? m')%Z && (m' <=? 59)%Z
         && (0 <=? s')%Z && (s' <=? 59)%Z
      then Ok (3600 * h' + 60 * m' + s')%Z
      else Raise "ValueError"
  | _, _, _ => Raise "TypeError"
  end.

(** [_parse_time(t)] *)
Definition _parse_time (t : value) : result Z :=
  if negb (py_truthy t) then Raise "ValueError" else
  match t with
  | JList l =>
      match l with
      | [h; m] => mk_time h m (JInt 0)
      | h :: m :: s :: _ => mk_time h m s
      | _ => Raise "ValueError"
      end
  | JStr s =>
      match strptime_hms s with
      | Some x => Ok x
      | None => match strptime_hm s with
                | Some x => Ok x
                | None => Raise "ValueError"
                end
      end
  | _ => Raise "ValueError"
  end.

(** Python's [==] between a JSON value and an int. *)
Definition py_eq_int (v : value) (n : Z) : bool :=
  match v with
  | JInt z => Z.eqb z n
  | JBool b => Z.eqb (if b then 1 else 0) n
  | JFloat m e =>
      if (0 <=? e)%Z then Z.eqb (m * 10 ^ e) n else Z.eqb m (n * 10 ^ (- e))
  | _ => false
  end.

(** [b["k"]] *)
Definition getitem (k : string) (d : dict) : result value :=
  match lookup k d with Some v => Ok v | None => Raise "KeyError" end.

(** Lines 172-180: the intervals of the blocks of [timeTableId]. *)
Fixpoint collect_used (existing_blocks : list value) (timeTableId : Z)
  : result (list (Z * Z)) :=
  match existing_blocks with
  | [] => Ok []
  | JObj b :: rest =>
      if negb (py_eq_int (get "timeTableId" b) timeTableId)
      then collect_used rest timeTableId else
      match getitem "blockStartTime" b with
      | Raise e => Raise e
      | Ok vs =>
          match _parse_time vs with
          | Raise e => Raise e
          | Ok s =>
              match getitem "blockEndTime" b with
              | Raise e => Raise e
              | Ok ve =>
                  match _parse_time ve with
                  | Raise e => Raise e
                  | Ok e =>
                      match collect_used rest timeTableId with
                      | Raise x => Raise x
                      | Ok used => Ok ((s, e) :: used)
                      end
                  end
              end
          end
      end
  | _ :: _ => Raise "AttributeError"
  end.

(** [used.sort(key=lambda x: x[0])]: a stable sort on the start. *)
Fixpoint insert_by_start (x : Z * Z) (l : list (Z * Z)) : list (Z * Z) :=
  match l with
  | [] => [x]
  | y :: r => if (fst y <=? fst x)%Z then y :: insert_by_start x r else x :: l
  end.

Fixpoint sort_by_start (l : list (Z * Z)) : list (Z * Z) :=
  match l with
  | [] => []
  | x :: r => insert_by_start x (sort_by_start r)
  end.

(** Lines 186-194: [inl c] when the loop returns at [candidate = c],
    [inr c] with the final candidate when it runs to its end. *)
Fixpoint scan (used : list (Z * Z)) (candidate duration : Z) : Z + Z :=
  match used with
  | [] => inr candidate
  | (u_start, u_end) :: rest =>
      if (candidate + duration <=? u_start)%Z then inl candidate
      else scan rest (if (candidate <? u_end)%Z then u_end else candidate) duration
  end.

Definition find_non_overlapping_time (existing_blocks : list value)
    (timeTableId duration_minutes : Z) : result (string * string) :=
  let duration := (60 * duration_minutes)%Z in
  match collect_used existing_blocks timeTableId with
  | Raise e => Raise e
  | Ok used =>
      match scan (sort_by_start used) DAY_START duration with
      | inl c => Ok (_format_time (time_of c), _format_time (time_of (c + duration)))
      | inr c =>
          if (c + duration <=? DAY_END)%Z
          then Ok (_format_time (time_of c), _format_time (time_of (c + duration)))
          else Ok ("19:00:00", "20:30:00")
      end
  end.

(** The definition above follows the arithmetic of lines 158-202 for any
    duration; [find_non_overlapping_time_at] below adds the range checks of
    [timedelta] and [datetime], which raise [OverflowError].

    [datetime.today().date()] is given by its proleptic Gregorian ordinal
    [today], between [date.min] (1) and [date.max] (3652059). *)
Definition MAX_ORDINAL : Z := 3652059.

(** A [datetime] [dt] seconds after today's midnight exists when its date
    lies in the years 1 to 9999. *)
Definition dt_in_range (today dt : Z) : bool :=
  (1 <=? today + dt / day_seconds)%Z && (today + dt / day_seconds <=? MAX_ORDINAL)%Z.

(** [timedelta(minutes=m)] in seconds: its [days] must lie within
    [-999999999, 999999999]. *)
Definition timedelta_minutes (m : Z) : result Z :=
  if (-999999999 <=? m / 1440)%Z && (m / 1440 <=? 999999999)%Z
  then Ok (60 * m)%Z else Raise "OverflowError".

(** [dt + delta] *)
Definition dt_add (today dt delta : Z) : result Z :=
  if dt_in_range today (dt + delta) then Ok (dt + delta)%Z else Raise "OverflowError".

(** Lines 186-194 with the sum [candidate + duration] range-checked. *)
Fixpoint scan_at (today : Z) (used : list (Z * Z)) (candidate duration : Z)
  : result (Z + Z) :=
  match used with
  | [] => Ok (inr candidate)
  | (u_start, u_end) :: rest =>
      match dt_add today candidate duration with
      | Raise e => Raise e
      | Ok fin =>
          if (fin <=? u_start)%Z then Ok (inl candidate)
          else scan_at today rest (if (candidate <? u_end)%Z then u_end else candidate)
                 duration
      end
  end.

(** [find_non_overlapping_time(existing_blocks, timeTableId,
    duration_minutes)] run on the day [today]. *)
Definition find_non_overlapping_time_at (today : Z) (existing_blocks : list value)
    (timeTableId duration_minutes : Z) : result (string * string) :=
  match timedelta_minutes duration_minutes with
  | Raise e => Raise e
  | Ok duration =>
      match collect_used existing_blocks timeTableId with
      | Raise e => Raise e
      | Ok used =>
          match scan_at today (sort_by_start used) DAY_START duration with
          | Raise e => Raise e
          | Ok (inl c) =>
              Ok (_format_time (time_of c), _format_time (time_of (c + duration)))
          | Ok (inr c) =>
              match dt_add today c duration with
              | Raise e => Raise e
              | Ok fin =>
                  if (fin <=? DAY_END)%Z
                  then Ok (_format_time (time_of c), _format_time (time_of fin))
                  else Ok ("19:00:00", "20:30:00")
              end
          end
      end
  end.

(** [parse_blocks_from_plan(planContext)]:
    [planContext.get("TimeTablePlaceBlocks", []) or []], as the sequence a
    later [for] loop iterates (a dict yields its keys, a string its
    characters; anything else is not iterable). *)
Definition parse_blocks_from_plan (planContext : dict) : result (list value) :=
  let v := match lookup "TimeTablePlaceBlocks" planContext with
           | Some v => v | None => JList [] end in
  if negb (py_truthy v) then Ok [] else
  match v with
  | JList l => Ok l
  | JObj d => Ok (map (fun kv => JStr (fst kv)) d)
  | JStr s => Ok (map (fun c => JStr (String c EmptyString)) (list_ascii_of_string s))
  | _ => Raise "TypeError"
  end.

(** What [call_google_places] returns when it finds a place. *)
Record place := {
  placeName : value;
  placeRating : value;
  placeAddress : value;
  placeId : value;
  xLocation : value;
  yLocation : value;
  placeLink : value
}.

(** [str.lower()] on the ASCII letters. *)
Definition lower_ascii (c : ascii) : ascii :=
  let n := nat_of_ascii c in
  if (65 <=? n)%nat && (n <=? 90)%nat then ascii_of_nat (n + 32) else c.

Definition py_lower (s : string) : string :=
  string_of_list_ascii (map lower_ascii (list_ascii_of_string s)).

(** [k in q] for strings. *)
Fixpoint contains (k s : string) : bool :=
  String.prefix k s || match s with
                       | EmptyString => false
                       | String _ r => contains k r
                       end.

(** [detect_place_category(query)] *)
Definition detect_place_category (query : string) : Z :=
  let q := py_lower query in
  if existsb (fun k => contains k q) ["숙소"; "호텔"; "게스트하우스"; "모텔"; "펜션"; "stay"]
  then 1
  else if existsb (fun k => contains k q)
            ["맛집"; "식당"; "카페"; "음식"; "저녁"; "점심"; "회집"; "회 "]
  then 2
  else 0.

(** The block dict of lines 411-425. *)
Definition make_block (p : place) (start_str end_str : string)
    (category timeTableId : Z) : dict :=
  [("blockId", JInt (-1)); ("placeName", placeName p); ("placeTheme", JStr "");
   ("placeRating", placeRating p); ("placeAddress", placeAddress p);
   ("placeLink", placeLink p); ("blockStartTime", JStr start_str);
   ("blockEndTime", JStr end_str); ("xLocation", xLocation p);
   ("yLocation", yLocation p); ("placeId", placeId p);
   ("placeCategoryId", JInt category); ("timeTableId", JInt timeTableId)].

Section MultipleBlocks.

(** The places API: [call_google_places(query, location, result_index)];
    [None] when nothing is found or the request fails. *)
Variable call_google_places : string -> option string -> nat -> option place.
(** [get_location_from_plan(planContext, timeTableId)], whose result only
    biases the search. *)
Variable get_location_from_plan : dict -> Z -> option string.

(** [query_count]: how often each query was already issued. *)
Fixpoint count_of (q : string) (query_count : list (string * nat)) : nat :=
  match query_count with
  | [] => 0
  | (k, n) :: r => if String.eqb q k then n else count_of q r
  end.

Fixpoint set_count (q : string) (n : nat) (query_count : list (string * nat))
  : list (string * nat) :=
  match query_count with
  | [] => [(q, n)]
  | (k, m) :: r => if String.eqb q k then (q, n) :: r else (k, m) :: set_count q n r
  end.

(** Lines 392-433: the loop over the queries, from [current_start_dt]. *)
Fixpoint place_queries (queries : list string) (location : option string)
    (timeTableId duration : Z) (current_start_dt : Z)
    (query_count : list (string * nat)) : list dict :=
  match queries with
  | [] => []
  | q :: rest =>
      let result_index := count_of q query_count in
      let query_count := set_count q (S result_index) query_count in
      match call_google_places q location result_index with
      | None => place_queries rest location timeTableId duration current_start_dt query_count
      | Some google_place =>
          let start_dt := current_start_dt in
          let end_dt := (start_dt + duration)%Z in
          if (DAY_END <? time_of end_dt)%Z then [] else
          make_block google_place (_format_time (time_of start_dt))
            (_format_time (time_of end_dt)) (detect_place_category q) timeTableId
          :: place_queries rest location timeTableId duration end_dt query_count
      end
  end.

(** [search_multiple_place_blocks(queries, timeTableId, planContext,
    duration_minutes)] *)
Definition search_multiple_place_blocks (queries : list string)
    (timeTableId : Z) (planContext : dict) (duration_minutes : Z)
  : result (list dict) :=
  match parse_blocks_from_plan planContext with
  | Raise e => Raise e
  | Ok existing_blocks =>
      let location := get_location_from_plan planContext timeTableId in
      match find_non_overlapping_time existing_blocks timeTableId duration_minutes with
      | Raise e => Raise e
      | Ok (first_start_str, _) =>
          match _parse_time (JStr first_start_str) with
          | Raise e => Raise e
          | Ok current_start_dt =>
              Ok (place_queries queries location timeTableId
                    (60 * duration_minutes) current_start_dt [])
          end
      end
  end.

End MultipleBlocks.

End Slots.

Module AutoSchedule.

Import Chat Slots.

(** Calendar dates as days since 1970-01-01 (proleptic Gregorian). *)
Definition days_from_civil (y m d : Z) : Z :=
  let y := if (m <=? 2)%Z then (y - 1)%Z else y in
  let era := (y / 400)%Z in
  let yoe := (y - era * 400)%Z in
  let doy := ((153 * (if (2 <? m)%Z then m - 3 else m + 9) + 2) / 5 + d - 1)%Z in
  let doe := (yoe * 365 + yoe / 4 - yoe / 100 + doy)%Z in
  (era * 146097 + doe - 719468)%Z.

Definition civil_from_days (z : Z) : Z * Z * Z :=
  let z := (z + 719468)%Z in
  let era := (z / 146097)%Z in
  let doe := (z - era * 146097)%Z in
  let yoe := ((doe - doe / 1460 + doe / 36524 - doe / 146096) / 365)%Z in
  let y := (yoe + era * 400)%Z in
  let doy := (doe - (365 * yoe + yoe / 4 - yoe / 100))%Z in
  let mp := ((5 * doy + 2) / 153)%Z in
  let d := (doy - (153 * mp + 2) / 5 + 1)%Z in
  let m := if (mp <? 10)%Z then (mp + 3)%Z else (mp - 9)%Z in
  ((if (m <=? 2)%Z then y + 1 else y)%Z, m, d).

Definition is_leap (y : Z) : bool :=
  (Z.eqb (y mod 4) 0 && negb (Z.eqb (y mod 100) 0)) || Z.eqb (y mod 400) 0.

Definition days_in_month (y m : Z) : Z :=
  if Z.eqb m 2 then (if is_leap y then 29 else 28)
  else if existsb (Z.eqb m) [4%Z; 6%Z; 9%Z; 11%Z] then 30 else 31.

(** [date.min] and [date.max] *)
Definition date_min : Z := days_from_civil 1 1 1.
Definition date_max : Z := days_from_civil 9999 12 31.

Definition digits_value (l : list ascii) : option Z :=
  if forallb Repair.is_digit l && negb (Nat.eqb (length l) 0)
  then Some (fold_left (fun acc c => acc * 10 + Repair.digit_value c)%Z l 0%Z)
  else None.

Fixpoint split_dash (s : list ascii) (cur : list ascii) : list (list ascii) :=
  match s with
  | [] => [rev cur]
  | c :: r => if Ascii.eqb c "-"%char then rev cur :: split_dash r []
              else split_dash r (c :: cur)
  end.

(** [datetime.strptime(s, "%Y-%m-%d").date()]: four digits of year, one or
    two digits of month and of day, a day that exists. *)
Definition strptime_date (s : string) : result Z :=
  match split_dash (list_ascii_of_string s) [] with
  | [ys; ms; ds] =>
      match digits_value ys, digits_value ms, digits_value ds with
      | Some y, Some m, Some d =>
          if Nat.eqb (length ys) 4 && (length ms <=? 2)%nat && (length ds <=? 2)%nat
             && (1 <=? m)%Z && (m <=? 12)%Z && (1 <=? d)%Z && (d <=? 31)%Z
          then if (1 <=? y)%Z && (d <=? days_in_month y m)%Z
               then Ok (days_from_civil y m d) else Raise "ValueError"
          else Raise "ValueError"
      | _, _, _ => Raise "ValueError"
      end
  | _ => Raise "ValueError"
  end.

(** [date + timedelta(days=k)] *)
Definition add_days (d k : Z) : result Z :=
  if (date_min <=? d + k)%Z && (d + k <=? date_max)%Z then Ok (d + k)%Z
  else Raise "OverflowError".

Fixpoint digits_string (n : nat) (z : Z) : string :=
  match n with
  | O => EmptyString
  | S n' => digits_string n' (z / 10) ++ String (digit_char (z mod 10)) EmptyString
  end.

Fixpoint num_digits_aux (fuel : nat) (z : Z) : nat :=
  match fuel with
  | O => 1
  | S f => if (z <? 10)%Z then 1 else S (num_digits_aux f (z / 10))
  end.

Definition num_digits (z : Z) : nat := num_digits_aux 64 z.

(** [f"{z:0wd}"] for an int [z]. *)
Definition pad_int (w : nat) (z : Z) : string :=
  if (z <? 0)%Z then
    "-" ++ digits_string (Nat.max (w - 1) (num_digits (- z))) (- z)
  else digits_string (Nat.max w (num_digits z)) z.

Definition format_date (d : Z) : string :=
  let '(y, m, dd) := civil_from_days d in
  pad_int 4 y ++ "-" ++ pad_int 2 m ++ "-" ++ pad_int 2 dd.

(** [format(v, "0wd")] for a JSON value. *)
Definition format_pad (w : nat) (v : value) : result string :=
  match v with
  | JInt z => Ok (pad_int w z)
  | JBool b => Ok (pad_int w (if b then 1 else 0))
  | JFloat _ _ | JStr _ => Raise "ValueError"
  | _ => Raise "TypeError"
  end.

Definition nth_or_index_error (l : list value) (i : nat) : result value :=
  match nth_error l i with Some v => Ok v | None => Raise "IndexError" end.

Definition format_at (l : list value) (i w : nat) : result string :=
  match nth_or_index_error l i with
  | Ok v => format_pad w v
  | Raise e => Raise e
  end.

(** Lines 30-39: the block's date as a string, [None] to skip it. *)
Definition block_date_str (block_date : value) : result (option string) :=
  match block_date with
  | JList l =>
      match format_at l 0 4 with
      | Raise e => Raise e
      | Ok y =>
          match format_at l 1 2 with
          | Raise e => Raise e
          | Ok m =>
              match format_at l 2 2 with
              | Raise e => Raise e
              | Ok d => Ok (Some (y ++ "-" ++ m ++ "-" ++ d))
              end
          end
      end
  | JStr s => Ok (Some s)
  | _ => Ok None
  end.

Fixpoint filter_blocks_for_date (all_blocks : list value) (date_str : string)
  : result (list dict) :=
  match all_blocks with
  | [] => Ok []
  | JObj block :: rest =>
      match block_date_str (get "date" block) with
      | Raise e => Raise e
      | Ok bd =>
          match filter_blocks_for_date rest date_str with
          | Raise e => Raise e
          | Ok r =>
              match bd with
              | Some s => if String.eqb s date_str then Ok (block :: r) else Ok r
              | None => Ok r
              end
          end
      end
  | _ :: _ => Raise "AttributeError"
  end.

(** [get_existing_blocks_for_date(planContext, date_str)] *)
Definition get_existing_blocks_for_date (planContext : dict) (date_str : string)
  : result (list dict) :=
  match parse_blocks_from_plan planContext with
  | Raise e => Raise e
  | Ok all_blocks => filter_blocks_for_date all_blocks date_str
  end.

(** A block's [blockStartTime]/[blockEndTime] once converted: a [time]
    from a string, or the raw value, which a [time] cannot be compared with. *)
Inductive tval :=
| TTime (t : Z)
| TOther (v : value).

Definition to_tval (v : value) : result tval :=
  match v with
  | JStr s => match strptime_hms s with
              | Some t => Ok (TTime t)
              | None => Raise "ValueError"
              end
  | _ => Ok (TOther v)
  end.

Definition lt_tval (a b : tval) : result bool :=
  match a, b with
  | TTime x, TTime y => Ok (x <? y)%Z
  | _, _ => Raise "TypeError"
  end.

Definition parse_lit (s : string) : result Z :=
  match strptime_hms s with Some t => Ok t | None => Raise "ValueError" end.

(** Lines 66-84. *)
Fixpoint conflict_loop (blocks : list dict) (check_start check_end : Z)
  : result bool :=
  match blocks with
  | [] => Ok false
  | block :: rest =>
      let block_start := get "blockStartTime" block in
      let block_end := get "blockEndTime" block in
      if negb (py_truthy block_start) || negb (py_truthy block_end)
      then conflict_loop rest check_start check_end else
      match to_tval block_start, to_tval block_end with
      | Raise e, _ => Raise e
      | _, Raise e => Raise e
      | Ok bs, Ok be =>
          match lt_tval (TTime check_start) be with
          | Raise e => Raise e
          | Ok false => conflict_loop rest check_start check_end
          | Ok true =>
              match lt_tval bs (TTime check_end) with
              | Raise e => Raise e
              | Ok true => Ok true
              | Ok false => conflict_loop rest check_start check_end
              end
          end
      end
  end.

(** [has_time_conflict(existing_blocks, start_time, end_time)] *)
Definition has_time_conflict (existing_blocks : list dict)
    (start_time end_time : string) : result bool :=
  match existing_blocks with
  | [] => Ok false
  | _ :: _ =>
      match parse_lit start_time, parse_lit end_time with
      | Ok s, Ok e => conflict_loop existing_blocks s e
      | Raise x, _ => Raise x
      | _, Raise x => Raise x
      end
  end.

(** Lines 127-144: the first block of day 1 overlapping 21:00-23:59. *)
Fixpoint find_accommodation (blocks : list dict) : result (option dict) :=
  match blocks with
  | [] => Ok None
  | block :: rest =>
      let block_start := get "blockStartTime" block in
      let block_end := get "blockEndTime" block in
      if negb (py_truthy block_start && py_truthy block_end)
      then find_accommodation rest else
      match to_tval block_start, to_tval block_end with
      | Raise e, _ => Raise e
      | _, Raise e => Raise e
      | Ok bs, Ok be =>
          match lt_tval bs (TTime (23 * 3600 + 59 * 60)) with
          | Raise e => Raise e
          | Ok false => find_accommodation rest
          | Ok true =>
              match lt_tval (TTime (21 * 3600)) be with
              | Raise e => Raise e
              | Ok true => Ok (Some block)
              | Ok false => find_accommodation rest
              end
          end
      end
  end.

(** Lines 148-156. *)
Definition place_of_block (b : dict) : place :=
  {| placeName := get "placeName" b;
     placeRating := match lookup "placeRating" b with
                    | Some v => v | None => JFloat 0 0 end;
     placeAddress := get "placeAddress" b;
     placeLink := get "placeLink" b;
     xLocation := get "xLocation" b;
     yLocation := get "yLocation" b;
     placeId := get "placeId" b |}.

(** The block dict of [create_place_block] and
    [create_place_block_from_data]. *)
Definition auto_block (p : place) (start_time end_time date_str : string)
    (category temp_time_table_id : Z) : dict :=
  [("blockId", JInt (-1)); ("placeName", placeName p); ("placeTheme", JStr "");
   ("placeRating", placeRating p); ("placeAddress", placeAddress p);
   ("placeLink", placeLink p); ("blockStartTime", JStr start_time);
   ("blockEndTime", JStr end_time); ("xLocation", xLocation p);
   ("yLocation", yLocation p); ("placeId", placeId p);
   ("placeCategoryId", JInt category); ("timeTableId", JInt temp_time_table_id);
   ("date", JStr date_str)].

Definition time_table_action (date_str : string) : dict :=
  [("action", JStr "create"); ("targetName", JStr "timeTable");
   ("target", JObj [("date", JStr date_str)])].

Section Schedule.

(** The places API, called with [location = planContext.get("TravelName")]. *)
Variable call_google_places : string -> value -> nat -> option place.

(** [create_place_block(...)] *)
Definition create_place_block (query start_time end_time date_str : string)
    (temp_time_table_id : Z) (location : value) (result_index : nat)
  : option dict :=
  match call_google_places query location result_index with
  | None => None
  | Some google_place =>
      Some (auto_block google_place start_time end_time date_str
              (detect_place_category query) temp_time_table_id)
  end.

(** [create_place_block_from_data(...)] *)
Definition create_place_block_from_data (place_data : place)
    (start_time end_time date_str : string) (temp_time_table_id : Z) : dict :=
  auto_block place_data start_time end_time date_str 1 temp_time_table_id.

(** One search slot of [create_daily_schedule]: the blocks gathered so far
    get the slot's block unless the slot conflicts or the search fails. *)
Definition search_slot (existing_blocks : list dict) (query start_time end_time : string)
    (date_str : string) (temp_time_table_id : Z) (location : value)
    (result_index : nat) (blocks : list dict) : result (list dict) :=
  match has_time_conflict existing_blocks start_time end_time with
  | Raise e => Raise e
  | Ok true => Ok blocks
  | Ok false =>
      match create_place_block query start_time end_time date_str
              temp_time_table_id location result_index with
      | Some b => Ok (blocks ++ [b])%list
      | None => Ok blocks
      end
  end.

(** [create_daily_schedule(...)] *)
Definition create_daily_schedule (day_number : nat) (date_str : string)
    (temp_time_table_id : Z) (destination : string) (is_last_day : bool)
    (location : value) (accommodation_place : option place) (planContext : dict)
  : result (list dict) :=
  match get_existing_blocks_for_date planContext date_str with
  | Raise e => Raise e
  | Ok existing_blocks =>
      let idx := (day_number - 1)%nat in
      let dinner_query :=
        if Nat.eqb (Nat.modulo day_number 2) 0 then destination ++ " 회 맛집"
        else destination ++ " 고기 맛집" in
      match search_slot existing_blocks (destination ++ " 관광지") "09:00:00" "11:00:00"
              date_str temp_time_table_id location idx [] with
      | Raise e => Raise e
      | Ok b1 =>
      match search_slot existing_blocks (destination ++ " 맛집") "12:00:00" "14:00:00"
              date_str temp_time_table_id location idx b1 with
      | Raise e => Raise e
      | Ok b2 =>
      match search_slot existing_blocks dinner_query "18:00:00" "20:00:00"
              date_str temp_time_table_id location idx b2 with
      | Raise e => Raise e
      | Ok b3 =>
          match accommodation_place with
          | Some acc =>
              if is_last_day then Ok b3 else
              match has_time_conflict existing_blocks "21:00:00" "23:59:00" with
              | Raise e => Raise e
              | Ok true => Ok b3
              | Ok false =>
                  Ok (b3 ++ [create_place_block_from_data acc "21:00:00" "23:59:00"
                               date_str temp_time_table_id])%list
              end
          | None => Ok b3
          end
      end end end
  end.

(** Lines 119-166. *)
Definition choose_accommodation (days : Z) (start_date_obj : Z)
    (planContext : dict) (destination : string) (location : value)
  : result (option place) :=
  if (1 <? days)%Z then
    match get_existing_blocks_for_date planContext (format_date start_date_obj) with
    | Raise e => Raise e
    | Ok first_day_blocks =>
        match find_accommodation first_day_blocks with
        | Raise e => Raise e
        | Ok (Some existing_accommodation) => Ok (Some (place_of_block existing_accommodation))
        | Ok None => Ok (call_google_places (destination ++ " 호텔") location 0)
        end
    end
  else Ok None.

(** Lines 168-197: the loop over the days [day, ..., days - 1]; returns the
    TimeTable actions and the PlaceBlocks of these days. *)
Fixpoint day_loop (fuel day : nat) (days : Z) (start_date_obj : Z)
    (planContext : dict) (destination : string) (location : value)
    (accommodation_place : option place) : result (list dict * list dict) :=
  match fuel with
  | O => Ok ([], [])
  | S f =>
      match add_days start_date_obj (Z.of_nat day) with
      | Raise e => Raise e
      | Ok current_date =>
          let date_str := format_date current_date in
          let temp_time_table_id := (- (Z.of_nat day + 1))%Z in
          match create_daily_schedule (S day) date_str temp_time_table_id destination
                  (Z.eqb (Z.of_nat day) (days - 1)) location accommodation_place
                  planContext with
          | Raise e => Raise e
          | Ok day_blocks =>
              match day_loop f (S day) days start_date_obj planContext destination
                      location accommodation_place with
              | Raise e => Raise e
              | Ok (tts, pbs) =>
                  Ok (time_table_action date_str :: tts, (day_blocks ++ pbs)%list)
              end
          end
      end
  end.

(** [create_auto_schedule(days, start_date, planContext, destination)]:
    the lists under ["timeTables"] and ["placeBlocks"]. *)
Definition create_auto_schedule (days : Z) (start_date : string)
    (planContext : dict) (destination : string) : result (list dict * list dict) :=
  match strptime_date start_date with
  | Raise e => Raise e
  | Ok start_date_obj =>
      let location := get "TravelName" planContext in
      match choose_accommodation days start_date_obj planContext destination location with
      | Raise e => Raise e
      | Ok accommodation_place =>
          day_loop (Z.to_nat days) 0 days start_date_obj planContext destination
            location accommodation_place
      end
  end.

End Schedule.

End AutoSchedule.

Module Places.

Import Chat Slots.

(** [app.config.Settings]: a dataclass whose fields are read from the
    environment. *)
Record Settings := {
  openweather_api_key : string;
  gemini_api_key : string;
  gemini_api_url : string;
  allowed_origins : list string
}.

(** [getattr(settings, name)] for a [name] that is neither a method nor a
    dunder attribute of the dataclass: the field of that name, or
    [AttributeError]. *)
Definition settings_field (s : Settings) (name : string) : result value :=
  if String.eqb name "openweather_api_key" then Ok (JStr (openweather_api_key s))
  else if String.eqb name "gemini_api_key" then Ok (JStr (gemini_api_key s))
  else if String.eqb name "gemini_api_url" then Ok (JStr (gemini_api_url s))
  else if String.eqb name "allowed_origins"
  then Ok (JList (map JStr (allowed_origins s)))
  else Raise "AttributeError".

Section Google.

(** [app.config.settings] *)
Variable settings : Settings.
(** [requests.get(url, params=params, timeout=5).json()] for the Text
    Search URL: [None] when the request or the JSON decoding raises. *)
Variable http_get : list (string * value) -> option value.
(** [str(v)], which the f-strings apply to the coordinates and ids. *)
Variable py_str : value -> string.
(** [get_destination_location(destination)], which returns [None] on any
    failure. *)
Variable get_destination_location : value -> option string.

(** Lines 227-238 of [search_service.py]: the query parameters; [location]
    and [radius] only when [location] is truthy. *)
Definition places_params (key : value) (query : string) (location : option string)
    (radius : Z) : list (string * value) :=
  [("query", JStr query); ("key", key); ("language", JStr "ko")]
  ++ match location with
     | Some l => if String.eqb l "" then [] else [("location", JStr l); ("radius", JInt radius)]
     | None => []
     end.

(** Lines 258-266: the place dict built from one result [item]; any
    exception ([KeyError], [TypeError], [AttributeError]) is caught by the
    [except Exception] of line 270, giving [None]. *)
Definition place_of_item (item : value) : option place :=
  match item with
  | JObj it =>
      match lookup "geometry" it with
      | Some (JObj g) =>
          match lookup "location" g with
          | Some (JObj loc) =>
              match lookup "lng" loc, lookup "lat" loc, lookup "place_id" it with
              | Some lng, Some lat, Some pid =>
                  Some {| placeName := get "name" it;
                          placeRating := match lookup "rating" it with
                                         | Some v => v | None => JFloat 0 0 end;
                          placeAddress := get "formatted_address" it;
                          placeId := get "place_id" it;
                          xLocation := lng;
                          yLocation := lat;
                          placeLink := JStr ("https://www.google.com/maps/place/?q=place_id:"
                                             ++ py_str pid) |}
              | _, _, _ => None
              end
          | _ => None
          end
      | _ => None
      end
  | _ => None
  end.

(** [call_google_places(query, location, radius, result_index)]: the key
    is read at line 229, before the [try]. *)
Definition call_google_places (query : string) (location : option string)
    (radius : Z) (result_index : nat) : result (option place) :=
  match settings_field settings "google_places_api_key" with
  | Raise e => Raise e
  | Ok key =>
  Ok match http_get (places_params key query location radius) with
  | Some (JObj data) =>
      match get "status" data with
      | JStr s =>
          if negb (String.eqb s "OK") then None else
          let results := get "results" data in
          let results := if py_truthy results then results else JList [] in
          match results with
          | JList l =>
              match l with
              | [] => None
              | _ :: _ =>
                  let result_index :=
                    if (length l <=? result_index)%nat then (length l - 1)%nat
                    else result_index in
                  place_of_item (nth result_index l JNull)
              end
          | _ => None   (* [len] or the indexing raises, or [item.get] does *)
          end
      | _ => None
      end
  | _ => None   (* the request fails, or [data.get] raises on a non-dict *)
  end
  end.

(** [f"{y_loc},{x_loc}"] of a block with both coordinates. *)
Definition coords (b : dict) : option string :=
  let y_loc := get "yLocation" b in
  let x_loc := get "xLocation" b in
  if is_null y_loc || is_null x_loc then None
  else Some (py_str y_loc ++ "," ++ py_str x_loc).

Fixpoint first_coords (blocks : list dict) : option string :=
  match blocks with
  | [] => None
  | b :: rest => match coords b with Some s => Some s | None => first_coords rest end
  end.

(** [b.get(...)] on every element: [AttributeError] unless all are dicts. *)
Fixpoint dicts_of (blocks : list value) : result (list dict) :=
  match blocks with
  | [] => Ok []
  | JObj b :: rest =>
      match dicts_of rest with Ok r => Ok (b :: r) | Raise e => Raise e end
  | _ :: _ => Raise "AttributeError"
  end.

(** [get_location_from_plan(planContext, timeTableId)] (lines 71-108). *)
Definition get_location_from_plan (planContext : dict) (timeTableId : Z)
  : result (option string) :=
  let from_travel_name :=
    let travel_name := get "TravelName" planContext in
    if py_truthy travel_name then get_destination_location travel_name else None in
  match parse_blocks_from_plan planContext with
  | Raise e => Raise e
  | Ok [] => Ok from_travel_name
  | Ok blocks =>
      match dicts_of blocks with
      | Raise e => Raise e
      | Ok ds =>
          let same_day_blocks :=
            filter (fun b => py_eq_int (get "timeTableId" b) timeTableId) ds in
          match first_coords same_day_blocks with
          | Some s => Ok (Some s)
          | None =>
              match first_coords ds with
              | Some s => Ok (Some s)
              | None => Ok from_travel_name
              end
          end
      end
  end.

(** The ordinal of [datetime.today().date()]. *)
Variable today : Z.

(** [search_and_create_place_block(query, timeTableId, planContext,
    duration_minutes)] (lines 294-351); the search uses the default radius
    5000 and result index 0. *)
Definition search_and_create_place_block (query : string) (timeTableId : Z)
    (planContext : dict) (duration_minutes : Z) : result dict :=
  match parse_blocks_from_plan planContext with
  | Raise e => Raise e
  | Ok existing_blocks =>
      match get_location_from_plan planContext timeTableId with
      | Raise e => Raise e
      | Ok location =>
          match call_google_places query location 5000 0 with
          | Raise e => Raise e
          | Ok None => Ok [("error", JStr "NO_PLACE_FOUND")]
          | Ok (Some google_place) =>
              match find_non_overlapping_time_at today existing_blocks timeTableId
                      duration_minutes with
              | Raise e => Raise e
              | Ok (start_str, end_str) =>
                  Ok (make_block google_place start_str end_str
                        (detect_place_category query) timeTableId)
              end
          end
      end
  end.

End Google.

(** [calculate_end_time(start_time_str, duration_minutes)] (lines 205-212),
    run on the day [today]. *)
Definition calculate_end_time (today : Z) (start_time_str : string)
    (duration_minutes : Z) : result string :=
  match _parse_time (JStr start_time_str) with
  | Raise e => Raise e
  | Ok t =>
      match timedelta_minutes duration_minutes with
      | Raise e => Raise e
      | Ok delta =>
          match dt_add today t delta with
          | Raise e => Raise e
          | Ok end_dt => Ok (_format_time (time_of end_dt))
          end
      end
  end.

End Places.

(** * Proofs *)

Module JsonFacts.

Lemma lookup_setitem_same k v d : lookup k (setitem k v d) = Some v.
Proof.
  induction d as [|[k' v'] r IH]; simpl.
  - rewrite String.eqb_refl. reflexivity.
  - destruct (String.eqb k k') eqn:E; simpl.
    + rewrite String.eqb_refl. reflexivity.
    + rewrite E. exact IH.
Qed.

Lemma get_setitem_same k v d : get k (setitem k v d) = v.
Proof. unfold get. rewrite lookup_setitem_same. reflexivity. Qed.

Lemma setitem_fresh k v d : lookup k d = None -> setitem k v d = (d ++ [(k, v)])%list.
Proof.
  induction d as [|[k' v'] r IH]; simpl; intros H.
  - reflexivity.
  - destruct (String.eqb k k'); [discriminate|]. rewrite IH by exact H.
    reflexivity.
Qed.

Lemma lookup_get_obj k d fs : get k d = JObj fs -> lookup k d = Some (JObj fs).
Proof. unfold get. destruct (lookup k d); [intros ->; reflexivity | discriminate]. Qed.

Lemma get_lookup_none k d : lookup k d = None -> get k d = JNull.
Proof. unfold get. intros ->. reflexivity. Qed.

Lemma filter_filter {A} (f g : A -> bool) l :
  filter g (filter f l) = filter (fun x => f x && g x) l.
Proof.
  induction l as [|x l IH]; simpl; [reflexivity|].
  destruct (f x); simpl; [destruct (g x); simpl; rewrite IH|]; reflexivity || exact IH.
Qed.

(** Deleting a list of keys one after the other keeps the other fields. *)
Lemma fold_delitem ks d :
  fold_left (fun acc key => delitem key acc) ks d
  = filter (fun kv => negb (existsb (String.eqb (fst kv)) ks)) d.
Proof.
  revert d. induction ks as [|k ks IH]; intros d; simpl.
  - rewrite filter_true. reflexivity.
  - rewrite IH. unfold delitem. rewrite filter_filter.
    apply filter_ext. intros [k' v]; simpl. rewrite (String.eqb_sym k' k).
    destruct (String.eqb k k'); reflexivity.
Qed.

End JsonFacts.

Module NormalizeProofs.

Import JsonFacts Normalize.
Local Open Scope list_scope.

(** The field [target] of an action entry holds a mapping. *)
Definition target_is_mapping (d : dict) : Prop :=
  exists fs, lookup "target" d = Some (JObj fs).

Definition prefixed (kv : string * value) : bool := is_target_prefixed (fst kv).

Lemma setitem_target_mapping fs d : target_is_mapping (setitem "target" (JObj fs) d).
Proof. exists fs. apply lookup_setitem_same. Qed.

Lemma wrap_parsed_obj p : exists fs, wrap_parsed p = JObj fs.
Proof. destruct p; eexists; reflexivity. Qed.

Lemma fix_target_mapping parse d tv :
  (forall fs, tv = JObj fs -> lookup "target" d = Some (JObj fs)) ->
  target_is_mapping (fix_target parse d tv).
Proof.
  intros H. destruct tv as [| | | |s|l|fs]; simpl; try apply setitem_target_mapping.
  - destruct (wrap_parsed_obj (parse s)) as [fs ->]. apply setitem_target_mapping.
  - destruct l as [|first rest]; [apply setitem_target_mapping|].
    destruct first as [| | | |s|l'|fs]; try apply setitem_target_mapping.
    destruct (wrap_parsed_obj (parse s)) as [fs ->]. apply setitem_target_mapping.
  - exists fs. apply H. reflexivity.
Qed.

Lemma recover_flattened_mapping d :
  forall fs, snd (recover_flattened d) = JObj fs ->
  lookup "target" (fst (recover_flattened d)) = Some (JObj fs).
Proof.
  intros fs. unfold recover_flattened.
  destruct (filter _ d); simpl; intros Heq; inversion Heq; subst;
    apply lookup_setitem_same.
Qed.

Lemma normalize_entry_mapping parse d : target_is_mapping (normalize_entry parse d).
Proof.
  unfold normalize_entry.
  destruct (is_null (get "target" d) && mem "targetName" d).
  - pose proof (recover_flattened_mapping d) as H.
    destruct (recover_flattened d) as [d' tv]. apply fix_target_mapping. exact H.
  - apply fix_target_mapping. intros fs Hg. apply lookup_get_obj. exact Hg.
Qed.

Lemma normalize_list_mapping parse l : Forall target_is_mapping (normalize_list parse l).
Proof.
  induction l as [|e l IH]; simpl; [constructor|].
  destruct e as [| | | | |[|x xs]|fs]; try exact IH;
    try (constructor; [apply normalize_entry_mapping | exact IH]).
  destruct x; try exact IH. constructor; [apply normalize_entry_mapping | exact IH].
Qed.

Lemma normalize_list_app parse l1 l2 :
  normalize_list parse (l1 ++ l2) = normalize_list parse l1 ++ normalize_list parse l2.
Proof.
  induction l1 as [|e l1 IH]; simpl; [reflexivity|].
  destruct e as [| | | | |[|x xs]|fs]; try (rewrite IH; reflexivity).
  destruct x; rewrite IH; reflexivity.
Qed.

Lemma normalize_actions_in_context parse pre d post :
  _normalize_actions parse (JList (pre ++ JObj d :: post))
  = normalize_list parse pre ++ normalize_entry parse d :: normalize_list parse post.
Proof. simpl. rewrite normalize_list_app. reflexivity. Qed.

Lemma lookup_filter_none k f d : lookup k d = None -> lookup k (filter f d) = None.
Proof.
  induction d as [|[k' v] d IH]; simpl; [reflexivity|].
  destruct (String.eqb k k') eqn:E; [discriminate|]. intros H.
  destruct (f (k', v)); simpl; [rewrite E|]; apply IH; exact H.
Qed.

(** A field is removed exactly when its name carries the prefix. *)
Lemma removed_iff_prefixed d kv :
  In kv d ->
  existsb (String.eqb (fst kv)) (map fst (filter prefixed d)) = prefixed kv.
Proof.
  intros Hin. destruct (prefixed kv) eqn:P.
  - apply existsb_exists. exists (fst kv). split; [|apply String.eqb_refl].
    apply in_map. apply filter_In. split; assumption.
  - apply Bool.not_true_is_false. intros Hex.
    apply existsb_exists in Hex as [k [Hk Heq]].
    apply String.eqb_eq in Heq. subst k.
    apply in_map_iff in Hk as [kv' [Hfst Hin']].
    apply filter_In in Hin' as [_ Hp]. unfold prefixed in *.
    rewrite Hfst in Hp. congruence.
Qed.

(** Claim C2: for every input of [_normalize_actions] (None, one mapping,
    or a list whose entries may be None, nested lists, non-mappings, or
    mappings whose [target] is a list, a string, a number or missing), and
    for every [robust_json_parse], each returned entry is a mapping whose
    [target] is a mapping. *)
Theorem normalize_actions_target_is_mapping parse raw :
  Forall target_is_mapping (_normalize_actions parse raw).
Proof.
  unfold _normalize_actions. destruct raw; try apply normalize_list_mapping.
  constructor.
Qed.

(** What the normalizer puts in [target] when [target] is the list [l]. *)
Definition list_target_outcome (parse : string -> value) (l : list value)
    (d' : dict) : Prop :=
  (l = [] -> lookup "target" d' = Some (JObj [])) /\
  (forall fs rest, l = JObj fs :: rest -> lookup "target" d' = Some (JObj fs)) /\
  (forall s rest, l = JStr s :: rest ->
     lookup "target" d'
     = Some (match parse s with
             | JObj fs => JObj fs
             | p => JObj [("raw_string_data", p)]
             end)) /\
  (forall x rest, l = x :: rest -> (forall fs, x <> JObj fs) ->
     (forall s, x <> JStr s) ->
     lookup "target" d' = Some (JObj [("list_data", JList l)])).

(** Claim C7, as amended: an entry whose [target] is a list [l], wherever
    it stands in the list of actions, comes out with [target] set to the
    first element when it is a mapping, to the repair parse of the first
    element when it is a string and that parse is a mapping (else
    [{"raw_string_data": parse}]), to [{}] when [l] is empty, and to
    [{"list_data": l}] when the first element is neither a mapping nor a
    string. *)
Theorem normalize_list_target parse pre d post l :
  get "target" d = JList l ->
  exists d',
    _normalize_actions parse (JList (pre ++ JObj d :: post))
    = normalize_list parse pre ++ d' :: normalize_list parse post
    /\ list_target_outcome parse l d'.
Proof.
  intros H. exists (normalize_entry parse d).
  split; [apply normalize_actions_in_context|].
  unfold normalize_entry. rewrite H. cbn [is_null andb]. unfold fix_target.
  unfold list_target_outcome. repeat split.
  - intros ->. apply lookup_setitem_same.
  - intros fs rest ->. apply lookup_setitem_same.
  - intros s rest ->. rewrite lookup_setitem_same. unfold wrap_parsed.
    destruct (parse s); reflexivity.
  - intros x rest -> Hobj Hstr.
    destruct x as [| | | |s|l'|fs];
      try (rewrite lookup_setitem_same; reflexivity).
    + exfalso. exact (Hstr s eq_refl).
    + exfalso. exact (Hobj fs eq_refl).
Qed.

(** With [target] missing or [None] ([d.get('target') is None]), a
    [targetName] and prefixed fields, the prefixed fields are removed and
    become [target]. *)
Lemma normalize_entry_flattened_null parse d :
  get "target" d = JNull -> mem "targetName" d = true ->
  filter prefixed d <> [] ->
  normalize_entry parse d
  = setitem "target" (JObj (filter prefixed d)) (filter (fun kv => negb (prefixed kv)) d).
Proof.
  intros Hnull Hmem Hne. unfold normalize_entry.
  rewrite Hnull, Hmem. cbn [is_null andb].
  unfold recover_flattened.
  change (filter (fun kv => is_target_prefixed (fst kv)) d) with (filter prefixed d).
  destruct (filter prefixed d) as [|p ps] eqn:F; [contradiction|].
  unfold fix_target. rewrite <- F.
  rewrite fold_delitem.
  f_equal. apply filter_ext_in. intros kv Hin. rewrite removed_iff_prefixed by exact Hin.
  reflexivity.
Qed.

Lemma normalize_entry_no_target_name_null parse d :
  get "target" d = JNull -> mem "targetName" d = false ->
  normalize_entry parse d = setitem "target" (JObj []) d.
Proof.
  intros Hnull Hmem. unfold normalize_entry.
  rewrite Hnull, Hmem. cbn [is_null andb]. reflexivity.
Qed.

(** Claim C8, as amended: an entry whose [target] is missing or [None],
    wherever it stands in the list of actions, keeps its
    [target]-prefixed fields at the top level and gets [target = {}] when
    it has no [targetName]; with a [targetName] and at least one such
    field, those fields are removed from the top level and become the new
    [target]. [target] is set with [d['target'] = ...]: a [None] [target]
    keeps its position, a missing one is appended last. *)
Theorem normalize_flattened_target parse pre d post :
  get "target" d = JNull ->
  (mem "targetName" d = true -> filter prefixed d <> [] ->
     _normalize_actions parse (JList (pre ++ JObj d :: post))
     = normalize_list parse pre
       ++ setitem "target" (JObj (filter prefixed d))
            (filter (fun kv => negb (prefixed kv)) d)
       :: normalize_list parse post)
  /\ (mem "targetName" d = false ->
     _normalize_actions parse (JList (pre ++ JObj d :: post))
     = normalize_list parse pre ++ setitem "target" (JObj []) d
       :: normalize_list parse post)
  /\ (lookup "target" d = None ->
     setitem "target" (JObj (filter prefixed d)) (filter (fun kv => negb (prefixed kv)) d)
     = filter (fun kv => negb (prefixed kv)) d ++ [("target", JObj (filter prefixed d))]
     /\ setitem "target" (JObj []) d = d ++ [("target", JObj [])]).
Proof.
  intros Hnull. rewrite normalize_actions_in_context. split; [|split].
  - intros Hmem Hne. rewrite normalize_entry_flattened_null by assumption. reflexivity.
  - intros Hmem. rewrite normalize_entry_no_target_name_null by assumption. reflexivity.
  - intros Hnone. split; apply setitem_fresh; [apply lookup_filter_none|]; exact Hnone.
Qed.

End NormalizeProofs.

Module NormalizeExamples.

Import Normalize NormalizeProofs.
Local Open Scope list_scope.

Definition quoted (s : string) : string :=
  String Repair.dq (s ++ String Repair.dq EmptyString)%string.

(** [target] is a list whose only element is a JSON fragment without its
    braces: ["blockId": 3]. *)
Definition fragment : string := (quoted "blockId" ++ ": 3")%string.

Definition list_target_entry : dict :=
  [("action", JStr "create"); ("targetName", JStr "timeTablePlaceBlock");
   ("target", JList [JStr fragment])].

Lemma normalize_list_target_witness :
  get "target" list_target_entry = JList [JStr fragment] /\
  exists d',
    _normalize_actions Repair.robust_json_parse
      (JList ([] ++ JObj list_target_entry :: []))
    = normalize_list Repair.robust_json_parse [] ++ d'
        :: normalize_list Repair.robust_json_parse []
    /\ list_target_outcome Repair.robust_json_parse [JStr fragment] d'.
Proof.
  split; [reflexivity|].
  apply (normalize_list_target Repair.robust_json_parse [] list_target_entry []
           [JStr fragment]).
  reflexivity.
Defined.

(** The repair parse of the fragment is the mapping it describes. *)
Example fragment_repaired :
  Repair.robust_json_parse fragment = JObj [("blockId", JInt 3)].
Proof. vm_compute. reflexivity. Qed.

Definition unusable_list_entry : dict :=
  [("action", JStr "create"); ("targetName", JStr "timeTablePlaceBlock");
   ("target", JList [JInt 1])].

(** Claim C7 as stated fails: a list whose first element is a number does
    not give [target = {}] but [target = {"list_data": [1]}]. *)
Example normalize_unusable_first_element_counterexample :
  _normalize_actions Repair.robust_json_parse (JList [JObj unusable_list_entry])
  = [[("action", JStr "create"); ("targetName", JStr "timeTablePlaceBlock");
      ("target", JObj [("list_data", JList [JInt 1])])]]
  /\ JObj [("list_data", JList [JInt 1])] <> JObj [].
Proof. split; [reflexivity | discriminate]. Qed.

Definition flattened_entry : dict :=
  [("action", JStr "create"); ("targetName", JStr "timeTablePlaceBlock");
   ("targetPlaceName", JStr "N"); ("targetBlockId", JInt 3)].

(** The same fields with a [None] [target] in second position. *)
Definition flattened_null_entry : dict :=
  [("action", JStr "create"); ("target", JNull);
   ("targetName", JStr "timeTablePlaceBlock"); ("targetPlaceName", JStr "N")].

Lemma normalize_flattened_target_witness :
  get "target" flattened_entry = JNull
  /\ _normalize_actions Repair.robust_json_parse
       (JList ([] ++ JObj flattened_entry :: []))
     = [] ++ [("action", JStr "create"); ("targetName", JStr "timeTablePlaceBlock");
              ("target", JObj [("targetPlaceName", JStr "N"); ("targetBlockId", JInt 3)])]
           :: []
  /\ get "target" flattened_null_entry = JNull
  /\ _normalize_actions Repair.robust_json_parse
       (JList ([] ++ JObj flattened_null_entry :: []))
     = [] ++ [("action", JStr "create"); ("target", JObj [("targetPlaceName", JStr "N")]);
              ("targetName", JStr "timeTablePlaceBlock")]
           :: [].
Proof.
  split; [reflexivity|]. split.
  - rewrite (proj1 (normalize_flattened_target Repair.robust_json_parse [] flattened_entry []
                      eq_refl) eq_refl ltac:(discriminate)).
    reflexivity.
  - split; [reflexivity|].
    rewrite (proj1 (normalize_flattened_target Repair.robust_json_parse [] flattened_null_entry
                      [] eq_refl) eq_refl ltac:(discriminate)).
    reflexivity.
Defined.

Definition flattened_without_name : dict :=
  [("action", JStr "create"); ("targetId", JInt 5)].

(** Claim C8 as stated fails: without [targetName] the prefixed field
    [targetId] stays at the top level and [target] becomes [{}]. *)
Example normalize_flattened_without_name_counterexample :
  _normalize_actions Repair.robust_json_parse (JList [JObj flattened_without_name])
  = [[("action", JStr "create"); ("targetId", JInt 5); ("target", JObj [])]]
  /\ JObj [] <> JObj [("targetId", JInt 5)].
Proof. split; [reflexivity | discriminate]. Qed.

End NormalizeExamples.

Module ChatProofs.

Import Chat.
Local Open Scope list_scope.

(** The parts of all candidates, in the order the nested loops visit them. *)
Definition all_parts (cands : list candidate) : list part :=
  flat_map (fun c => match content_parts c with Some ps => ps | None => [] end) cands.

Section Loop.
Variable run_single : dict -> result dict.
Variable run_multi : dict -> result (list dict).
Variable planContext : value.

Lemma process_parts_app l1 l2 acc :
  process_parts run_single run_multi planContext (l1 ++ l2) acc =
  match process_parts run_single run_multi planContext l1 acc with
  | Ok (Continue acc') => process_parts run_single run_multi planContext l2 acc'
  | o => o
  end.
Proof.
  revert acc. induction l1 as [|p l1 IH]; intros acc; simpl; [reflexivity|].
  destruct (function_call_of p) as [fc|]; [|apply IH].
  destruct (String.eqb (fc_name fc) ""); [apply IH|].
  destruct (String.eqb (fc_name fc) "search_and_create_place_block").
  - destruct (run_single _) as [block|e]; [|reflexivity].
    destruct (mem "error" block); [reflexivity|apply IH].
  - destruct (String.eqb (fc_name fc) "search_multiple_place_blocks"); [|apply IH].
    destruct (run_multi _) as [[|b bs]|e]; [reflexivity| apply IH | reflexivity].
Qed.

Lemma tool_loop_all_parts cands acc :
  tool_loop run_single run_multi planContext cands acc
  = process_parts run_single run_multi planContext (all_parts cands) acc.
Proof.
  revert acc. induction cands as [|c cands IH]; intros acc; simpl; [reflexivity|].
  destruct (content_parts c) as [ps|]; [|apply IH].
  rewrite process_parts_app.
  destruct (process_parts _ _ _ ps acc) as [[acc'|r]|e]; [apply IH|reflexivity|reflexivity].
Qed.

(** A search invocation that reports no result: the single search returns
    a dict with an ["error"] key, or the multiple search an empty list. *)
Definition reports_no_results (p : part) : Prop :=
  exists fc, function_call_of p = Some fc /\
    ((fc_name fc = "search_and_create_place_block" /\
      exists block, run_single (prepare_args (fc_args fc) planContext) = Ok block
                    /\ mem "error" block = true)
     \/ (fc_name fc = "search_multiple_place_blocks" /\
         run_multi (prepare_args (fc_args fc) planContext) = Ok [])).

Lemma process_parts_no_results p post acc :
  reports_no_results p ->
  process_parts run_single run_multi planContext (p :: post) acc
  = Ok (Return not_found_response).
Proof.
  intros [fc [Hp [[Hn [block [Hr He]]] | [Hn Hr]]]]; simpl; rewrite Hp, Hn; simpl.
  - rewrite Hr, He. reflexivity.
  - rewrite Hr. reflexivity.
Qed.

End Loop.

(** Claim C6: on the tool-call path, once the loop reaches a search
    invocation that reports no result (every earlier invocation having
    returned normally), [handle_java_chatbot_request] returns the fixed
    "place not found" reply, without actions and with [hasAction = false],
    whatever actions the earlier invocations produced. *)
Theorem tool_call_not_found run_single run_multi generate_content full_prompt
    planContext pre p post acc :
  all_parts (candidates (generate_content full_prompt)) = pre ++ p :: post ->
  process_parts run_single run_multi planContext pre [] = Ok (Continue acc) ->
  reports_no_results run_single run_multi planContext p ->
  handle_java_chatbot_request_head run_single run_multi (Some generate_content)
    full_prompt planContext = Ok not_found_response
  /\ hasAction not_found_response = false
  /\ actions not_found_response = []
  /\ userMessage not_found_response = msg_not_found.
Proof.
  intros Hparts Hpre Hno. split; [|repeat split].
  unfold handle_java_chatbot_request_head.
  rewrite tool_loop_all_parts, Hparts, process_parts_app, Hpre.
  rewrite process_parts_no_results by exact Hno. reflexivity.
Qed.

End ChatProofs.

Module ChatBugs.

Import Chat.

Definition quote (s : string) : string :=
  String Repair.dq (s ++ String Repair.dq EmptyString).

(** The reply [{"userMessage": "ok", "hasAction": true, "actions": []}]. *)
Definition inconsistent_text : string :=
  "{" ++ quote "userMessage" ++ ": " ++ quote "ok" ++ ", "
      ++ quote "hasAction" ++ ": true, " ++ quote "actions" ++ ": []}".

Definition inconsistent_payload : value :=
  JObj [("userMessage", JStr "ok"); ("hasAction", JBool true);
        ("actions", JList [])].

Lemma inconsistent_text_parses :
  Repair.loads (py_strip (strip_fences inconsistent_text)) = Some inconsistent_payload.
Proof. vm_compute. reflexivity. Qed.

(** A reply without function calls whose text is [inconsistent_text]. *)
Definition text_only_reply : model_response :=
  {| candidates := []; text := Some inconsistent_text |}.

(** In revision 10e020d the reply is made consistent (lines 196-197 and
    220-231), whatever the parsed payload. *)
Lemma revb_consistent robust_json_parse v :
  hasAction (revb_from_parsed robust_json_parse v) = true
  <-> actions (revb_from_parsed robust_json_parse v) <> [].
Proof.
  destruct v; simpl; try (split; [discriminate | congruence]).
  destruct (validate_ai_response _) as [[[um ha] acts]|]; simpl;
    [|split; [discriminate | congruence]].
  destruct ha, acts; simpl; split; congruence.
Qed.

(** Claim C1: the HEAD revision of [handle_java_chatbot_request] returns
    [hasAction = true] with an empty [actions] list when the model
    answers, without function calls, the text
    [{"userMessage": "ok", "hasAction": true, "actions": []}]; the sibling
    revision 10e020d turns the same payload into [hasAction = false]. *)
Theorem head_free_text_inconsistent run_single run_multi full_prompt planContext :
  handle_java_chatbot_request_head run_single run_multi
    (Some (fun _ => text_only_reply)) full_prompt planContext
  = Ok {| userMessage := "ok"; hasAction := true; actions := [] |}
  /\ (forall robust_json_parse,
        revb_from_parsed robust_json_parse inconsistent_payload
        = {| userMessage := "ok"; hasAction := false; actions := [] |}).
Proof.
  split.
  - unfold handle_java_chatbot_request_head, head_free_text, head_parse_reply.
    cbn [text_only_reply candidates text tool_loop].
    rewrite inconsistent_text_parses. reflexivity.
  - intros parse. reflexivity.
Qed.

(** Claim C5: with no model configured, the HEAD revision of
    [handle_java_chatbot_request] lets an [AttributeError] escape (it calls
    [gemini_model.generate_content] outside any [try]); only the handler of
    [chatbot_gemini_handler.py] returns the fixed diagnostic. *)
Theorem no_model_head_raises run_single run_multi full_prompt planContext :
  handle_java_chatbot_request_head run_single run_multi None full_prompt planContext
  = Raise "AttributeError"
  /\ (forall full_message,
        handle_java_chatbot_request_gemini None full_message
        = simple_message msg_no_model
        /\ hasAction (simple_message msg_no_model) = false).
Proof. split; [reflexivity | intros; split; reflexivity]. Qed.

End ChatBugs.

Module ChatExamples.

Import Chat ChatProofs.
Local Open Scope list_scope.

Definition multi_call : part :=
  {| function_call_of := Some {| fc_name := "search_multiple_place_blocks";
                                 fc_args := [("queries", JList [JStr "cafe"])] |} |}.
Definition single_call : part :=
  {| function_call_of := Some {| fc_name := "search_and_create_place_block";
                                 fc_args := [("query", JStr "museum")] |} |}.

(** The first search finds a place, the second one none. *)
Definition found_block : dict := [("placeName", JStr "A")].
Definition ex_single (_ : dict) : result dict := Ok [("error", JStr "NO_RESULTS")].
Definition ex_multi (_ : dict) : result (list dict) := Ok [found_block].

Definition ex_reply : model_response :=
  {| candidates := [{| content_parts := Some [multi_call; single_call] |}];
     text := None |}.

Lemma tool_call_not_found_witness :
  all_parts (candidates ex_reply) = [multi_call] ++ single_call :: [] /\
  process_parts ex_single ex_multi JNull [multi_call] []
  = Ok (Continue [mk_create found_block]) /\
  reports_no_results ex_single ex_multi JNull single_call /\
  handle_java_chatbot_request_head ex_single ex_multi (Some (fun _ => ex_reply))
    "prompt" JNull = Ok not_found_response.
Proof.
  assert (Hno : reports_no_results ex_single ex_multi JNull single_call).
  { eexists. split; [reflexivity|]. left. split; [reflexivity|].
    eexists. split; reflexivity. }
  split; [reflexivity|]. split; [reflexivity|]. split; [exact Hno|].
  apply (tool_call_not_found ex_single ex_multi (fun _ => ex_reply) "prompt" JNull
           [multi_call] single_call [] [mk_create found_block]);
    [reflexivity | reflexivity | exact Hno].
Defined.

End ChatExamples.

Module SlotProofs.

Import Chat Slots.
Local Open Scope Z_scope.
Local Open Scope list_scope.

(** The latest end among [l], starting from [c]: the candidate of the scan
    of lines 186-194 once it has passed over [l]. *)
Definition max_end (l : list (Z * Z)) (c : Z) : Z :=
  fold_left (fun a u => Z.max a (snd u)) l c.

Lemma push_candidate c e : (if c <? e then e else c) = Z.max c e.
Proof. destruct (Z.ltb_spec c e); lia. Qed.

(** When no interval leaves a gap of [d] between the running candidate and
    its start, the scan runs to its end at the latest end. *)
Lemma scan_no_gap l c d :
  (forall pre u post, l = pre ++ u :: post -> fst u < max_end pre c + d) ->
  scan l c d = inr (max_end l c).
Proof.
  revert c. induction l as [|[s e] l IH]; intros c H; simpl; [reflexivity|].
  assert (Hs : s < c + d) by exact (H [] (s, e) l eq_refl).
  destruct (Z.leb_spec (c + d) s); [lia|].
  rewrite push_candidate. apply IH.
  intros pre u post ->. exact (H ((s, e) :: pre) u post eq_refl).
Qed.

(** The start and end a block carries. *)
Definition block_times (b : dict) : value * value :=
  (get "blockStartTime" b, get "blockEndTime" b).

(** Claim C10 fails: with six queries that all find a place, a 300-minute
    duration and no existing block, [search_multiple_place_blocks] returns
    the blocks 09-14, 14-19, 19-00, 00-05, 05-10 and 10-15. The test
    [end_dt.time() > DAY_END] compares wall-clock times, which wrap at
    midnight: the third block ends past 20:00 and the last overlaps the
    first. *)
Theorem multiple_blocks_wrap_past_day_end found get_location_from_plan :
  exists bs,
    search_multiple_place_blocks (fun q l i => Some (found q l i))
      get_location_from_plan ["a"; "b"; "c"; "d"; "e"; "f"]%string 5 [] 300
    = Ok bs
    /\ map block_times bs
       = [(JStr "09:00:00", JStr "14:00:00"); (JStr "14:00:00", JStr "19:00:00");
          (JStr "19:00:00", JStr "00:00:00"); (JStr "00:00:00", JStr "05:00:00");
          (JStr "05:00:00", JStr "10:00:00"); (JStr "10:00:00", JStr "15:00:00")]%string
    /\ Forall (fun b => get "timeTableId" b = JInt 5) bs.
Proof.
  eexists. split; [reflexivity|]. split; [reflexivity|].
  repeat constructor.
Qed.

End SlotProofs.

Module SlotExamples.

Import Chat Slots SlotProofs.
Local Open Scope Z_scope.
Local Open Scope list_scope.

(** The ordinal of 2026-10-16, a day on which the search may run. *)
Definition day_2026_10_16 : Z := 739905.

Definition morning_block : value :=
  JObj [("timeTableId", JInt 5); ("blockStartTime", JStr "09:00:00");
        ("blockEndTime", JStr "10:30:00")].

Definition late_blocks : list value :=
  [JObj [("timeTableId", JInt 5); ("blockStartTime", JStr "09:00:00");
         ("blockEndTime", JStr "19:30:00")];
   JObj [("timeTableId", JInt 5); ("blockStartTime", JStr "21:00:00");
         ("blockEndTime", JStr "23:59:00")]].

(** Claim C9 as stated fails: no 60-minute gap fits before 20:00:00, yet
    the gap 19:30:00-20:30:00 before the 21:00 block is returned, not the
    fallback. *)
Example find_slot_past_day_end_counterexample :
  find_non_overlapping_time_at day_2026_10_16 late_blocks 5 60
  = Ok ("19:30:00", "20:30:00")%string
  /\ ("19:30:00", "20:30:00")%string <> ("19:00:00", "20:30:00")%string.
Proof. split; [vm_compute; reflexivity | discriminate]. Qed.

End SlotExamples.

Module ScheduleProofs.

Import Chat Slots AutoSchedule.
Local Open Scope Z_scope.
Local Open Scope list_scope.

Lemma add_days_ok d k :
  date_min <= d + k <= date_max -> add_days d k = Ok (d + k).
Proof.
  intros [H1 H2]. unfold add_days.
  rewrite (proj2 (Z.leb_le _ _) H1), (proj2 (Z.leb_le _ _) H2). reflexivity.
Qed.

Lemma add_days_value d k x : add_days d k = Ok x -> x = d + k.
Proof.
  unfold add_days. destruct (_ && _); intros H; [injection H; auto | discriminate].
Qed.

(** A block of the timetable [tt] for the date [ds]. *)
Definition tagged (tt : Z) (ds : string) (b : dict) : Prop :=
  get "timeTableId" b = JInt tt /\ get "date" b = JStr ds.

Lemma auto_block_tagged p st et ds c tt : tagged tt ds (auto_block p st et ds c tt).
Proof. split; reflexivity. Qed.

Section Tagging.
Variable call_google_places : string -> value -> nat -> option place.

Lemma search_slot_tagged existing q st et ds tt loc idx blocks blocks' :
  Forall (tagged tt ds) blocks ->
  search_slot call_google_places existing q st et ds tt loc idx blocks = Ok blocks' ->
  Forall (tagged tt ds) blocks'.
Proof.
  intros Hb. unfold search_slot.
  destruct (has_time_conflict _ _ _) as [[|]|e]; intros H; try discriminate;
    [injection H as <-; exact Hb|].
  unfold create_place_block in H.
  destruct (call_google_places q loc idx) as [p|]; injection H as <-; [|exact Hb].
  apply Forall_app. split; [exact Hb | constructor; [apply auto_block_tagged | constructor]].
Qed.

Lemma daily_schedule_tagged n ds tt dest last loc acc pc blocks :
  create_daily_schedule call_google_places n ds tt dest last loc acc pc = Ok blocks ->
  Forall (tagged tt ds) blocks.
Proof.
  unfold create_daily_schedule.
  destruct (get_existing_blocks_for_date pc ds) as [ex|e]; [|discriminate].
  destruct (search_slot _ _ _ _ _ _ _ _ _ []) as [b1|e] eqn:E1; [|discriminate].
  destruct (search_slot _ _ _ _ _ _ _ _ _ b1) as [b2|e] eqn:E2; [|discriminate].
  destruct (search_slot _ _ _ _ _ _ _ _ _ b2) as [b3|e] eqn:E3; [|discriminate].
  apply search_slot_tagged in E1; [|constructor].
  apply search_slot_tagged in E2; [|exact E1].
  apply search_slot_tagged in E3; [|exact E2].
  destruct acc as [a|]; [|intros H; injection H as <-; exact E3].
  destruct last; [intros H; injection H as <-; exact E3|].
  destruct (has_time_conflict _ _ _) as [[|]|e]; intros H; try discriminate;
    injection H as <-; [exact E3|].
  apply Forall_app. split; [exact E3 | constructor; [apply auto_block_tagged | constructor]].
Qed.

(** The days [day, ..., day + fuel - 1] each get a TimeTable action, and
    each of their blocks the placeholder id of its day. *)
Lemma day_loop_placeholders fuel day days d pc dest loc acc tts pbs :
  day_loop call_google_places fuel day days d pc dest loc acc = Ok (tts, pbs) ->
  tts = map (fun i => time_table_action (format_date (d + Z.of_nat i))) (seq day fuel)
  /\ Forall (fun b => exists i, (day <= i < day + fuel)%nat
                                /\ tagged (- (Z.of_nat i + 1)) (format_date (d + Z.of_nat i)) b)
       pbs.
Proof.
  revert day tts pbs. induction fuel as [|f IH]; intros day tts pbs; simpl.
  - intros H. injection H as <- <-. split; [reflexivity | constructor].
  - destruct (add_days d (Z.of_nat day)) as [cd|e] eqn:Ed; [|discriminate].
    apply add_days_value in Ed. subst cd.
    destruct (create_daily_schedule _ _ _ _ _ _ _ _ _) as [blocks|e] eqn:Eb;
      [|discriminate].
    apply daily_schedule_tagged in Eb.
    destruct (day_loop _ f (S day) _ _ _ _ _ _) as [[tts' pbs']|e] eqn:El;
      [|discriminate].
    intros H. injection H as <- <-.
    destruct (IH _ _ _ El) as [-> Hp]. split; [reflexivity|].
    apply Forall_app. split.
    + eapply Forall_impl; [|exact Eb]. intros b Hb. exists day. split; [lia | exact Hb].
    + eapply Forall_impl; [|exact Hp]. intros b [i [Hi Hb]]. exists i. split; [lia | exact Hb].
Qed.

End Tagging.

(** Claim C4, as the code has it: [create_auto_schedule] never looks at the
    plan's [TimeTables]. Whatever the plan, a successful run emits one
    TimeTable-create action for every requested date, and every PlaceBlock
    it emits for day [i] (from 0) carries the placeholder id [-(i + 1)]. *)
Theorem auto_schedule_ignores_existing_time_tables call_google_places days start_date
    d planContext destination tts pbs :
  strptime_date start_date = Ok d ->
  create_auto_schedule call_google_places days start_date planContext destination
  = Ok (tts, pbs) ->
  tts = map (fun i => time_table_action (format_date (d + Z.of_nat i)))
          (seq 0 (Z.to_nat days))
  /\ Forall (fun b => exists i, (i < Z.to_nat days)%nat
                                /\ tagged (- (Z.of_nat i + 1)) (format_date (d + Z.of_nat i)) b)
       pbs.
Proof.
  intros Hd. unfold create_auto_schedule. rewrite Hd.
  destruct (choose_accommodation _ _ _ _ _ _) as [acc|e]; [|discriminate].
  intros H. apply day_loop_placeholders in H. destruct H as [-> Hp].
  split; [reflexivity|].
  eapply Forall_impl; [|exact Hp]. intros b [i [Hi Hb]]. exists i. split; [lia | exact Hb].
Qed.

(** The plan has no PlaceBlock: the schedule starts from an empty day. *)
Definition empty_plan (planContext : dict) : Prop :=
  parse_blocks_from_plan planContext = Ok [].

Section AlwaysFound.
(** Every search succeeds: [found query location result_index]. *)
Variable found : string -> value -> nat -> place.

Definition always (q : string) (l : value) (i : nat) : option place := Some (found q l i).

(** The three searched blocks of day [n] on an empty day. *)
Definition searched_blocks (n : nat) (ds : string) (tt : Z) (dest : string)
    (loc : value) : list dict :=
  let idx := (n - 1)%nat in
  let dinner_query :=
    if Nat.eqb (Nat.modulo n 2) 0 then String.append dest " 회 맛집" else String.append dest " 고기 맛집" in
  [auto_block (found (String.append dest " 관광지") loc idx) "09:00:00" "11:00:00" ds
     (detect_place_category (String.append dest " 관광지")) tt;
   auto_block (found (String.append dest " 맛집") loc idx) "12:00:00" "14:00:00" ds
     (detect_place_category (String.append dest " 맛집")) tt;
   auto_block (found dinner_query loc idx) "18:00:00" "20:00:00" ds
     (detect_place_category dinner_query) tt].

Lemma daily_schedule_empty n ds tt dest last loc acc pc :
  empty_plan pc ->
  create_daily_schedule always n ds tt dest last loc acc pc
  = Ok (searched_blocks n ds tt dest loc
        ++ match acc with
           | Some a => if last then [] else [create_place_block_from_data a "21:00:00" "23:59:00" ds tt]
           | None => []
           end).
Proof.
  intros He. unfold create_daily_schedule, get_existing_blocks_for_date.
  rewrite He. destruct acc, last; reflexivity.
Qed.

Lemma day_loop_step f day days d pc dest loc acc blocks :
  date_min <= d + Z.of_nat day <= date_max ->
  create_daily_schedule always (S day) (format_date (d + Z.of_nat day))
    (- (Z.of_nat day + 1)) dest (Z.eqb (Z.of_nat day) (days - 1)) loc acc pc
  = Ok blocks ->
  day_loop always (S f) day days d pc dest loc acc
  = match day_loop always f (S day) days d pc dest loc acc with
    | Raise e => Raise e
    | Ok (tts, pbs) =>
        Ok (time_table_action (format_date (d + Z.of_nat day)) :: tts, blocks ++ pbs)
    end.
Proof.
  intros Hr Hb. cbn [day_loop]. rewrite (add_days_ok _ _ Hr). cbv beta iota zeta.
  rewrite Hb. reflexivity.
Qed.

End AlwaysFound.

(** A block of the lodging slot. *)
Definition is_lodging (b : dict) : bool :=
  match get "blockStartTime" b with JStr s => String.eqb s "21:00:00" | _ => false end.

(** Claim C3: a 3-day trip on an empty plan, every search succeeding, gives
    3 TimeTable actions (the three dates) and 11 PlaceBlocks: 4 for day 1,
    4 for day 2, 3 for day 3; the only lodging blocks are the hotel found
    for the destination, on days 1 and 2. *)
Theorem three_day_trip (found : string -> value -> nat -> place) start_date d
    planContext destination :
  strptime_date start_date = Ok d ->
  date_min <= d -> d + 2 <= date_max ->
  empty_plan planContext ->
  let hotel := placeName (found (String.append destination " 호텔") (get "TravelName" planContext) 0%nat) in
  exists tts pbs,
    create_auto_schedule (always found) 3 start_date planContext destination = Ok (tts, pbs)
    /\ tts = [time_table_action (format_date d); time_table_action (format_date (d + 1));
              time_table_action (format_date (d + 2))]
    /\ length pbs = 11%nat
    /\ map (get "timeTableId") pbs
       = [JInt (-1); JInt (-1); JInt (-1); JInt (-1); JInt (-2); JInt (-2); JInt (-2);
          JInt (-2); JInt (-3); JInt (-3); JInt (-3)]
    /\ map (fun b => (get "timeTableId" b, get "placeName" b)) (filter is_lodging pbs)
       = [(JInt (-1), hotel); (JInt (-2), hotel)].
Proof.
  intros Hd Hmin Hmax He hotel.
  unfold create_auto_schedule. rewrite Hd.
  assert (Hacc : choose_accommodation (always found) 3 d planContext destination
                   (get "TravelName" planContext)
                 = Ok (Some (found (String.append destination " 호텔") (get "TravelName" planContext) 0%nat))).
  { unfold choose_accommodation, get_existing_blocks_for_date. simpl.
    rewrite He. reflexivity. }
  rewrite Hacc. change (Z.to_nat 3) with 3%nat.
  erewrite (day_loop_step found 2 0) by
    (simpl Z.of_nat; first [lia | apply daily_schedule_empty; exact He]).
  erewrite (day_loop_step found 1 1) by
    (simpl Z.of_nat; first [lia | apply daily_schedule_empty; exact He]).
  erewrite (day_loop_step found 0 2) by
    (simpl Z.of_nat; first [lia | apply daily_schedule_empty; exact He]).
  simpl Z.of_nat. rewrite Z.add_0_r.
  do 2 eexists. split; [reflexivity|]. repeat split; reflexivity.
Qed.

End ScheduleProofs.

Module ScheduleExamples.

Import Chat Slots AutoSchedule ScheduleProofs.
Local Open Scope Z_scope.
Local Open Scope list_scope.

(** A places API that always finds a place named after the query. *)
Definition ex_found (q : string) (_ : value) (_ : nat) : place :=
  {| placeName := JStr q; placeRating := JFloat 45 (-1); placeAddress := JStr "Seoul";
     placeId := JStr q; xLocation := JFloat 375 (-1); yLocation := JFloat 1270 (-1);
     placeLink := JNull |}.

Definition seoul_plan : dict := [("TravelName", JStr "Seoul")].

(** 2025-01-01 *)
Definition new_year : Z := 20089.

Lemma three_day_trip_witness :
  strptime_date "2025-01-01" = Ok new_year /\ empty_plan seoul_plan /\
  exists tts pbs,
    create_auto_schedule (always ex_found) 3 "2025-01-01" seoul_plan "Seoul" = Ok (tts, pbs)
    /\ length tts = 3%nat /\ length pbs = 11%nat.
Proof.
  assert (Hd : strptime_date "2025-01-01" = Ok new_year) by (vm_compute; reflexivity).
  assert (He : empty_plan seoul_plan) by reflexivity.
  split; [exact Hd|]. split; [exact He|].
  destruct (three_day_trip ex_found "2025-01-01" new_year seoul_plan "Seoul" Hd
              ltac:(apply Z.leb_le; vm_compute; reflexivity)
              ltac:(apply Z.leb_le; vm_compute; reflexivity) He)
    as [tts [pbs [Hr [Ht [Hl _]]]]].
  exists tts, pbs. split; [exact Hr|]. split; [rewrite Ht; reflexivity | exact Hl].
Defined.

(** A plan that already has the TimeTable 7 for 2025-01-01. *)
Definition planned : dict :=
  [("TravelName", JStr "Seoul");
   ("TimeTables", JList [JObj [("timeTableId", JInt 7); ("date", JStr "2025-01-01")]])].

Lemma auto_schedule_ignores_existing_time_tables_witness :
  exists tts pbs,
    create_auto_schedule (always ex_found) 1 "2025-01-01" planned "Seoul" = Ok (tts, pbs)
    /\ tts = map (fun i => time_table_action (format_date (new_year + Z.of_nat i)))
               (seq 0 (Z.to_nat 1))
    /\ Forall (fun b => exists i, (i < Z.to_nat 1)%nat
                 /\ tagged (- (Z.of_nat i + 1)) (format_date (new_year + Z.of_nat i)) b) pbs.
Proof.
  do 2 eexists. split; [reflexivity|].
  apply (auto_schedule_ignores_existing_time_tables (always ex_found) 1 "2025-01-01"
           new_year planned "Seoul"); [vm_compute; reflexivity | reflexivity].
Defined.

(** Claim C4 as stated fails: with the TimeTable 7 already planned for
    2025-01-01, a one-day trip from that date still creates a TimeTable for
    2025-01-01 and its blocks carry the placeholder id -1, not 7. *)
Example existing_time_table_counterexample :
  exists tts pbs,
    create_auto_schedule (always ex_found) 1 "2025-01-01" planned "Seoul" = Ok (tts, pbs)
    /\ tts = [time_table_action "2025-01-01"]
    /\ map (get "timeTableId") pbs = [JInt (-1); JInt (-1); JInt (-1)].
Proof. do 2 eexists. split; [reflexivity|]. split; reflexivity. Qed.

End ScheduleExamples.

Module SlotFacts.

Import Chat Slots.
Local Open Scope Z_scope.
Local Open Scope list_scope.

Lemma some_eq {A} (x y : A) : Some x = Some y -> x = y.
Proof. congruence. Qed.

Lemma ok_eq {A} (x y : A) : Ok x = Ok y -> x = y.
Proof. congruence. Qed.

(** ** Parsing a formatted time gives it back *)

Lemma digit_char_spec k :
  0 <= k < 10 ->
  Repair.is_digit (digit_char k) = true
  /\ Repair.digit_value (digit_char k) = k
  /\ Ascii.eqb (digit_char k) ":"%char = false.
Proof.
  intros Hk.
  assert (k = 0 \/ k = 1 \/ k = 2 \/ k = 3 \/ k = 4 \/ k = 5 \/ k = 6 \/ k = 7
          \/ k = 8 \/ k = 9) as Hc by lia.
  repeat destruct Hc as [->|Hc]; [..| subst]; repeat split; reflexivity.
Qed.

Lemma two_digits_spec n :
  0 <= n < 100 ->
  exists c1 c2, two_digits n = String c1 (String c2 EmptyString)
    /\ Ascii.eqb c1 ":"%char = false /\ Ascii.eqb c2 ":"%char = false
    /\ forall hi, n <= hi -> parse_field [c1; c2] hi = Some n.
Proof.
  intros Hn. unfold two_digits.
  destruct (digit_char_spec (n / 10)) as [D1 [V1 C1]]; [split; [apply Z.div_pos | apply Z.div_lt_upper_bound]; lia|].
  destruct (digit_char_spec (n mod 10)) as [D2 [V2 C2]]; [apply Z.mod_pos_bound; lia|].
  do 2 eexists. split; [reflexivity|]. split; [exact C1|]. split; [exact C2|].
  intros hi Hhi. unfold parse_field. rewrite D1, D2, V1, V2. cbn [andb].
  replace (10 * (n / 10) + n mod 10) with n by (pose proof (Z.div_mod n 10); lia).
  destruct (Z.leb_spec n hi); [reflexivity | lia].
Qed.

Lemma strptime_hms_format t :
  0 <= t < 86400 -> strptime_hms (_format_time t) = Some t.
Proof.
  intros Ht. unfold _format_time.
  destruct (two_digits_spec (t / 3600)) as [h1 [h2 [Eh [Ch1 [Ch2 Ph]]]]];
    [split; [apply Z.div_pos | apply Z.div_lt_upper_bound]; lia|].
  destruct (two_digits_spec ((t mod 3600) / 60)) as [m1 [m2 [Em [Cm1 [Cm2 Pm]]]]].
  { pose proof (Z.mod_pos_bound t 3600). split; [apply Z.div_pos | apply Z.div_lt_upper_bound]; lia. }
  destruct (two_digits_spec (t mod 60)) as [s1 [s2 [Es [Cs1 [Cs2 Ps]]]]];
    [pose proof (Z.mod_pos_bound t 60); lia|].
  rewrite Eh, Em, Es. unfold strptime_hms. cbn -[Z.mul Z.add parse_field].
  rewrite Ch1, Ch2, Cm1, Cm2, Cs1, Cs2. cbn -[Z.mul Z.add parse_field].
  rewrite Ph, Pm, Ps by (Z.div_mod_to_equations; lia).
  f_equal. Z.div_mod_to_equations. lia.
Qed.

Lemma format_time_nonempty t : _format_time t <> EmptyString.
Proof. unfold _format_time, two_digits. discriminate. Qed.

Lemma parse_time_of_format t :
  0 <= t < 86400 -> _parse_time (JStr (_format_time t)) = Ok t.
Proof.
  intros Ht. unfold _parse_time. simpl py_truthy.
  destruct (String.eqb (_format_time t) EmptyString) eqn:E.
  - apply String.eqb_eq in E. destruct (format_time_nonempty t E).
  - simpl. rewrite strptime_hms_format by exact Ht. reflexivity.
Qed.

(** Extra: [_parse_time] reads back every time of day that [_format_time]
    writes. *)
Theorem parse_format_time t :
  0 <= t < 86400 -> _parse_time (JStr (_format_time t)) = Ok t.
Proof. exact (parse_time_of_format t). Qed.

Lemma mk_time_ok h m sec :
  0 <= h <= 23 -> 0 <= m <= 59 -> 0 <= sec <= 59 ->
  mk_time (JInt h) (JInt m) (JInt sec) = Ok (3600 * h + 60 * m + sec).
Proof.
  intros Hh Hm Hs. unfold mk_time, py_int.
  replace ((0 <=? h) && (h <=? 23) && (0 <=? m) && (m <=? 59) && (0 <=? sec) && (sec <=? 59))
    with true; [reflexivity|].
  symmetry. repeat rewrite andb_true_iff. repeat rewrite Z.leb_le. lia.
Qed.

(** Extra: the time formats [_parse_time] accepts agree: the array
    [[h, m, s, ...]] (anything after the seconds ignored), the array
    [[h, m]] with zero seconds and the string [_format_time] writes for the
    same time all read as the same seconds of the day. *)
Theorem parse_time_formats_agree h m sec rest :
  0 <= h <= 23 -> 0 <= m <= 59 -> 0 <= sec <= 59 ->
  _parse_time (JList (JInt h :: JInt m :: JInt sec :: rest)) = Ok (3600 * h + 60 * m + sec)
  /\ _parse_time (JList [JInt h; JInt m]) = Ok (3600 * h + 60 * m)
  /\ _parse_time (JStr (_format_time (3600 * h + 60 * m + sec)))
     = Ok (3600 * h + 60 * m + sec).
Proof.
  intros Hh Hm Hs. split; [|split].
  - unfold _parse_time. simpl py_truthy. cbv iota. destruct rest; apply mk_time_ok; lia.
  - unfold _parse_time. simpl py_truthy. cbv iota.
    rewrite (mk_time_ok h m 0) by lia. rewrite Z.add_0_r. reflexivity.
  - apply parse_time_of_format. lia.
Qed.

Lemma time_of_small t : 0 <= t < 86400 -> time_of t = t.
Proof. intros H. unfold time_of, day_seconds. apply Z.mod_small. exact H. Qed.

(** ** Ranges of parsed times *)

Lemma parse_field_range l hi n : parse_field l hi = Some n -> 0 <= n <= hi.
Proof.
  unfold parse_field, Repair.is_digit, Repair.digit_value.
  destruct l as [|c1 [|c2 [|c3 r]]]; try discriminate.
  - destruct ((48 <=? nat_of_ascii c1)%nat && (nat_of_ascii c1 <=? 57)%nat) eqn:E;
      [|discriminate].
    apply andb_true_iff in E as [E1 _]. apply Nat.leb_le in E1.
    destruct (Z.leb_spec (Z.of_nat (nat_of_ascii c1) - 48) hi); intros Hs; [|discriminate].
    injection Hs as <-. lia.
  - destruct ((48 <=? nat_of_ascii c1)%nat && (nat_of_ascii c1 <=? 57)%nat) eqn:E;
      [|discriminate].
    destruct ((48 <=? nat_of_ascii c2)%nat && (nat_of_ascii c2 <=? 57)%nat) eqn:E';
      [|discriminate].
    apply andb_true_iff in E as [E1 _]. apply Nat.leb_le in E1.
    apply andb_true_iff in E' as [E2 _]. apply Nat.leb_le in E2. cbn [andb].
    destruct (_ <=? hi) eqn:Eh; intros Hs; [|discriminate].
    apply Z.leb_le in Eh. apply some_eq in Hs. subst n. lia.
Qed.

Lemma strptime_hms_range s t : strptime_hms s = Some t -> 0 <= t < 86400.
Proof.
  unfold strptime_hms.
  destruct (split_colon _ _) as [|h [|m [|sec [|]]]]; try discriminate.
  destruct (parse_field h 23) eqn:E1; [|discriminate].
  destruct (parse_field m 59) eqn:E2; [|discriminate].
  destruct (parse_field sec 59) eqn:E3; [|discriminate].
  apply parse_field_range in E1, E2, E3. intros H. apply some_eq in H. subst t. lia.
Qed.

Lemma strptime_hm_range s t : strptime_hm s = Some t -> 0 <= t < 86400.
Proof.
  unfold strptime_hm.
  destruct (split_colon _ _) as [|h [|m [|]]]; try discriminate.
  destruct (parse_field h 23) eqn:E1; [|discriminate].
  destruct (parse_field m 59) eqn:E2; [|discriminate].
  apply parse_field_range in E1, E2. intros H. apply some_eq in H. subst t. lia.
Qed.

Lemma mk_time_range h m s t : mk_time h m s = Ok t -> 0 <= t < 86400.
Proof.
  unfold mk_time.
  destruct (py_int h) as [h'|], (py_int m) as [m'|], (py_int s) as [s'|];
    try discriminate.
  destruct ((0 <=? h') && (h' <=? 23) && (0 <=? m') && (m' <=? 59) && (0 <=? s')
            && (s' <=? 59)) eqn:E; [|discriminate].
  repeat rewrite andb_true_iff in E. repeat rewrite Z.leb_le in E.
  intros H. apply ok_eq in H. subst t. lia.
Qed.

Lemma parse_time_range v t : _parse_time v = Ok t -> 0 <= t < 86400.
Proof.
  unfold _parse_time. destruct (negb (py_truthy v)); [discriminate|].
  destruct v as [| | | | s | l |]; try discriminate.
  - destruct (strptime_hms s) eqn:E.
    + intros H. injection H as <-. exact (strptime_hms_range _ _ E).
    + destruct (strptime_hm s) eqn:E'; [|discriminate].
      intros H. injection H as <-. exact (strptime_hm_range _ _ E').
  - destruct l as [|h [|m [|s r]]]; try discriminate; apply mk_time_range.
Qed.

Lemma collect_used_range bs tt used :
  collect_used bs tt = Ok used ->
  Forall (fun u => 0 <= fst u < 86400 /\ 0 <= snd u < 86400) used.
Proof.
  revert used. induction bs as [|v bs IH]; intros used; simpl.
  - intros H. injection H as <-. constructor.
  - destruct v; try discriminate.
    destruct (negb _); [apply IH|].
    destruct (getitem "blockStartTime" _) as [vs|]; [|discriminate].
    destruct (_parse_time vs) as [s|] eqn:Es; [|discriminate].
    destruct (getitem "blockEndTime" _) as [ve|]; [|discriminate].
    destruct (_parse_time ve) as [e|] eqn:Ee; [|discriminate].
    destruct (collect_used bs tt) as [r|] eqn:Er; [|discriminate].
    intros H. injection H as <-. constructor; [|exact (IH _ eq_refl)].
    simpl. split; [exact (parse_time_range _ _ Es) | exact (parse_time_range _ _ Ee)].
Qed.

(** ** The sort and the scan *)

Definition start_le (a b : Z * Z) : Prop := fst a <= fst b.

Lemma insert_by_start_perm x l : Permutation (insert_by_start x l) (x :: l).
Proof.
  induction l as [|y l IH]; simpl; [reflexivity|].
  destruct (fst y <=? fst x); [|reflexivity].
  rewrite IH. apply perm_swap.
Qed.

Lemma sort_by_start_perm l : Permutation (sort_by_start l) l.
Proof.
  induction l as [|x l IH]; simpl; [reflexivity|].
  rewrite insert_by_start_perm. apply perm_skip, IH.
Qed.

Lemma insert_by_start_sorted x l :
  StronglySorted start_le l -> StronglySorted start_le (insert_by_start x l).
Proof.
  induction l as [|y l IH]; simpl; intros Hs.
  - repeat constructor.
  - apply StronglySorted_inv in Hs as [Hl Hy].
    destruct (Z.leb_spec (fst y) (fst x)).
    + constructor; [exact (IH Hl)|].
      apply (Permutation_Forall (Permutation_sym (insert_by_start_perm x l))).
      constructor; [exact H | exact Hy].
    + constructor; [constructor; [exact Hl | exact Hy]|].
      constructor; [unfold start_le; lia|].
      eapply Forall_impl; [|exact Hy]. unfold start_le. intros a Ha. lia.
Qed.

Lemma sort_by_start_sorted l : StronglySorted start_le (sort_by_start l).
Proof.
  induction l as [|x l IH]; simpl; [constructor|].
  apply insert_by_start_sorted, IH.
Qed.

Lemma scan_inl l c d x :
  StronglySorted start_le l -> scan l c d = inl x ->
  c <= x /\ Forall (fun u => snd u <= x \/ x + d <= fst u) l
  /\ exists u, In u l /\ x + d <= fst u.
Proof.
  revert c. induction l as [|[s e] l IH]; intros c Hs; simpl; [discriminate|].
  apply StronglySorted_inv in Hs as [Hl Hh].
  destruct (Z.leb_spec (c + d) s) as [Hle|Hlt].
  - intros Hx. injection Hx as <-. split; [lia|]. split.
    + constructor; [right; simpl; lia|].
      eapply Forall_impl; [|exact Hh]. unfold start_le. simpl. intros u Hu. lia.
    + exists (s, e). split; [left; reflexivity | simpl; lia].
  - intros Hx. destruct (IH _ Hl Hx) as [Hc [Hf [u [Hu Hux]]]].
    rewrite SlotProofs.push_candidate in Hc. split; [lia|]. split.
    + constructor; [left; simpl; lia | exact Hf].
    + exists u. split; [right; exact Hu | exact Hux].
Qed.

Lemma scan_inr l c d x :
  scan l c d = inr x -> c <= x /\ Forall (fun u => snd u <= x) l.
Proof.
  revert c. induction l as [|[s e] l IH]; intros c; simpl.
  - intros H. injection H as <-. split; [lia | constructor].
  - destruct (c + d <=? s); [discriminate|].
    intros H. destruct (IH _ H) as [Hc Hf]. rewrite SlotProofs.push_candidate in Hc.
    split; [lia|]. constructor; [simpl; lia | exact Hf].
Qed.

Lemma find_slot_free existing_blocks timeTableId duration_minutes
    start_str end_str :
  0 <= duration_minutes ->
  find_non_overlapping_time existing_blocks timeTableId duration_minutes
  = Ok (start_str, end_str) ->
  exists used, collect_used existing_blocks timeTableId = Ok used
  /\ ((start_str, end_str) = ("19:00:00", "20:30:00")%string
      \/ exists a, start_str = _format_time a
                   /\ end_str = _format_time (a + 60 * duration_minutes)
                   /\ DAY_START <= a /\ a + 60 * duration_minutes < 86400
                   /\ Forall (fun u => snd u <= a \/ a + 60 * duration_minutes <= fst u)
                        used).
Proof.
  intros Hd H. unfold find_non_overlapping_time in H. cbv zeta in H.
  destruct (collect_used existing_blocks timeTableId) as [used|] eqn:Eu; [|discriminate].
  exists used. split; [reflexivity|].
  pose proof (collect_used_range _ _ _ Eu) as Hr. rewrite Forall_forall in Hr.
  pose proof (sort_by_start_perm used) as Hp.
  destruct (scan (sort_by_start used) DAY_START (60 * duration_minutes)) as [a|a] eqn:Es.
  - destruct (scan_inl _ _ _ _ (sort_by_start_sorted used) Es) as [Ha [Hf [u [Hu Hx]]]].
    assert (Hu' : In u used) by exact (Permutation_in _ Hp Hu).
    assert (a + 60 * duration_minutes < 86400) by (destruct (Hr u Hu'); lia).
    unfold DAY_START in Ha.
    rewrite !time_of_small in H by lia.
    injection H as <- <-. right. exists a.
    split; [reflexivity|]. split; [reflexivity|]. split; [unfold DAY_START; lia|].
    split; [lia|]. exact (Permutation_Forall Hp Hf).
  - destruct (scan_inr _ _ _ _ Es) as [Ha Hf].
    destruct (Z.leb_spec (a + 60 * duration_minutes) DAY_END).
    + unfold DAY_START in Ha. unfold DAY_END in *.
      rewrite !time_of_small in H by lia.
      injection H as <- <-. right. exists a.
      split; [reflexivity|]. split; [reflexivity|]. split; [unfold DAY_START; lia|].
      split; [lia|].
      eapply Forall_impl; [|exact (Permutation_Forall Hp Hf)]. intros u Hu. left. exact Hu.
    + injection H as <- <-. left. reflexivity.
Qed.

(** Extra: unless it returns its fixed fallback, [find_non_overlapping_time]
    returns a slot of exactly the requested duration, starting at 09:00 or
    later and ending before midnight, that overlaps none of the existing
    intervals of the timetable. *)
Theorem find_non_overlapping_time_free existing_blocks timeTableId duration_minutes
    start_str end_str :
  0 <= duration_minutes ->
  find_non_overlapping_time existing_blocks timeTableId duration_minutes
  = Ok (start_str, end_str) ->
  exists used, collect_used existing_blocks timeTableId = Ok used
  /\ ((start_str, end_str) = ("19:00:00", "20:30:00")%string
      \/ exists a, start_str = _format_time a
                   /\ end_str = _format_time (a + 60 * duration_minutes)
                   /\ DAY_START <= a /\ a + 60 * duration_minutes < 86400
                   /\ Forall (fun u => snd u <= a \/ a + 60 * duration_minutes <= fst u)
                        used).
Proof. exact (find_slot_free existing_blocks timeTableId duration_minutes start_str end_str). Qed.

End SlotFacts.

Module SlotFactsExamples.

Import Chat Slots SlotFacts.
Local Open Scope Z_scope.
Local Open Scope list_scope.

Lemma parse_format_time_witness :
  0 <= 37800 < 86400 /\ _parse_time (JStr (_format_time 37800)) = Ok 37800.
Proof. split; [lia | apply (parse_format_time 37800); lia]. Defined.


(** Two blocks of the TimeTable 1, 09:00-10:00 and 12:00-13:00, and one of
    the TimeTable 2. *)
Definition two_blocks : list value :=
  [JObj [("timeTableId", JInt 1); ("blockStartTime", JStr "09:00:00");
         ("blockEndTime", JStr "10:00:00")];
   JObj [("timeTableId", JInt 2); ("blockStartTime", JStr "10:00:00");
         ("blockEndTime", JStr "11:00:00")];
   JObj [("timeTableId", JInt 1); ("blockStartTime", JStr "12:00");
         ("blockEndTime", JStr "13:00")]].

Lemma find_non_overlapping_time_free_witness :
  0 <= 90 /\ find_non_overlapping_time two_blocks 1 90 = Ok ("10:00:00", "11:30:00")
  /\ exists used, collect_used two_blocks 1 = Ok used
  /\ (("10:00:00", "11:30:00") = ("19:00:00", "20:30:00")%string
      \/ exists a, "10:00:00" = _format_time a
                   /\ "11:30:00" = _format_time (a + 60 * 90)
                   /\ DAY_START <= a /\ a + 60 * 90 < 86400
                   /\ Forall (fun u => snd u <= a \/ a + 60 * 90 <= fst u) used).
Proof.
  assert (H : find_non_overlapping_time two_blocks 1 90 = Ok ("10:00:00", "11:30:00"))
    by (vm_compute; reflexivity).
  split; [lia|]. split; [exact H|].
  exact (find_non_overlapping_time_free two_blocks 1 90 _ _ ltac:(lia) H).
Defined.

(** [[10, 30, 15, 500]] (with nanoseconds), [[10, 30]] and
    ["10:30:15"]. *)
Lemma parse_time_formats_agree_witness :
  (0 <= 10 <= 23 /\ 0 <= 30 <= 59 /\ 0 <= 15 <= 59)
  /\ (_parse_time (JList [JInt 10; JInt 30; JInt 15; JInt 500])
       = Ok (3600 * 10 + 60 * 30 + 15)
      /\ _parse_time (JList [JInt 10; JInt 30]) = Ok (3600 * 10 + 60 * 30)
      /\ _parse_time (JStr (_format_time (3600 * 10 + 60 * 30 + 15)))
         = Ok (3600 * 10 + 60 * 30 + 15))
  /\ _format_time (3600 * 10 + 60 * 30 + 15) = "10:30:15".
Proof.
  split; [lia|]. split; [|vm_compute; reflexivity].
  apply (parse_time_formats_agree 10 30 15 [JInt 500]); lia.
Defined.

End SlotFactsExamples.

Module SlotRange.

Import Chat Slots SlotFacts SlotProofs.
Local Open Scope Z_scope.
Local Open Scope list_scope.

(** ** Range checks of [datetime] and [timedelta] *)

Lemma dt_in_range_iff today x :
  dt_in_range today x = true <-> 1 <= today + x / 86400 <= MAX_ORDINAL.
Proof. unfold dt_in_range, day_seconds. rewrite andb_true_iff, !Z.leb_le. reflexivity. Qed.

Lemma dt_in_range_between today lo hi x :
  dt_in_range today lo = true -> dt_in_range today hi = true -> lo <= x <= hi ->
  dt_in_range today x = true.
Proof.
  rewrite !dt_in_range_iff. intros Hl Hh Hx.
  pose proof (Z.div_le_mono lo x 86400 ltac:(lia) ltac:(lia)).
  pose proof (Z.div_le_mono x hi 86400 ltac:(lia) ltac:(lia)). lia.
Qed.

(** Every time of today's date exists. *)
Lemma dt_in_range_day today x :
  1 <= today <= MAX_ORDINAL -> 0 <= x < 86400 -> dt_in_range today x = true.
Proof. intros Ht Hx. apply dt_in_range_iff. rewrite Z.div_small by exact Hx. lia. Qed.

Lemma dt_add_in today x d :
  dt_in_range today (x + d) = true -> dt_add today x d = Ok (x + d).
Proof. unfold dt_add. intros ->. reflexivity. Qed.

(** A duration that moves a time of today to a representable [datetime]
    is a valid [timedelta]. *)
Lemma timedelta_in_range today x m :
  1 <= today <= MAX_ORDINAL -> 0 <= x < 86400 ->
  dt_in_range today (x + 60 * m) = true -> timedelta_minutes m = Ok (60 * m).
Proof.
  intros Ht Hx Hr. apply dt_in_range_iff in Hr. unfold timedelta_minutes.
  unfold MAX_ORDINAL in *.
  replace ((-999999999 <=? m / 1440) && (m / 1440 <=? 999999999)) with true;
    [reflexivity|].
  symmetry. rewrite andb_true_iff, !Z.leb_le. Z.div_mod_to_equations. lia.
Qed.

(** ** The scan with range checks *)

Lemma max_end_cons s e l c : max_end ((s, e) :: l) c = max_end l (Z.max c e).
Proof. reflexivity. Qed.

Lemma max_end_ge l c : c <= max_end l c.
Proof.
  revert c. induction l as [|[s e] l IH]; intros c; [unfold max_end; simpl; lia|].
  rewrite max_end_cons. specialize (IH (Z.max c e)). lia.
Qed.

Lemma max_end_lt l c B :
  Forall (fun u => snd u < B) l -> c < B -> max_end l c < B.
Proof.
  revert c. induction l as [|[s e] l IH]; intros c Hf Hc; [unfold max_end; simpl; lia|].
  apply Forall_cons_iff in Hf as [He Hf]. simpl in He.
  rewrite max_end_cons. apply IH; [exact Hf | lia].
Qed.

(** Over a prefix whose intervals all start before the running candidate
    plus the duration, the checked scan moves on to the latest end. *)
Lemma scan_at_prefix today pre rest c d :
  (forall pre1 u1 post1, pre = pre1 ++ u1 :: post1 -> fst u1 < max_end pre1 c + d) ->
  (forall x, c <= x <= max_end pre c -> dt_in_range today (x + d) = true) ->
  scan_at today (pre ++ rest) c d = scan_at today rest (max_end pre c) d.
Proof.
  revert c. induction pre as [|[s e] pre IH]; intros c Hgap Hr; [reflexivity|].
  assert (Hs : s < c + d) by exact (Hgap [] (s, e) pre eq_refl).
  change (((s, e) :: pre) ++ rest) with ((s, e) :: (pre ++ rest)).
  cbn [scan_at].
  rewrite dt_add_in by (apply Hr; pose proof (max_end_ge ((s, e) :: pre) c); lia).
  destruct (Z.leb_spec (c + d) s); [lia|].
  rewrite push_candidate, max_end_cons. apply IH.
  - intros pre1 u1 post1 ->. exact (Hgap ((s, e) :: pre1) u1 post1 eq_refl).
  - intros x Hx. apply Hr. rewrite max_end_cons. lia.
Qed.

(** Within the range of [datetime], the checked scan is the scan. *)
Lemma scan_at_ok today l c d :
  (forall x, c <= x <= max_end l c -> dt_in_range today (x + d) = true) ->
  scan_at today l c d = Ok (scan l c d).
Proof.
  revert c. induction l as [|[s e] l IH]; intros c Hr; [reflexivity|].
  cbn [scan_at scan].
  rewrite dt_add_in by (apply Hr; pose proof (max_end_ge ((s, e) :: l) c); lia).
  destruct (c + d <=? s); [reflexivity|].
  rewrite push_candidate. apply IH. intros x Hx. apply Hr. rewrite max_end_cons. lia.
Qed.

Lemma scan_inr_max_end l c d x : scan l c d = inr x -> x = max_end l c.
Proof.
  revert c. induction l as [|[s e] l IH]; intros c; simpl.
  - intros H. injection H as <-. reflexivity.
  - destruct (c + d <=? s); [discriminate|]. rewrite push_candidate. apply IH.
Qed.

Lemma sorted_in u used : In u (sort_by_start used) -> In u used.
Proof. apply Permutation_in, sort_by_start_perm. Qed.

Lemma sorted_ends_lt used bs tt :
  collect_used bs tt = Ok used ->
  Forall (fun u => snd u < 86400) (sort_by_start used).
Proof.
  intros Hu. apply Forall_forall. intros u Hin.
  pose proof (collect_used_range _ _ _ Hu) as Hr. rewrite Forall_forall in Hr.
  destruct (Hr u (sorted_in _ _ Hin)). lia.
Qed.

(** When the scan and the last sum stay in the range of [datetime], the
    search with range checks answers as the one without. *)
Lemma find_at_agrees today bs tt m used :
  collect_used bs tt = Ok used ->
  timedelta_minutes m = Ok (60 * m) ->
  (forall x, DAY_START <= x <= max_end (sort_by_start used) DAY_START ->
     dt_in_range today (x + 60 * m) = true) ->
  find_non_overlapping_time_at today bs tt m = find_non_overlapping_time bs tt m.
Proof.
  intros Hu Ht Hr. unfold find_non_overlapping_time_at, find_non_overlapping_time.
  rewrite Ht, Hu. cbv zeta. rewrite (scan_at_ok _ _ _ _ Hr).
  destruct (scan (sort_by_start used) DAY_START (60 * m)) as [c|c] eqn:Es; [reflexivity|].
  apply scan_inr_max_end in Es. subst c.
  rewrite dt_add_in by (apply Hr; pose proof (max_end_ge (sort_by_start used) DAY_START); lia).
  reflexivity.
Qed.

(** Claim C9, as amended, for a search run on any day [today]: with the
    intervals of the timetable being exactly 09:00:00-10:30:00, a 90-minute
    request gives 10:30:00-12:00:00; scanning the intervals sorted by start
    from 09:00 with the latest end seen so far as candidate, the fixed
    fallback 19:00:00-20:30:00 is returned when no interval starts late
    enough to leave room before it and the slot after the latest end would
    end after 20:00:00, provided that slot's end is a representable
    [datetime]; and the first interval that leaves room before it yields the
    gap from the candidate, whether or not that gap ends after 20:00:00,
    provided 09:00 plus the duration is a representable [datetime]. *)
Theorem find_slot_after_block_and_fallback today existing_blocks timeTableId
    duration_minutes :
  1 <= today <= MAX_ORDINAL ->
  (collect_used existing_blocks timeTableId = Ok [(9 * 3600, 10 * 3600 + 30 * 60)] ->
   find_non_overlapping_time_at today existing_blocks timeTableId 90
   = Ok ("10:30:00", "12:00:00"))
  /\ (forall used,
        collect_used existing_blocks timeTableId = Ok used ->
        (forall pre u post, sort_by_start used = pre ++ u :: post ->
           fst u < max_end pre DAY_START + 60 * duration_minutes) ->
        DAY_END < max_end (sort_by_start used) DAY_START + 60 * duration_minutes ->
        dt_in_range today (max_end (sort_by_start used) DAY_START + 60 * duration_minutes)
        = true ->
        find_non_overlapping_time_at today existing_blocks timeTableId duration_minutes
        = Ok ("19:00:00", "20:30:00"))
  /\ (forall used pre u post,
        collect_used existing_blocks timeTableId = Ok used ->
        sort_by_start used = pre ++ u :: post ->
        (forall pre1 u1 post1, pre = pre1 ++ u1 :: post1 ->
           fst u1 < max_end pre1 DAY_START + 60 * duration_minutes) ->
        max_end pre DAY_START + 60 * duration_minutes <= fst u ->
        dt_in_range today (DAY_START + 60 * duration_minutes) = true ->
        find_non_overlapping_time_at today existing_blocks timeTableId duration_minutes
        = Ok (_format_time (max_end pre DAY_START),
              _format_time (time_of (max_end pre DAY_START + 60 * duration_minutes)))).
Proof.
  intros Ht. split; [|split].
  - intros H. rewrite (find_at_agrees today _ _ 90 _ H eq_refl).
    + unfold find_non_overlapping_time. rewrite H. reflexivity.
    + intros x Hx.
      assert (E : max_end (sort_by_start [(9 * 3600, 10 * 3600 + 30 * 60)]) DAY_START = 37800)
        by reflexivity.
      rewrite E in Hx. unfold DAY_START in Hx. apply dt_in_range_day; [exact Ht | lia].
  - intros used H Hgap Hend Hr.
    pose proof (max_end_lt _ DAY_START 86400 (sorted_ends_lt _ _ _ H) ltac:(unfold DAY_START; lia))
      as Hlt.
    pose proof (max_end_ge (sort_by_start used) DAY_START) as Hge.
    rewrite (find_at_agrees today _ _ _ _ H).
    + unfold find_non_overlapping_time. rewrite H.
      rewrite (scan_no_gap _ _ _ Hgap).
      destruct (Z.leb_spec (max_end (sort_by_start used) DAY_START + 60 * duration_minutes)
                  DAY_END); [lia | reflexivity].
    + assert (HD : DAY_START = 32400) by reflexivity.
      exact (timedelta_in_range today (max_end (sort_by_start used) DAY_START)
               duration_minutes Ht ltac:(lia) Hr).
    + intros x Hx. assert (HD : DAY_START = 32400) by reflexivity.
      assert (HE : DAY_END = 72000) by reflexivity. apply (dt_in_range_between today 0 _ _ (dt_in_range_day today 0 Ht ltac:(lia)) Hr).
      lia.
  - intros used pre u post H Hs Hgap Hfit Hr.
    assert (Hu : In u used) by (apply sorted_in; rewrite Hs; apply in_or_app; right; left; reflexivity).
    pose proof (collect_used_range _ _ _ H) as Hrange. rewrite Forall_forall in Hrange.
    destruct (Hrange u Hu) as [Hus _].
    assert (Hpre : Forall (fun u => snd u < 86400) pre).
    { pose proof (sorted_ends_lt _ _ _ H) as Hf. rewrite Hs in Hf.
      apply Forall_app in Hf as [Hf _]. exact Hf. }
    pose proof (max_end_lt _ DAY_START 86400 Hpre ltac:(unfold DAY_START; lia)) as Hlt.
    pose proof (max_end_ge pre DAY_START) as Hge.
    set (c := max_end pre DAY_START) in *.
    assert (Hx : forall x, DAY_START <= x <= c ->
                   dt_in_range today (x + 60 * duration_minutes) = true).
    { intros x Hx. apply (dt_in_range_between today _ 86399 _ Hr
                            (dt_in_range_day today 86399 Ht ltac:(lia))). lia. }
    unfold find_non_overlapping_time_at.
    rewrite (timedelta_in_range today DAY_START duration_minutes Ht
               ltac:(unfold DAY_START; lia) Hr).
    rewrite H, Hs, (scan_at_prefix _ _ _ _ _ Hgap Hx).
    destruct u as [s e]. cbn [scan_at fst] in *. fold c.
    rewrite dt_add_in by (apply Hx; lia).
    destruct (Z.leb_spec (c + 60 * duration_minutes) s); [|lia].
    assert (HD : DAY_START = 32400) by reflexivity.
    rewrite (time_of_small c) by lia. reflexivity.
Qed.

(** Extra: [calculate_end_time] of a formatted time of day [t] adds the
    duration on the clock, wrapping past midnight, when [t] plus the
    duration is a representable [datetime] of the day the call runs on;
    otherwise it raises [OverflowError]. *)
Theorem calculate_end_time_wraps today t duration_minutes :
  1 <= today <= MAX_ORDINAL -> 0 <= t < 86400 ->
  Places.calculate_end_time today (_format_time t) duration_minutes
  = if dt_in_range today (t + 60 * duration_minutes)
    then Ok (_format_time ((t + 60 * duration_minutes) mod 86400))
    else Raise "OverflowError".
Proof.
  intros Ht Hx. unfold Places.calculate_end_time. rewrite parse_time_of_format by exact Hx.
  destruct (dt_in_range today (t + 60 * duration_minutes)) eqn:E.
  - rewrite (timedelta_in_range today t duration_minutes Ht Hx E).
    rewrite dt_add_in by exact E. reflexivity.
  - unfold timedelta_minutes.
    destruct ((-999999999 <=? duration_minutes / 1440)
              && (duration_minutes / 1440 <=? 999999999)); [|reflexivity].
    unfold dt_add. rewrite E. reflexivity.
Qed.

End SlotRange.

Module SlotRangeExamples.

Import Chat Slots SlotProofs SlotExamples SlotRange.
Local Open Scope Z_scope.
Local Open Scope list_scope.

(** The morning block, a 660-minute request that only the fallback
    answers, and the gap 19:30:00-20:30:00 before the 21:00 block, which
    ends after 20:00:00. *)
Lemma find_slot_after_block_and_fallback_witness :
  find_non_overlapping_time_at day_2026_10_16 [morning_block] 5 90
  = Ok ("10:30:00", "12:00:00")%string
  /\ find_non_overlapping_time_at day_2026_10_16 [morning_block] 5 660
     = Ok ("19:00:00", "20:30:00")%string
  /\ find_non_overlapping_time_at day_2026_10_16 late_blocks 5 60
     = Ok (_format_time (max_end [(9 * 3600, 19 * 3600 + 30 * 60)] DAY_START),
           _format_time (time_of (max_end [(9 * 3600, 19 * 3600 + 30 * 60)] DAY_START
                                  + 60 * 60)))
  /\ _format_time (max_end [(9 * 3600, 19 * 3600 + 30 * 60)] DAY_START) = "19:30:00"%string.
Proof.
  assert (Ht : 1 <= day_2026_10_16 <= MAX_ORDINAL) by (unfold day_2026_10_16, MAX_ORDINAL; lia).
  split; [|split; [|split]].
  - apply (proj1 (find_slot_after_block_and_fallback day_2026_10_16 [morning_block] 5 90 Ht)).
    vm_compute. reflexivity.
  - apply (proj1 (proj2 (find_slot_after_block_and_fallback day_2026_10_16 [morning_block]
                           5 660 Ht)) [(9 * 3600, 10 * 3600 + 30 * 60)]).
    + vm_compute. reflexivity.
    + intros pre u post Hs. destruct pre as [|p pre].
      * simpl in Hs. injection Hs as <- _. vm_compute. reflexivity.
      * destruct pre; discriminate Hs.
    + vm_compute. reflexivity.
    + vm_compute. reflexivity.
  - apply (proj2 (proj2 (find_slot_after_block_and_fallback day_2026_10_16 late_blocks
                           5 60 Ht)) [(9 * 3600, 19 * 3600 + 30 * 60); (21 * 3600, 23 * 3600 + 59 * 60)]
             [(9 * 3600, 19 * 3600 + 30 * 60)] (21 * 3600, 23 * 3600 + 59 * 60) []).
    + vm_compute. reflexivity.
    + vm_compute. reflexivity.
    + intros pre1 u1 post1 Hs. destruct pre1 as [|p pre1].
      * injection Hs as <- _. vm_compute. reflexivity.
      * destruct pre1; discriminate Hs.
    + unfold max_end, DAY_START. simpl. lia.
    + vm_compute. reflexivity.
  - vm_compute. reflexivity.
Defined.

(** 23:00:00 plus 90 minutes is 00:30:00 on 2026-10-16; on 9999-12-31,
    the last day [datetime] has, the same call raises [OverflowError]. *)
Lemma calculate_end_time_wraps_witness :
  Places.calculate_end_time day_2026_10_16 (_format_time 82800) 90
  = Ok (_format_time ((82800 + 60 * 90) mod 86400))
  /\ _format_time ((82800 + 60 * 90) mod 86400) = "00:30:00"%string
  /\ Places.calculate_end_time MAX_ORDINAL (_format_time 82800) 90
     = Raise "OverflowError".
Proof.
  split; [|split; [vm_compute; reflexivity|]].
  - rewrite (calculate_end_time_wraps day_2026_10_16 82800 90) by (unfold day_2026_10_16, MAX_ORDINAL; lia).
    vm_compute; reflexivity.
  - rewrite (calculate_end_time_wraps MAX_ORDINAL 82800 90) by (unfold day_2026_10_16, MAX_ORDINAL; lia).
    vm_compute; reflexivity.
Defined.

End SlotRangeExamples.

Module PlacesFacts.

Import Chat Slots Places.
Local Open Scope Z_scope.
Local Open Scope list_scope.

Section Google.

Variable settings : Settings.
Variable http_get : list (string * value) -> option value.
Variable py_str : value -> string.
Variable get_destination_location : value -> option string.
Variable today : Z.

Definition same_day (timeTableId : Z) (b : dict) : bool :=
  py_eq_int (get "timeTableId" b) timeTableId.

Lemma first_coords_in l s :
  first_coords py_str l = Some s -> exists b, In b l /\ coords py_str b = Some s.
Proof.
  induction l as [|b l IH]; simpl; [discriminate|].
  destruct (coords py_str b) as [s'|] eqn:E.
  - intros H. injection H as <-. exists b. split; [left; reflexivity | exact E].
  - intros H. destruct (IH H) as [b' [Hb Hc]]. exists b'. split; [right; exact Hb | exact Hc].
Qed.

Lemma first_coords_none l :
  first_coords py_str l = None -> Forall (fun b => coords py_str b = None) l.
Proof.
  induction l as [|b l IH]; simpl; [constructor|].
  destruct (coords py_str b) eqn:E; [discriminate|].
  intros H. constructor; [exact E | exact (IH H)].
Qed.

Lemma first_coords_found l b :
  In b l -> coords py_str b <> None -> exists s, first_coords py_str l = Some s.
Proof.
  intros Hb Hc. destruct (first_coords py_str l) as [s|] eqn:E; [exists s; reflexivity|].
  apply first_coords_none in E. rewrite Forall_forall in E. destruct (Hc (E b Hb)).
Qed.

Lemma location_from_blocks planContext timeTableId blocks ds b :
  parse_blocks_from_plan planContext = Ok blocks -> dicts_of blocks = Ok ds ->
  In b ds -> coords py_str b <> None ->
  exists b' s,
    get_location_from_plan py_str get_destination_location planContext timeTableId
    = Ok (Some s)
    /\ In b' ds /\ coords py_str b' = Some s
    /\ ((exists b'', In b'' ds /\ same_day timeTableId b'' = true
                     /\ coords py_str b'' <> None)
        -> same_day timeTableId b' = true).
Proof.
  intros Hp Hd Hb Hc. unfold get_location_from_plan. rewrite Hp.
  destruct blocks as [|v vs].
  { simpl in Hd. injection Hd as <-. destruct Hb. }
  cbv zeta. rewrite Hd. fold (same_day timeTableId).
  destruct (first_coords py_str (filter (same_day timeTableId) ds)) as [s|] eqn:E1.
  - destruct (first_coords_in _ _ E1) as [b' [Hb' Hc']].
    apply filter_In in Hb' as [Hin Hsd].
    exists b', s. repeat split; try assumption. intros _. exact Hsd.
  - destruct (first_coords_found _ _ Hb Hc) as [s E2]. rewrite E2.
    destruct (first_coords_in _ _ E2) as [b' [Hb' Hc']].
    exists b', s. repeat split; try assumption.
    intros [b'' [Hin [Hsd Hc'']]].
    assert (Hf : In b'' (filter (same_day timeTableId) ds))
      by (apply filter_In; split; assumption).
    destruct (first_coords_found _ _ Hf Hc'') as [s' E3]. congruence.
Qed.

(** Extra: when the plan's place blocks are all dicts and one of them has
    both coordinates, [get_location_from_plan] returns the coordinates of a
    block of the plan, of a block of the same TimeTable whenever one of those
    has coordinates, whatever the destination geocoder would answer. *)
Theorem get_location_from_plan_uses_blocks planContext timeTableId blocks ds b :
  parse_blocks_from_plan planContext = Ok blocks -> dicts_of blocks = Ok ds ->
  In b ds -> coords py_str b <> None ->
  exists b' s,
    get_location_from_plan py_str get_destination_location planContext timeTableId
    = Ok (Some s)
    /\ In b' ds /\ coords py_str b' = Some s
    /\ ((exists b'', In b'' ds /\ same_day timeTableId b'' = true
                     /\ coords py_str b'' <> None)
        -> same_day timeTableId b' = true).
Proof. exact (location_from_blocks planContext timeTableId blocks ds b). Qed.

(** Extra: when no place block of the plan has both coordinates (in
    particular when there is none), [get_location_from_plan] geocodes a
    truthy [TravelName] and otherwise returns [None]. *)
Theorem get_location_from_plan_falls_back planContext timeTableId blocks ds :
  parse_blocks_from_plan planContext = Ok blocks -> dicts_of blocks = Ok ds ->
  Forall (fun b => coords py_str b = None) ds ->
  get_location_from_plan py_str get_destination_location planContext timeTableId
  = Ok (let travel_name := get "TravelName" planContext in
        if py_truthy travel_name then get_destination_location travel_name else None).
Proof.
  intros Hp Hd Hn. unfold get_location_from_plan. rewrite Hp.
  destruct blocks as [|v vs]; [reflexivity|].
  cbv zeta. rewrite Hd.
  assert (Hs : first_coords py_str (filter (same_day timeTableId) ds) = None).
  { destruct (first_coords py_str (filter (same_day timeTableId) ds)) as [s|] eqn:E;
      [|reflexivity].
    destruct (first_coords_in _ _ E) as [b [Hb Hc]]. apply filter_In in Hb as [Hb _].
    rewrite Forall_forall in Hn. rewrite (Hn b Hb) in Hc. discriminate. }
  assert (Ha : first_coords py_str ds = None).
  { destruct (first_coords py_str ds) as [s|] eqn:E; [|reflexivity].
    destruct (first_coords_in _ _ E) as [b [Hb Hc]].
    rewrite Forall_forall in Hn. rewrite (Hn b Hb) in Hc. discriminate. }
  fold (same_day timeTableId). rewrite Hs, Ha. reflexivity.
Qed.

Lemma call_google_places_no_key query location radius result_index :
  call_google_places settings http_get py_str query location radius result_index
  = Raise "AttributeError".
Proof. reflexivity. Qed.

(** Extra: [call_google_places] never returns: [Settings] has no field
    [google_places_api_key], so line 229, before the [try], raises
    [AttributeError] on every call, whatever the environment the settings
    are read from and whatever the Places API would answer. *)
Theorem call_google_places_raises query location radius result_index :
  call_google_places settings http_get py_str query location radius result_index
  = Raise "AttributeError".
Proof. unfold call_google_places, settings_field. reflexivity. Qed.

(** Extra: [search_and_create_place_block] never returns a block nor its
    [NO_PLACE_FOUND] error dict: every call raises, and whenever the plan's
    location is computed without error, the exception is the
    [AttributeError] of [call_google_places], which nothing catches. *)
Theorem search_and_create_place_block_raises query timeTableId planContext
    duration_minutes :
  (forall d, search_and_create_place_block settings http_get py_str
               get_destination_location today query timeTableId planContext
               duration_minutes <> Ok d)
  /\ (forall location,
        get_location_from_plan py_str get_destination_location planContext timeTableId
        = Ok location ->
        search_and_create_place_block settings http_get py_str get_destination_location
          today query timeTableId planContext duration_minutes
        = Raise "AttributeError").
Proof.
  unfold search_and_create_place_block.
  destruct (parse_blocks_from_plan planContext) as [blocks|e] eqn:Ep.
  - destruct (get_location_from_plan py_str get_destination_location planContext timeTableId)
      as [location|e] eqn:El.
    + rewrite call_google_places_no_key. split; [intros d; discriminate|].
      intros loc _. reflexivity.
    + split; [intros d; discriminate|]. intros loc Hl. discriminate Hl.
  - split; [intros d; discriminate|]. intros loc Hl.
    unfold get_location_from_plan in Hl. rewrite Ep in Hl. discriminate Hl.
Qed.

End Google.

End PlacesFacts.

Module PlacesFactsExamples.

Import Chat Slots Places PlacesFacts.
Local Open Scope Z_scope.
Local Open Scope list_scope.

Definition ex_str (v : value) : string :=
  match v with JStr s => s | _ => "?" end.

Definition ex_geocode (_ : value) : option string := Some "37.56,126.97".

Definition ex_item (name pid : string) (lat lng : Z) : value :=
  JObj [("name", JStr name); ("place_id", JStr pid); ("formatted_address", JStr "Seoul");
        ("geometry", JObj [("location", JObj [("lat", JFloat lat (-2));
                                              ("lng", JFloat lng (-2))])])].

Definition ex_results : list value :=
  [ex_item "Cafe A" "pa" 3756 12697; ex_item "Cafe B" "pb" 3757 12698].

(** A Text Search endpoint that answers [OK] with two results. *)
Definition ex_http (_ : list (string * value)) : option value :=
  Some (JObj [("status", JStr "OK"); ("results", JList ex_results)]).

Definition ex_block (tt : Z) (lat lng : Z) : value :=
  JObj [("timeTableId", JInt tt); ("blockStartTime", JStr "09:00:00");
        ("blockEndTime", JStr "10:00:00");
        ("yLocation", JFloat lat (-2)); ("xLocation", JFloat lng (-2))].

(** A plan whose TimeTable 2 block comes before its TimeTable 1 block. *)
Definition ex_plan : dict :=
  [("TravelName", JStr "Seoul");
   ("TimeTablePlaceBlocks", JList [ex_block 2 3510 12903; ex_block 1 3756 12697])].

Definition ex_dicts : list dict :=
  match dicts_of (match parse_blocks_from_plan ex_plan with Ok l => l | Raise _ => [] end) with
  | Ok ds => ds | Raise _ => []
  end.

Lemma get_location_from_plan_uses_blocks_witness :
  parse_blocks_from_plan ex_plan = Ok [ex_block 2 3510 12903; ex_block 1 3756 12697]
  /\ dicts_of [ex_block 2 3510 12903; ex_block 1 3756 12697] = Ok ex_dicts
  /\ exists b' s,
    get_location_from_plan ex_str ex_geocode ex_plan 1 = Ok (Some s)
    /\ In b' ex_dicts /\ coords ex_str b' = Some s
    /\ ((exists b'', In b'' ex_dicts /\ same_day 1 b'' = true /\ coords ex_str b'' <> None)
        -> same_day 1 b' = true).
Proof.
  split; [reflexivity|]. split; [reflexivity|].
  apply (get_location_from_plan_uses_blocks ex_str ex_geocode ex_plan 1
           [ex_block 2 3510 12903; ex_block 1 3756 12697] ex_dicts (hd [] ex_dicts));
    [reflexivity | reflexivity | left; reflexivity | vm_compute; discriminate].
Defined.

(** A plan whose only block has no coordinates. *)
Definition ex_plan_nocoords : dict :=
  [("TravelName", JStr "Busan");
   ("TimeTablePlaceBlocks", JList [JObj [("timeTableId", JInt 1); ("xLocation", JNull)]])].

Lemma get_location_from_plan_falls_back_witness :
  get_location_from_plan ex_str ex_geocode ex_plan_nocoords 1
  = Ok (let travel_name := get "TravelName" ex_plan_nocoords in
        if py_truthy travel_name then ex_geocode travel_name else None).
Proof.
  apply (get_location_from_plan_falls_back ex_str ex_geocode ex_plan_nocoords 1
           [JObj [("timeTableId", JInt 1); ("xLocation", JNull)]]
           [[("timeTableId", JInt 1); ("xLocation", JNull)]]);
    [reflexivity | reflexivity | repeat constructor].
Defined.

(** Settings as [app.config] reads them from an environment that sets
    only the Gemini key. *)
Definition ex_settings : Settings :=
  {| openweather_api_key := ""; gemini_api_key := "G"; gemini_api_url := "";
     allowed_origins := ["https://www.planmate.site"] |}.

(** Even with a Places API that finds places, adding a cafe to the
    TimeTable 1 of [ex_plan] raises [AttributeError]. *)
Lemma search_and_create_place_block_raises_witness :
  (forall d, search_and_create_place_block ex_settings ex_http ex_str ex_geocode 739905
               "cafe" 1 ex_plan 90 <> Ok d)
  /\ get_location_from_plan ex_str ex_geocode ex_plan 1 = Ok (Some "?,?")
  /\ search_and_create_place_block ex_settings ex_http ex_str ex_geocode 739905 "cafe" 1
       ex_plan 90 = Raise "AttributeError".
Proof.
  assert (Hl : get_location_from_plan ex_str ex_geocode ex_plan 1 = Ok (Some "?,?"))
    by (vm_compute; reflexivity).
  destruct (search_and_create_place_block_raises ex_settings ex_http ex_str ex_geocode 739905
              "cafe" 1 ex_plan 90) as [H1 H2].
  split; [exact H1|]. split; [exact Hl|]. exact (H2 _ Hl).
Defined.

End PlacesFactsExamples.

Module MultipleFacts.

Import Chat Slots SlotFacts.
Local Open Scope Z_scope.
Local Open Scope list_scope.

(** Each block ends at the wall-clock time the next one starts. *)
Fixpoint chained (bs : list dict) : Prop :=
  match bs with
  | b1 :: ((b2 :: _) as rest) =>
      get "blockEndTime" b1 = get "blockStartTime" b2 /\ chained rest
  | _ => True
  end.

Section MultipleBlocks.

Variable call_google_places : string -> option string -> nat -> option place.
Variable get_location_from_plan : dict -> Z -> option string.

Definition block_ok (timeTableId : Z) (b : dict) : Prop :=
  get "timeTableId" b = JInt timeTableId
  /\ exists e, get "blockEndTime" b = JStr (_format_time e) /\ 0 <= e <= DAY_END.

Lemma place_queries_shape queries location timeTableId duration current_start_dt
    query_count :
  let bs := place_queries call_google_places queries location timeTableId duration
              current_start_dt query_count in
  (length bs <= length queries)%nat
  /\ Forall (block_ok timeTableId) bs
  /\ chained bs
  /\ (forall b rest, bs = b :: rest ->
        get "blockStartTime" b = JStr (_format_time (time_of current_start_dt))).
Proof.
  revert current_start_dt query_count.
  induction queries as [|q rest IH]; intros cur qc; cbv zeta; simpl.
  - split; [lia|]. split; [constructor|]. split; [exact I|]. intros b r H; discriminate.
  - destruct (call_google_places q location (count_of q qc)) as [gp|].
    + destruct (Z.ltb_spec DAY_END (time_of (cur + duration))) as [Hlt|Hle].
      * split; [simpl; lia|]. split; [constructor|]. split; [exact I|]. intros b r H; discriminate.
      * destruct (IH (cur + duration) (set_count q (S (count_of q qc)) qc))
          as [Hl [Hf [Hc Hh]]].
        set (bs := place_queries call_google_places rest location timeTableId duration
                     (cur + duration) (set_count q (S (count_of q qc)) qc)) in *.
        split; [simpl; lia|]. split.
        { constructor; [|exact Hf]. split; [reflexivity|].
          exists (time_of (cur + duration)). split; [reflexivity|].
          split; [unfold time_of, day_seconds; apply Z.mod_pos_bound; lia | exact Hle]. }
        split.
        { destruct bs as [|b2 bs'] eqn:Eb; [exact I|]. split; [|exact Hc].
          rewrite (Hh b2 bs' eq_refl). reflexivity. }
        intros b r H. injection H as <- _. reflexivity.
    + destruct (IH cur (set_count q (S (count_of q qc)) qc)) as [Hl [Hf [Hc Hh]]].
      split; [lia|]. split; [exact Hf|]. split; [exact Hc | exact Hh].
Qed.

(** The candidate of the scan stays between its start and a bound of all
    the ends. *)
Lemma scan_candidate_bound l c d x B :
  Forall (fun u => snd u < B) l -> c < B ->
  scan l c d = inl x \/ scan l c d = inr x -> c <= x < B.
Proof.
  revert c. induction l as [|[s e] l IH]; intros c Hf Hc; simpl.
  - intros [H|H]; [discriminate | injection H as <-; lia].
  - apply Forall_cons_iff in Hf as [He Hf]. simpl in He.
    destruct (c + d <=? s).
    + intros [H|H]; [injection H as <-; lia | discriminate].
    + rewrite SlotProofs.push_candidate. intros Hs.
      pose proof (IH (Z.max c e) Hf ltac:(lia) Hs). lia.
Qed.

(** The start [find_non_overlapping_time] returns is a formatted time of
    day, for any duration. *)
Lemma find_slot_start existing_blocks timeTableId duration_minutes start_str end_str :
  find_non_overlapping_time existing_blocks timeTableId duration_minutes
  = Ok (start_str, end_str) ->
  exists a, 0 <= a < 86400 /\ start_str = _format_time a.
Proof.
  intros H. unfold find_non_overlapping_time in H. cbv zeta in H.
  destruct (collect_used existing_blocks timeTableId) as [used|] eqn:Eu; [|discriminate].
  assert (Hf : Forall (fun u => snd u < 86400) (sort_by_start used)).
  { apply Forall_forall. intros u Hin.
    pose proof (collect_used_range _ _ _ Eu) as Hr. rewrite Forall_forall in Hr.
    destruct (Hr u (Permutation_in _ (sort_by_start_perm used) Hin)). lia. }
  assert (HD : DAY_START = 32400) by reflexivity.
  destruct (scan (sort_by_start used) DAY_START (60 * duration_minutes)) as [a|a] eqn:Es.
  - pose proof (scan_candidate_bound (sort_by_start used) DAY_START (60 * duration_minutes) a 86400 Hf ltac:(lia) (or_introl Es)).
    apply ok_eq in H. injection H as <- _. exists a. split; [lia|].
    rewrite time_of_small by lia. reflexivity.
  - pose proof (scan_candidate_bound (sort_by_start used) DAY_START (60 * duration_minutes) a 86400 Hf ltac:(lia) (or_intror Es)).
    destruct (a + 60 * duration_minutes <=? DAY_END).
    + apply ok_eq in H. injection H as <- _. exists a. split; [lia|].
      rewrite time_of_small by lia. reflexivity.
    + apply ok_eq in H. injection H as <- _. exists 68400. split; [lia|].
      vm_compute. reflexivity.
Qed.

Lemma first_start_roundtrip existing_blocks timeTableId duration_minutes start_str
    end_str t :
  find_non_overlapping_time existing_blocks timeTableId duration_minutes
  = Ok (start_str, end_str) ->
  _parse_time (JStr start_str) = Ok t -> _format_time (time_of t) = start_str.
Proof.
  intros Hf Hp.
  destruct (find_slot_start _ _ _ _ _ Hf) as [a [Ha ->]].
  rewrite parse_time_of_format in Hp by exact Ha. apply ok_eq in Hp. subst t.
  rewrite time_of_small by exact Ha. reflexivity.
Qed.

(** Extra: [search_multiple_place_blocks] returns at most one block per query,
    all for the given TimeTable, each ending at a wall-clock time no later than
    20:00:00 and each starting at the time the previous one ends; the first
    starts at the start of the slot [find_non_overlapping_time] finds. *)
Theorem search_multiple_place_blocks_chain queries timeTableId planContext
    duration_minutes bs :
  search_multiple_place_blocks call_google_places get_location_from_plan queries
    timeTableId planContext duration_minutes = Ok bs ->
  (length bs <= length queries)%nat
  /\ Forall (block_ok timeTableId) bs
  /\ chained bs
  /\ (forall b rest, bs = b :: rest ->
        exists existing_blocks start_str end_str,
          parse_blocks_from_plan planContext = Ok existing_blocks
          /\ find_non_overlapping_time existing_blocks timeTableId duration_minutes
             = Ok (start_str, end_str)
          /\ get "blockStartTime" b = JStr start_str).
Proof.
  intros H. unfold search_multiple_place_blocks in H. cbv zeta in H.
  destruct (parse_blocks_from_plan planContext) as [blocks|] eqn:Ep; [|discriminate].
  destruct (find_non_overlapping_time blocks timeTableId duration_minutes)
    as [[st et]|] eqn:Ef; [|discriminate].
  destruct (_parse_time (JStr st)) as [t|] eqn:Et; [|discriminate].
  apply ok_eq in H. subst bs.
  destruct (place_queries_shape queries (get_location_from_plan planContext timeTableId)
              timeTableId (60 * duration_minutes) t []) as [Hl [Hf [Hc Hh]]].
  split; [exact Hl|]. split; [exact Hf|]. split; [exact Hc|].
  intros b rest Hb. exists blocks, st, et. split; [first [exact Ep | reflexivity]|]. split; [first [exact Ef | reflexivity]|].
  rewrite (Hh b rest Hb). f_equal. exact (first_start_roundtrip _ _ _ _ _ _ Ef Et).
Qed.

End MultipleBlocks.

End MultipleFacts.

Module MultipleFactsExamples.

Import Chat Slots MultipleFacts.
Local Open Scope Z_scope.
Local Open Scope list_scope.

(** A places API that finds a place named after the query and the index. *)
Definition ex_places (q : string) (_ : option string) (i : nat) : option place :=
  Some {| placeName := JStr q; placeRating := JFloat 45 (-1); placeAddress := JStr "Seoul";
          placeId := JInt (Z.of_nat i); xLocation := JFloat 1270 (-1);
          yLocation := JFloat 375 (-1); placeLink := JNull |}.

Definition ex_no_location (_ : dict) (_ : Z) : option string := None.

(** A plan with a block of the TimeTable 5 from 09:00 to 10:00. *)
Definition ex_plan : dict :=
  [("TimeTablePlaceBlocks",
    JList [JObj [("timeTableId", JInt 5); ("blockStartTime", JStr "09:00:00");
                 ("blockEndTime", JStr "10:00:00")]])].

Definition ex_blocks : list dict :=
  match search_multiple_place_blocks ex_places ex_no_location ["a"; "b"; "a"]%string 5
          ex_plan 90 with
  | Ok bs => bs | Raise _ => []
  end.

Lemma search_multiple_place_blocks_chain_witness :
  search_multiple_place_blocks ex_places ex_no_location ["a"; "b"; "a"]%string 5 ex_plan 90
     = Ok ex_blocks
  /\ ((length ex_blocks <= length ["a"; "b"; "a"]%string)%nat
      /\ Forall (block_ok 5) ex_blocks
      /\ chained ex_blocks
      /\ (forall b rest, ex_blocks = b :: rest ->
            exists existing_blocks start_str end_str,
              parse_blocks_from_plan ex_plan = Ok existing_blocks
              /\ find_non_overlapping_time existing_blocks 5 90 = Ok (start_str, end_str)
              /\ get "blockStartTime" b = JStr start_str))
  /\ map (fun b => (get "blockStartTime" b, get "blockEndTime" b)) ex_blocks
     = [(JStr "10:00:00", JStr "11:30:00"); (JStr "11:30:00", JStr "13:00:00");
        (JStr "13:00:00", JStr "14:30:00")]%string.
Proof.
  assert (H : search_multiple_place_blocks ex_places ex_no_location ["a"; "b"; "a"]%string 5
                ex_plan 90 = Ok ex_blocks) by (vm_compute; reflexivity).
  split; [exact H|]. split; [|vm_compute; reflexivity].
  exact (search_multiple_place_blocks_chain ex_places ex_no_location ["a"; "b"; "a"]%string
           5 ex_plan 90 ex_blocks H).
Defined.

End MultipleFactsExamples.

Module ScheduleFacts.

Import Chat Slots AutoSchedule SlotFacts.
Local Open Scope Z_scope.
Local Open Scope list_scope.

(** A block whose [blockStartTime] and [blockEndTime] are
    ["HH:MM:SS"] strings, read as the times [s] and [e]. *)
Definition timed_block (b : dict) (s e : Z) : Prop :=
  exists ss es, get "blockStartTime" b = JStr ss /\ strptime_hms ss = Some s
                /\ get "blockEndTime" b = JStr es /\ strptime_hms es = Some e.

(** A block [has_time_conflict] can read: a missing or empty start or end,
    or both as ["HH:MM:SS"] strings. *)
Definition well_timed (b : dict) : Prop :=
  py_truthy (get "blockStartTime" b) = false \/ py_truthy (get "blockEndTime" b) = false
  \/ exists s e, timed_block b s e.

(** The block overlaps the interval from [cs] to [ce]. *)
Definition overlaps (cs ce : Z) (b : dict) : Prop :=
  exists s e, timed_block b s e /\ cs < e /\ s < ce.

Lemma strptime_hms_nonempty s t : strptime_hms s = Some t -> s <> EmptyString.
Proof. intros H ->. discriminate. Qed.

Lemma timed_block_truthy b s e :
  timed_block b s e ->
  py_truthy (get "blockStartTime" b) = true /\ py_truthy (get "blockEndTime" b) = true.
Proof.
  intros [ss [es [Hs [Ps [He Pe]]]]]. rewrite Hs, He. simpl.
  apply strptime_hms_nonempty in Ps, Pe.
  destruct (String.eqb_spec ss EmptyString), (String.eqb_spec es EmptyString);
    try contradiction; split; reflexivity.
Qed.

Lemma timed_block_unique b s e s' e' :
  timed_block b s e -> timed_block b s' e' -> s = s' /\ e = e'.
Proof.
  intros [ss [es [Hs [Ps [He Pe]]]]] [ss' [es' [Hs' [Ps' [He' Pe']]]]].
  rewrite Hs in Hs'. rewrite He in He'. injection Hs' as <-. injection He' as <-.
  rewrite Ps in Ps'. rewrite Pe in Pe'. injection Ps' as <-. injection Pe' as <-.
  split; reflexivity.
Qed.

Lemma conflict_loop_spec blocks cs ce :
  Forall well_timed blocks ->
  exists r, conflict_loop blocks cs ce = Ok r
            /\ (r = true <-> Exists (overlaps cs ce) blocks).
Proof.
  induction blocks as [|b rest IH]; intros Hw; simpl.
  - exists false. split; [reflexivity|]. split; [discriminate | intros H; inversion H].
  - apply Forall_cons_iff in Hw as [Hb Hw].
    destruct (IH Hw) as [r [Hr Hiff]].
    assert (Hskip : ~ overlaps cs ce b ->
                    (r = true <-> Exists (overlaps cs ce) (b :: rest))).
    { intros Hn. rewrite Hiff. split; [intros H; right; exact H|].
      intros H. inversion H; subst; [contradiction | assumption]. }
    destruct (negb (py_truthy (get "blockStartTime" b))
              || negb (py_truthy (get "blockEndTime" b))) eqn:Ef.
    + exists r. split; [exact Hr|]. apply Hskip.
      intros [s [e [Ht _]]]. destruct (timed_block_truthy _ _ _ Ht) as [T1 T2].
      rewrite T1, T2 in Ef. discriminate.
    + destruct Hb as [Hb | [Hb | [s [e Ht]]]];
        [rewrite Hb in Ef; discriminate | rewrite Hb, orb_true_r in Ef; discriminate|].
      pose proof Ht as [ss [es [Hs [Ps [He Pe]]]]].
      rewrite Hs, He. unfold to_tval. rewrite Ps, Pe. simpl lt_tval.
      destruct (Z.ltb_spec cs e) as [H1|H1]; cbv iota.
      * destruct (Z.ltb_spec s ce) as [H2|H2]; cbv iota.
        -- exists true. split; [reflexivity|]. split; [intros _|reflexivity].
           left. exists s, e. split; [exact Ht | split; assumption].
        -- exists r. split; [exact Hr|]. apply Hskip.
           intros [s' [e' [Ht' [_ H']]]].
           destruct (timed_block_unique _ _ _ _ _ Ht Ht'); subst. lia.
      * exists r. split; [exact Hr|]. apply Hskip.
        intros [s' [e' [Ht' [H' _]]]].
        destruct (timed_block_unique _ _ _ _ _ Ht Ht'); subst. lia.
Qed.

Lemma has_time_conflict_spec existing_blocks start_time end_time s e :
  Forall well_timed existing_blocks ->
  strptime_hms start_time = Some s -> strptime_hms end_time = Some e ->
  exists r, has_time_conflict existing_blocks start_time end_time = Ok r
            /\ (r = true <-> Exists (overlaps s e) existing_blocks).
Proof.
  intros Hw Hs He. unfold has_time_conflict.
  destruct existing_blocks as [|b rest].
  - exists false. split; [reflexivity|]. split; [discriminate | intros H; inversion H].
  - unfold parse_lit. rewrite Hs, He. exact (conflict_loop_spec _ _ _ Hw).
Qed.

(** Extra: on blocks whose times are missing, empty or ["HH:MM:SS"]
    strings, and on ["HH:MM:SS"] bounds, [has_time_conflict] returns without
    raising, and returns [True] exactly when one of the blocks overlaps the
    interval (start before the block's end and block's start before the
    end). *)
Theorem has_time_conflict_iff_overlap existing_blocks start_time end_time s e :
  Forall well_timed existing_blocks ->
  strptime_hms start_time = Some s -> strptime_hms end_time = Some e ->
  exists r, has_time_conflict existing_blocks start_time end_time = Ok r
            /\ (r = true <-> Exists (overlaps s e) existing_blocks).
Proof. exact (has_time_conflict_spec existing_blocks start_time end_time s e). Qed.

(** A block of the day's schedule that fits: its times are read as [s]
    and [e], and no block of [existing] overlaps them. *)
Definition fits (existing : list dict) (b : dict) : Prop :=
  exists s e, timed_block b s e /\ Forall (fun x => ~ overlaps s e x) existing.

Section Schedule.

Variable call_google_places : string -> value -> nat -> option place.

Lemma search_slot_forall (Q : dict -> Prop) existing q st et ds tt loc idx blocks
    blocks' :
  Forall Q blocks ->
  (has_time_conflict existing st et = Ok false ->
   forall p, Q (auto_block p st et ds (detect_place_category q) tt)) ->
  search_slot call_google_places existing q st et ds tt loc idx blocks = Ok blocks' ->
  Forall Q blocks'.
Proof.
  intros Hb Hq. unfold search_slot.
  destruct (has_time_conflict existing st et) as [[|]|x] eqn:Ec; intros H;
    try discriminate; [apply ok_eq in H; subst; exact Hb|].
  unfold create_place_block in H.
  destruct (call_google_places q loc idx) as [p|]; apply ok_eq in H; subst; [|exact Hb].
  apply Forall_app. split; [exact Hb | constructor; [exact (Hq eq_refl p) | constructor]].
Qed.

Lemma no_conflict_fits existing st et s e b :
  Forall well_timed existing ->
  strptime_hms st = Some s -> strptime_hms et = Some e ->
  has_time_conflict existing st et = Ok false ->
  get "blockStartTime" b = JStr st -> get "blockEndTime" b = JStr et ->
  fits existing b.
Proof.
  intros Hw Hs He Hc Hbs Hbe.
  destruct (has_time_conflict_spec _ _ _ _ _ Hw Hs He) as [r [Hr Hiff]].
  rewrite Hc in Hr. apply ok_eq in Hr. subst r.
  exists s, e. split; [exists st, et; repeat split; assumption|].
  apply Forall_forall. intros x Hx Ho.
  assert (Hx' : Exists (overlaps s e) existing) by (apply Exists_exists; exists x; split; assumption).
  apply Hiff in Hx'. discriminate.
Qed.

Lemma daily_schedule_fits day_number date_str tt destination is_last_day location
    accommodation_place planContext existing blocks :
  get_existing_blocks_for_date planContext date_str = Ok existing ->
  Forall well_timed existing ->
  create_daily_schedule call_google_places day_number date_str tt destination is_last_day
    location accommodation_place planContext = Ok blocks ->
  Forall (fits existing) blocks.
Proof.
  intros He Hw H. unfold create_daily_schedule in H. rewrite He in H. cbv zeta in H.
  assert (Slot : forall st et s e q idx bs bs',
            strptime_hms st = Some s -> strptime_hms et = Some e ->
            Forall (fits existing) bs ->
            search_slot call_google_places existing q st et date_str tt location idx bs
            = Ok bs' -> Forall (fits existing) bs').
  { intros st et s e q idx bs bs' Hs Het Hb Hss.
    exact (search_slot_forall _ _ _ _ _ _ _ _ _ _ _ Hb
             (fun Hc p => no_conflict_fits _ _ _ _ _
                (auto_block p st et date_str (detect_place_category q) tt)
                Hw Hs Het Hc eq_refl eq_refl) Hss). }
  destruct (search_slot _ _ _ "09:00:00" "11:00:00" _ _ _ _ _) as [b1|] eqn:E1;
    [|discriminate].
  destruct (search_slot _ _ _ "12:00:00" "14:00:00" _ _ _ _ _) as [b2|] eqn:E2;
    [|discriminate].
  destruct (search_slot _ _ _ "18:00:00" "20:00:00" _ _ _ _ _) as [b3|] eqn:E3;
    [|discriminate].
  assert (F1 := Slot "09:00:00" "11:00:00" 32400 39600 _ _ _ _ eq_refl eq_refl
                  (Forall_nil _) E1).
  assert (F2 := Slot "12:00:00" "14:00:00" 43200 50400 _ _ _ _ eq_refl eq_refl F1 E2).
  assert (F3 := Slot "18:00:00" "20:00:00" 64800 72000 _ _ _ _ eq_refl eq_refl F2 E3).
  destruct accommodation_place as [acc|]; [|apply ok_eq in H; subst; exact F3].
  destruct is_last_day; [apply ok_eq in H; subst; exact F3|].
  destruct (has_time_conflict existing "21:00:00" "23:59:00") as [[|]|x] eqn:Ec;
    try discriminate; apply ok_eq in H; subst; [exact F3|].
  apply Forall_app. split; [exact F3|]. constructor; [|constructor].
  exact (no_conflict_fits existing "21:00:00" "23:59:00" 75600 86340
           (create_place_block_from_data acc "21:00:00" "23:59:00" date_str tt)
           Hw eq_refl eq_refl Ec eq_refl eq_refl).
Qed.

(** Extra: when the plan's blocks for the date have missing, empty or
    ["HH:MM:SS"] times, every block [create_daily_schedule] emits has
    ["HH:MM:SS"] times and overlaps none of them. *)
Theorem create_daily_schedule_avoids_existing day_number date_str tt destination
    is_last_day location accommodation_place planContext existing blocks :
  get_existing_blocks_for_date planContext date_str = Ok existing ->
  Forall well_timed existing ->
  create_daily_schedule call_google_places day_number date_str tt destination is_last_day
    location accommodation_place planContext = Ok blocks ->
  Forall (fits existing) blocks.
Proof. exact (daily_schedule_fits day_number date_str tt destination is_last_day location
                accommodation_place planContext existing blocks). Qed.

(** A 21:00 block is the lodging [acc] of a day [i] that is not the last
    one, with that day's placeholder TimeTable id. *)
Definition lodging_of (acc : option place) (days : Z) (b : dict) : Prop :=
  get "blockStartTime" b = JStr "21:00:00" ->
  exists a date_str (i : nat),
    acc = Some a /\ Z.of_nat i + 1 < days
    /\ b = create_place_block_from_data a "21:00:00" "23:59:00" date_str (- (Z.of_nat i + 1)).

Lemma daily_lodging day_number date_str tt destination is_last_day location
    accommodation_place planContext blocks :
  create_daily_schedule call_google_places day_number date_str tt destination is_last_day
    location accommodation_place planContext = Ok blocks ->
  Forall (fun b => get "blockStartTime" b = JStr "21:00:00" ->
            is_last_day = false
            /\ exists a, accommodation_place = Some a
                 /\ b = create_place_block_from_data a "21:00:00" "23:59:00" date_str tt)
    blocks.
Proof.
  intros H. unfold create_daily_schedule in H.
  destruct (get_existing_blocks_for_date planContext date_str) as [existing|];
    [|discriminate].
  cbv zeta in H.
  assert (Slot : forall st et q idx bs bs',
            st <> "21:00:00"%string ->
            Forall (fun b => get "blockStartTime" b = JStr "21:00:00" ->
                      is_last_day = false
                      /\ exists a, accommodation_place = Some a
                           /\ b = create_place_block_from_data a "21:00:00" "23:59:00"
                                  date_str tt) bs ->
            search_slot call_google_places existing q st et date_str tt location idx bs
            = Ok bs' ->
            Forall (fun b => get "blockStartTime" b = JStr "21:00:00" ->
                      is_last_day = false
                      /\ exists a, accommodation_place = Some a
                           /\ b = create_place_block_from_data a "21:00:00" "23:59:00"
                                  date_str tt) bs').
  { intros st et q idx bs bs' Hst Hb Hss.
    refine (search_slot_forall _ _ _ _ _ _ _ _ _ _ _ Hb _ Hss).
    intros _ p Hp. simpl in Hp. injection Hp as Hp. contradiction. }
  destruct (search_slot _ _ _ "09:00:00" "11:00:00" _ _ _ _ _) as [b1|] eqn:E1;
    [|discriminate].
  destruct (search_slot _ _ _ "12:00:00" "14:00:00" _ _ _ _ _) as [b2|] eqn:E2;
    [|discriminate].
  destruct (search_slot _ _ _ "18:00:00" "20:00:00" _ _ _ _ _) as [b3|] eqn:E3;
    [|discriminate].
  assert (F1 := Slot "09:00:00" "11:00:00" _ _ _ _ ltac:(discriminate) (Forall_nil _) E1).
  assert (F2 := Slot "12:00:00" "14:00:00" _ _ _ _ ltac:(discriminate) F1 E2).
  assert (F3 := Slot "18:00:00" "20:00:00" _ _ _ _ ltac:(discriminate) F2 E3).
  destruct accommodation_place as [acc|]; [|apply ok_eq in H; subst; exact F3].
  destruct is_last_day; [apply ok_eq in H; subst; exact F3|].
  destruct (has_time_conflict existing "21:00:00" "23:59:00") as [[|]|x];
    try discriminate; apply ok_eq in H; subst; [exact F3|].
  apply Forall_app. split; [exact F3|]. constructor; [|constructor].
  intros _. split; [reflexivity|]. exists acc. split; reflexivity.
Qed.

Lemma day_loop_lodging fuel day days start_date_obj planContext destination location
    accommodation_place tts pbs :
  Z.of_nat day + Z.of_nat fuel <= Z.max 0 days ->
  day_loop call_google_places fuel day days start_date_obj planContext destination
    location accommodation_place = Ok (tts, pbs) ->
  Forall (lodging_of accommodation_place days) pbs.
Proof.
  revert day tts pbs. induction fuel as [|f IH]; intros day tts pbs Hf H; simpl in H.
  - injection H as <- <-. constructor.
  - destruct (add_days start_date_obj (Z.of_nat day)) as [cd|]; [|discriminate].
    destruct (create_daily_schedule _ (S day) _ _ _ _ _ _ _) as [bs|] eqn:Ed;
      [|discriminate].
    destruct (day_loop _ f (S day) _ _ _ _ _ _) as [[tts' pbs']|] eqn:El; [|discriminate].
    injection H as <- <-. apply Forall_app. split.
    + apply daily_lodging in Ed. eapply Forall_impl; [|exact Ed].
      intros b Hb Hs. destruct (Hb Hs) as [Hl [a [Ha Hbe]]].
      exists a, (format_date cd), day. split; [exact Ha|]. split; [|exact Hbe].
      apply Z.eqb_neq in Hl. lia.
    + apply (IH (S day) tts' pbs'); [lia | exact El].
Qed.

(** Extra: every 21:00 block [create_auto_schedule] emits is the one lodging
    [choose_accommodation] picked for the trip, placed on a day that is not
    the last one; with no lodging picked (in particular for a trip of one
    day) there is no 21:00 block. *)
Theorem create_auto_schedule_lodging days start_date planContext destination tts pbs :
  create_auto_schedule call_google_places days start_date planContext destination
  = Ok (tts, pbs) ->
  exists start_date_obj accommodation_place,
    strptime_date start_date = Ok start_date_obj
    /\ choose_accommodation call_google_places days start_date_obj planContext destination
         (get "TravelName" planContext) = Ok accommodation_place
    /\ Forall (lodging_of accommodation_place days) pbs.
Proof.
  unfold create_auto_schedule. intros H.
  destruct (strptime_date start_date) as [sdo|]; [|discriminate]. cbv zeta in H.
  destruct (choose_accommodation _ days sdo planContext destination _) as [acc|] eqn:Ec;
    [|discriminate].
  exists sdo, acc. split; [reflexivity|]. split; [exact Ec|].
  refine (day_loop_lodging _ _ _ _ _ _ _ _ _ _ _ H).
  destruct days as [|p|p]; [reflexivity | rewrite Z2Nat.id by lia; lia | simpl; lia].
Qed.

End Schedule.

End ScheduleFacts.

Module ScheduleFactsExamples.

Import Chat Slots AutoSchedule ScheduleFacts.
Local Open Scope Z_scope.
Local Open Scope list_scope.

Definition ex_timed (st et : string) : dict :=
  [("date", JStr "2025-01-01"); ("blockStartTime", JStr st); ("blockEndTime", JStr et)].

Lemma ex_timed_well_timed st et s e :
  strptime_hms st = Some s -> strptime_hms et = Some e -> well_timed (ex_timed st et).
Proof.
  intros Hs He. right. right. exists s, e, st, et.
  split; [reflexivity|]. split; [exact Hs|]. split; [reflexivity | exact He].
Qed.

(** A block from 10:00 to 12:00 and a block without an end. *)
Definition ex_existing : list dict :=
  [ex_timed "10:00:00" "12:00:00"; [("blockStartTime", JStr "08:00:00")]].

Lemma ex_existing_well_timed : Forall well_timed ex_existing.
Proof.
  constructor; [exact (ex_timed_well_timed "10:00:00" "12:00:00" 36000 43200 eq_refl eq_refl)|].
  constructor; [right; left; reflexivity | constructor].
Qed.

Lemma has_time_conflict_iff_overlap_witness :
  Forall well_timed ex_existing /\ strptime_hms "11:00:00" = Some 39600
  /\ strptime_hms "13:00:00" = Some 46800
  /\ (exists r, has_time_conflict ex_existing "11:00:00" "13:00:00" = Ok r
        /\ (r = true <-> Exists (overlaps 39600 46800) ex_existing))
  /\ has_time_conflict ex_existing "11:00:00" "13:00:00" = Ok true.
Proof.
  split; [exact ex_existing_well_timed|]. split; [reflexivity|]. split; [reflexivity|].
  split; [|reflexivity].
  exact (has_time_conflict_iff_overlap ex_existing "11:00:00" "13:00:00" 39600 46800
           ex_existing_well_timed eq_refl eq_refl).
Defined.

(** A places API that always finds a place named after the query. *)
Definition ex_places (q : string) (_ : value) (_ : nat) : option place :=
  Some {| placeName := JStr q; placeRating := JFloat 45 (-1); placeAddress := JStr "Seoul";
          placeId := JStr q; xLocation := JFloat 1270 (-1); yLocation := JFloat 375 (-1);
          placeLink := JNull |}.

Definition ex_hotel : place :=
  {| placeName := JStr "Hotel"; placeRating := JFloat 0 0; placeAddress := JStr "Seoul";
     placeId := JStr "h"; xLocation := JFloat 1270 (-1); yLocation := JFloat 375 (-1);
     placeLink := JNull |}.

(** A plan with a lunch block on 2025-01-01 from 12:30 to 13:30. *)
Definition ex_plan : dict :=
  [("TravelName", JStr "Seoul");
   ("TimeTablePlaceBlocks", JList [JObj (ex_timed "12:30:00" "13:30:00")])].

Definition ex_day : list dict :=
  match create_daily_schedule ex_places 1 "2025-01-01" (-1) "Seoul" false (JStr "Seoul")
          (Some ex_hotel) ex_plan with
  | Ok bs => bs | Raise _ => []
  end.

Lemma create_daily_schedule_avoids_existing_witness :
  get_existing_blocks_for_date ex_plan "2025-01-01" = Ok [ex_timed "12:30:00" "13:30:00"]
  /\ Forall well_timed [ex_timed "12:30:00" "13:30:00"]
  /\ create_daily_schedule ex_places 1 "2025-01-01" (-1) "Seoul" false (JStr "Seoul")
       (Some ex_hotel) ex_plan = Ok ex_day
  /\ Forall (fits [ex_timed "12:30:00" "13:30:00"]) ex_day
  /\ map (get "blockStartTime") ex_day
     = [JStr "09:00:00"; JStr "18:00:00"; JStr "21:00:00"].
Proof.
  assert (He : get_existing_blocks_for_date ex_plan "2025-01-01"
               = Ok [ex_timed "12:30:00" "13:30:00"]) by reflexivity.
  assert (Hw : Forall well_timed [ex_timed "12:30:00" "13:30:00"])
    by (constructor; [exact (ex_timed_well_timed "12:30:00" "13:30:00" 45000 48600 eq_refl eq_refl)
                     | constructor]).
  assert (Hd : create_daily_schedule ex_places 1 "2025-01-01" (-1) "Seoul" false
                 (JStr "Seoul") (Some ex_hotel) ex_plan = Ok ex_day)
    by (vm_compute; reflexivity).
  split; [exact He|]. split; [exact Hw|]. split; [exact Hd|]. split; [|vm_compute; reflexivity].
  exact (create_daily_schedule_avoids_existing ex_places 1 "2025-01-01" (-1) "Seoul" false
           (JStr "Seoul") (Some ex_hotel) ex_plan _ ex_day He Hw Hd).
Defined.

Definition ex_trip : list dict * list dict :=
  match create_auto_schedule ex_places 3 "2025-01-01" [("TravelName", JStr "Seoul")] "Seoul"
  with Ok r => r | Raise _ => ([], []) end.

(** A 3-day trip: the hotel found for the destination on days 1 and 2. *)
Lemma create_auto_schedule_lodging_witness :
  create_auto_schedule ex_places 3 "2025-01-01" [("TravelName", JStr "Seoul")] "Seoul"
  = Ok (fst ex_trip, snd ex_trip)
  /\ (exists start_date_obj accommodation_place,
        strptime_date "2025-01-01" = Ok start_date_obj
        /\ choose_accommodation ex_places 3 start_date_obj [("TravelName", JStr "Seoul")]
             "Seoul" (get "TravelName" [("TravelName", JStr "Seoul")])
           = Ok accommodation_place
        /\ Forall (lodging_of accommodation_place 3) (snd ex_trip))
  /\ map (get "placeName")
       (filter (fun b => match get "blockStartTime" b with
                         | JStr s => String.eqb s "21:00:00" | _ => false end)
          (snd ex_trip))
     = [JStr "Seoul 호텔"; JStr "Seoul 호텔"].
Proof.
  assert (H : create_auto_schedule ex_places 3 "2025-01-01" [("TravelName", JStr "Seoul")]
                "Seoul" = Ok (fst ex_trip, snd ex_trip)) by (vm_compute; reflexivity).
  split; [exact H|]. split; [|vm_compute; reflexivity].
  exact (create_auto_schedule_lodging ex_places 3 "2025-01-01" [("TravelName", JStr "Seoul")]
           "Seoul" _ _ H).
Defined.

End ScheduleFactsExamples.

Module NormalizeFacts.

Import Normalize NormalizeProofs.
Local Open Scope list_scope.

Section NormalizeActions.

Variable robust_json_parse : string -> value.

Lemma normalize_entry_keeps_mapping d :
  target_is_mapping d -> normalize_entry robust_json_parse d = d.
Proof.
  intros [fs Hfs]. unfold normalize_entry, get. rewrite Hfs. reflexivity.
Qed.

Lemma normalize_list_keeps_mappings ds :
  Forall target_is_mapping ds -> normalize_list robust_json_parse (map JObj ds) = ds.
Proof.
  induction ds as [|d ds IH]; intros H; [reflexivity|].
  apply Forall_cons_iff in H as [Hd Hds]. simpl.
  rewrite (normalize_entry_keeps_mapping d Hd), (IH Hds). reflexivity.
Qed.

Lemma normalize_actions_mapping raw :
  Forall target_is_mapping (_normalize_actions robust_json_parse raw).
Proof.
  unfold _normalize_actions. destruct raw; try apply normalize_list_mapping. constructor.
Qed.

(** Extra: a list of action dicts whose [target] fields already hold
    mappings goes through [_normalize_actions] unchanged. *)
Theorem normalize_actions_keeps_normalized ds :
  Forall target_is_mapping ds ->
  _normalize_actions robust_json_parse (JList (map JObj ds)) = ds.
Proof. intros H. exact (normalize_list_keeps_mappings ds H). Qed.

(** Extra: [_normalize_actions] is idempotent: normalizing its own output
    again gives the same list. *)
Theorem normalize_actions_idempotent raw :
  _normalize_actions robust_json_parse
    (JList (map JObj (_normalize_actions robust_json_parse raw)))
  = _normalize_actions robust_json_parse raw.
Proof.
  exact (normalize_list_keeps_mappings _ (normalize_actions_mapping raw)).
Qed.

End NormalizeActions.

End NormalizeFacts.

Module NormalizeFactsExamples.

Import Normalize NormalizeProofs NormalizeFacts.
Local Open Scope list_scope.

Definition ex_parse (s : string) : value := JStr s.

Definition ex_actions : list dict :=
  [[("action", JStr "create"); ("targetName", JStr "timeTable");
    ("target", JObj [("date", JStr "2025-01-01")])];
   [("action", JStr "delete"); ("target", JObj [])]].

Lemma normalize_actions_keeps_normalized_witness :
  Forall target_is_mapping ex_actions
  /\ _normalize_actions ex_parse (JList (map JObj ex_actions)) = ex_actions.
Proof.
  assert (H : Forall target_is_mapping ex_actions).
  { constructor; [eexists; reflexivity|]. constructor; [eexists; reflexivity | constructor]. }
  split; [exact H | exact (normalize_actions_keeps_normalized ex_parse ex_actions H)].
Defined.

End NormalizeFactsExamples.

Module ChatFacts.

Import JsonFacts Chat SlotFacts.
Local Open Scope list_scope.

(** Extra: the Gemini handler never returns an action: whatever the model
    and its reply, the response has [hasAction = false] and no actions. *)
Theorem gemini_handler_never_acts gemini_model full_message :
  hasAction (handle_java_chatbot_request_gemini gemini_model full_message) = false
  /\ actions (handle_java_chatbot_request_gemini gemini_model full_message) = [].
Proof.
  unfold handle_java_chatbot_request_gemini.
  destruct gemini_model as [generate_content|]; [|split; reflexivity].
  destruct (generate_content full_message) as [response|]; [|split; reflexivity].
  destruct (text response) as [t|]; [|split; reflexivity].
  destruct (String.eqb t ""); [split; reflexivity|].
  destruct (Repair.loads t) as [[| | | | | |d]|]; try (split; reflexivity).
  destruct (validate_ai_response d) as [[[um ha] acts]|]; [|split; reflexivity].
  destruct ha; split; reflexivity.
Qed.

(** Extra: in revision 10e020d, the response built from the parsed reply
    has [hasAction = true] exactly when its action list is non-empty. *)
Theorem revb_has_action_iff_actions robust_json_parse ai_data_parsed :
  hasAction (revb_from_parsed robust_json_parse ai_data_parsed) = true
  <-> actions (revb_from_parsed robust_json_parse ai_data_parsed) <> [].
Proof.
  destruct ai_data_parsed; simpl; try (split; [discriminate | congruence]).
  destruct (validate_ai_response _) as [[[um ha] acts]|]; simpl;
    [|split; [discriminate | congruence]].
  destruct ha, acts; simpl; split; congruence.
Qed.

Lemma lookup_setitem_other k k' v d :
  k <> k' -> lookup k (setitem k' v d) = lookup k d.
Proof.
  intros Hne. induction d as [|[k'' v''] r IH]; simpl.
  - destruct (String.eqb_spec k k'); [contradiction | reflexivity].
  - destruct (String.eqb_spec k' k'') as [<-|Hk']; simpl.
    + destruct (String.eqb_spec k k'); [contradiction|].
      reflexivity.
    + destruct (String.eqb k k''); [reflexivity | exact IH].
Qed.

(** Extra: the arguments [handle_java_chatbot_request] passes to a tool
    carry the request's [planContext] whatever the model sent, a float
    [timeTableId] truncated to an int, and every other argument as the
    model sent it. *)
Theorem prepare_args_fields raw_args planContext :
  lookup "planContext" (prepare_args raw_args planContext) = Some planContext
  /\ lookup "timeTableId" (prepare_args raw_args planContext)
     = match lookup "timeTableId" raw_args with
       | Some (JFloat m e) => Some (JInt (py_int_of_float m e))
       | o => o
       end
  /\ forall k, k <> "planContext" -> k <> "timeTableId" ->
       lookup k (prepare_args raw_args planContext) = lookup k raw_args.
Proof.
  unfold prepare_args.
  remember (setitem "planContext" planContext raw_args) as args eqn:Ea.
  assert (Hp : lookup "planContext" args = Some planContext)
    by (subst args; apply lookup_setitem_same).
  assert (Ho : forall k, k <> "planContext" -> lookup k args = lookup k raw_args)
    by (intros k Hk; subst args; apply lookup_setitem_other; exact Hk).
  rewrite <- (Ho "timeTableId") by discriminate.
  destruct (lookup "timeTableId" args) as [v|] eqn:E; [destruct v|]; cbv beta iota;
    try (split; [exact Hp|]; split; [exact E | intros k Hk _; exact (Ho k Hk)]).
  split; [rewrite lookup_setitem_other by discriminate; exact Hp|].
  split; [apply lookup_setitem_same|].
  intros k Hk Ht. rewrite lookup_setitem_other by exact Ht. exact (Ho k Hk).
Qed.

Section ToolCalls.

Variable run_single : dict -> result dict.
Variable run_multi : dict -> result (list dict).
Variable planContext : value.

(** An action of the tool loop: the creation of a block that one of the two
    tools returned, never the error dict of the single search. *)
Definition tool_block (a : ActionData) : Prop :=
  action a = "create" /\ targetName a = "timeTablePlaceBlock"
  /\ ((exists args, run_single args = Ok (target a) /\ mem "error" (target a) = false)
      \/ (exists args blocks, run_multi args = Ok blocks /\ In (target a) blocks)).

Definition outcome_ok (o : loop_outcome) : Prop :=
  match o with
  | Continue acts => Forall tool_block acts
  | Return r => r = not_found_response
  end.

Lemma process_parts_ok parts acc o :
  Forall tool_block acc ->
  process_parts run_single run_multi planContext parts acc = Ok o -> outcome_ok o.
Proof.
  revert acc. induction parts as [|p rest IH]; intros acc Hacc; simpl.
  - intros H. apply ok_eq in H. subst o. exact Hacc.
  - destruct (function_call_of p) as [fc|]; [|apply IH; exact Hacc].
    destruct (String.eqb (fc_name fc) ""); [apply IH; exact Hacc|].
    destruct (String.eqb (fc_name fc) "search_and_create_place_block").
    + destruct (run_single (prepare_args (fc_args fc) planContext)) as [block|] eqn:Er;
        [|discriminate].
      destruct (mem "error" block) eqn:Em.
      * intros H. apply ok_eq in H. subst o. reflexivity.
      * apply IH. apply Forall_app. split; [exact Hacc|]. constructor; [|constructor].
        split; [reflexivity|]. split; [reflexivity|]. left.
        exists (prepare_args (fc_args fc) planContext). split; assumption.
    + destruct (String.eqb (fc_name fc) "search_multiple_place_blocks");
        [|apply IH; exact Hacc].
      destruct (run_multi (prepare_args (fc_args fc) planContext)) as [blocks|] eqn:Er;
        [|discriminate].
      destruct blocks as [|b bs]; [intros H; apply ok_eq in H; subst o; reflexivity|].
      apply IH. apply Forall_app. split; [exact Hacc|].
      apply Forall_forall. intros a Ha. apply in_map_iff in Ha as [blk [<- Hin]].
      split; [reflexivity|]. split; [reflexivity|]. right.
      exists (prepare_args (fc_args fc) planContext), (b :: bs). split; assumption.
Qed.

Lemma tool_loop_ok cands acc o :
  Forall tool_block acc ->
  tool_loop run_single run_multi planContext cands acc = Ok o -> outcome_ok o.
Proof.
  revert acc. induction cands as [|c rest IH]; intros acc Hacc; simpl.
  - intros H. apply ok_eq in H. subst o. exact Hacc.
  - destruct (content_parts c) as [ps|]; [|apply IH; exact Hacc].
    destruct (process_parts run_single run_multi planContext ps acc) as [[acc'|r]|e] eqn:Ep.
    + apply IH. exact (process_parts_ok _ _ _ Hacc Ep).
    + intros H. apply ok_eq in H. subst o. exact (process_parts_ok _ _ _ Hacc Ep).
    + discriminate.
Qed.

(** Extra: the tool-call loop of [handle_java_chatbot_request] (revision
    HEAD) either stops with the not-found reply or collects only [create]
    actions on [timeTablePlaceBlock] whose targets are blocks a tool
    returned, never an error dict of [search_and_create_place_block]. *)
Theorem tool_loop_collects_tool_blocks candidates o :
  tool_loop run_single run_multi planContext candidates [] = Ok o ->
  match o with
  | Continue acts => Forall tool_block acts
  | Return r => r = not_found_response
  end.
Proof. exact (tool_loop_ok candidates [] o (Forall_nil _)). Qed.

End ToolCalls.

End ChatFacts.

Module ChatFactsExamples.

Import Chat ChatFacts.
Local Open Scope list_scope.

Definition ex_single (_ : dict) : result dict := Ok [("error", JStr "NO_PLACE_FOUND")].

Definition ex_multi (args : dict) : result (list dict) :=
  Ok [[("placeName", JStr "A"); ("timeTableId", get "timeTableId" args)];
      [("placeName", JStr "B"); ("timeTableId", get "timeTableId" args)]].

Definition ex_candidates : list candidate :=
  [{| content_parts := Some [{| function_call_of := None |};
                             {| function_call_of := Some {| fc_name := "search_multiple_place_blocks";
                                                           fc_args := [("timeTableId", JFloat 70 (-1))] |} |}] |}].

Definition ex_outcome : loop_outcome :=
  match tool_loop ex_single ex_multi JNull ex_candidates [] with
  | Ok o => o | Raise _ => Continue []
  end.

Lemma tool_loop_collects_tool_blocks_witness :
  tool_loop ex_single ex_multi JNull ex_candidates [] = Ok ex_outcome
  /\ match ex_outcome with
     | Continue acts => Forall (tool_block ex_single ex_multi) acts
     | Return r => r = not_found_response
     end
  /\ match ex_outcome with
     | Continue acts => map (fun a => get "timeTableId" (target a)) acts
     | Return _ => []
     end = [JInt 7; JInt 7].
Proof.
  assert (H : tool_loop ex_single ex_multi JNull ex_candidates [] = Ok ex_outcome)
    by reflexivity.
  split; [exact H|]. split; [|reflexivity].
  exact (tool_loop_collects_tool_blocks ex_single ex_multi JNull ex_candidates ex_outcome H).
Defined.

End ChatFactsExamples.
